(** * Deep Research Clone: the research loop of [app.py]

    A shallow embedding of the planner, the evidence collector, the
    sufficiency evaluator, the query expander and the research loop of
    [app.py], together with the properties of the loop's control flow.

    Conventions.
    - A Python [str] is a Rocq [string] holding its UTF-8 bytes.
    - The model gateway ([client.responses.create]) is external: it is a
      parameter [create] acting on an opaque world [W].
    - Prompts are kept as templates ([fstring]): which values flow into a
      request matters, how Python renders them does not.
    - Python exceptions are values of [exn]; a computation that raises keeps
      the side effects it performed before raising.
    - The limits of the interpreter that [json.loads] runs into (the digits
      of an [int], the depth of recursion) are a parameter
      ([Json.Interpreter]), like the gateway. *)

From Stdlib Require Import String Ascii List Bool Arith ZArith Lia.
Import ListNotations.
Open Scope string_scope.
Open Scope list_scope.
Open Scope nat_scope.

Set Implicit Arguments.
Set Warnings "-register-all".

(* ================================================================== *)
(** * Python values and exceptions *)

(** What [json.loads] can return, and so what [goal], [queries] and a
    single query [q] can be at run time. A [dict] keeps insertion order. *)
Inductive pyval : Type :=
| PNone
| PBool (b : bool)
| PInt (z : Z)
| PFloat (lexeme : string)
| PStr (s : string)
| PList (xs : list pyval)
| PDict (kvs : list (string * pyval)).

(** The exceptions the modelled code can raise. [StopException] is what
    [st.stop()] raises to end the script run; [APIError] stands for any
    error raised by the OpenAI client itself. [ValueError] is the one that
    [int] raises on too many digits ([JSONDecodeError], a subclass of it,
    is kept apart); [RecursionError] is raised when containers are nested
    deeper than the interpreter allows. *)
Inductive exn : Type :=
| IndexError
| KeyError (key : string)
| TypeError
| AttributeError
| JSONDecodeError
| ValueError
| RecursionError
| APIError (msg : string)
| StopException.

Inductive result (A : Type) : Type :=
| Ok (a : A)
| Raise (e : exn).
Arguments Ok {A} a.
Arguments Raise {A} e.

Definition is_ok {A} (r : result A) : bool :=
  match r with Ok _ => true | Raise _ => false end.

(* ================================================================== *)
(** * Strings *)

Module Str.

(** [s.lower()], as far as line 98 observes it. Python lower-cases by
    Unicode code point; no character other than [Y], [E], [S] themselves
    lower-cases to one of [y], [e], [s], and a non-ASCII code point is a
    run of bytes of value 128 or more before and after. Whether the result
    contains [yes] is therefore decided by the ASCII letters alone. *)
Definition lower_ascii (c : ascii) : ascii :=
  let n := N_of_ascii c in
  if ((65 <=? n) && (n <=? 90))%N then ascii_of_N (n + 32) else c.

Fixpoint lower (s : string) : string :=
  match s with
  | EmptyString => EmptyString
  | String c s' => String (lower_ascii c) (lower s')
  end.

(** [s.startswith(p)]. *)
Fixpoint startswith (p s : string) : bool :=
  match p, s with
  | EmptyString, _ => true
  | String a p', String b s' => Ascii.eqb a b && startswith p' s'
  | String _ _, EmptyString => false
  end.

(** [needle in hay] for two [str]. *)
Fixpoint contains (needle hay : string) : bool :=
  if startswith needle hay then true
  else match hay with
       | EmptyString => false
       | String _ hay' => contains needle hay'
       end.

(** Python truthiness of a [str]: [not text] holds for the empty one. *)
Definition is_empty (s : string) : bool :=
  match s with EmptyString => true | String _ _ => false end.

End Str.

(* ================================================================== *)
(** * [json.loads]

    The decoder of Python's [json] module on a [str]: the scanner
    ([scan_once]), [JSONObject], [JSONArray], [scanstring] in strict mode
    and the number pattern. Integers become [PInt], a number with a
    fraction or an exponent keeps its lexeme in [PFloat].

    Two limits of the interpreter bear on the decoder. [int] refuses a
    literal of more digits than [sys.get_int_max_str_digits()], and the
    scanner enters a recursive call for every object and array it opens,
    which fails when the recursion limit is reached. The program sets
    neither limit, and how deep the stack is when [json.loads] is called
    is not its choice: both are parameters, and what is proved holds for
    every value of them. *)

Module Json.
#[local] Open Scope N_scope.

(** [int_max_str_digits] is [sys.get_int_max_str_digits()], 0 when the
    limit is off (4300 unless it was changed); [recursion_room] is how
    many containers, one inside the other, the scanner can still open
    when [json.loads] is called. *)
Class Interpreter : Type := {
  int_max_str_digits : N;
  recursion_room : nat
}.

(** A parse ends with a value and the rest of the text, with a text that
    is no JSON, or with an exception that is no [JSONDecodeError]. *)
Inductive parse (A : Type) : Type :=
| Parsed (a : A) (rest : string)
| Malformed
| Refused (e : exn)
| OutOfFuel.
Arguments Parsed {A} a rest.
Arguments Malformed {A}.
Arguments Refused {A} e.
Arguments OutOfFuel {A}.

Definition code (c : ascii) : N := N_of_ascii c.
Definition chr (n : N) : ascii := ascii_of_N n.
Definition dquote : ascii := chr 34.
Definition backslash : ascii := chr 92.

Definition is_ws (c : ascii) : bool :=
  let n := code c in
  (n =? 32) || (n =? 9) || (n =? 10) || (n =? 13).

Fixpoint skip_ws (s : string) : string :=
  match s with
  | String c s' => if is_ws c then skip_ws s' else s
  | EmptyString => s
  end.

(** The text starts with [p]: what follows it. *)
Fixpoint strip_prefix (p s : string) : option string :=
  match p, s with
  | EmptyString, _ => Some s
  | String a p', String b s' =>
      if Ascii.eqb a b then strip_prefix p' s' else None
  | String _ _, EmptyString => None
  end.

Definition is_digit (c : ascii) : bool :=
  let n := code c in (48 <=? n) && (n <=? 57).

Definition hex_value (c : ascii) : option N :=
  let n := code c in
  if (48 <=? n) && (n <=? 57) then Some (n - 48)
  else if (65 <=? n) && (n <=? 70) then Some (n - 55)
  else if (97 <=? n) && (n <=? 102) then Some (n - 87)
  else None.

(** Four hexadecimal digits after a backslash-u. *)
Definition hex4 (s : string) : option (N * string) :=
  match s with
  | String a (String b (String c (String d rest))) =>
      match hex_value a, hex_value b, hex_value c, hex_value d with
      | Some x, Some y, Some z, Some w =>
          Some (((x * 16 + y) * 16 + z) * 16 + w, rest)
      | _, _, _, _ => None
      end
  | _ => None
  end.

(** UTF-8 bytes of a code point (a lone surrogate is encoded like any
    other three-byte code point). *)
Definition utf8 (n : N) : string :=
  if n <? 128 then String (chr n) EmptyString
  else if n <? 2048 then
    String (chr (192 + n / 64)) (String (chr (128 + n mod 64)) EmptyString)
  else if n <? 65536 then
    String (chr (224 + n / 4096))
      (String (chr (128 + (n / 64) mod 64))
         (String (chr (128 + n mod 64)) EmptyString))
  else
    String (chr (240 + n / 262144))
      (String (chr (128 + (n / 4096) mod 64))
         (String (chr (128 + (n / 64) mod 64))
            (String (chr (128 + n mod 64)) EmptyString))).

(** One escape sequence, the backslash already consumed. A high surrogate
    followed by an escaped low surrogate is one code point. *)
Definition unescape (s : string) : option (string * string) :=
  match s with
  | EmptyString => None
  | String e rest =>
      let one k := Some (String (chr k) EmptyString, rest) in
      match code e with
      | 34 => one 34            (* quote *)
      | 92 => one 92            (* backslash *)
      | 47 => one 47            (* slash *)
      | 98 => one 8             (* b *)
      | 102 => one 12           (* f *)
      | 110 => one 10           (* n *)
      | 114 => one 13           (* r *)
      | 116 => one 9            (* t *)
      | 117 =>                  (* u *)
          match hex4 rest with
          | None => None
          | Some (hi, rest1) =>
              let single := Some (utf8 hi, rest1) in
              if (55296 <=? hi) && (hi <=? 56319) then
                match rest1 with
                | String b1 (String u1 rest2) =>
                    if Ascii.eqb b1 backslash && (code u1 =? 117) then
                      match hex4 rest2 with
                      | Some (lo, rest3) =>
                          if (56320 <=? lo) && (lo <=? 57343) then
                            Some (utf8 (65536 + (hi - 55296) * 1024
                                        + (lo - 56320)), rest3)
                          else single
                      | None => single
                      end
                    else single
                | _ => single
                end
              else single
          end
      | _ => None
      end
  end.

(** [scanstring] in strict mode, the opening quote already consumed.
    The fuel counts characters. *)
Fixpoint scanstring (fuel : nat) (s : string) : parse string :=
  match fuel with
  | O => OutOfFuel
  | S fuel' =>
      match s with
      | EmptyString => Malformed
      | String c rest =>
          if Ascii.eqb c dquote then Parsed EmptyString rest
          else if Ascii.eqb c backslash then
            match unescape rest with
            | None => Malformed
            | Some (chunk, rest') =>
                match scanstring fuel' rest' with
                | Parsed str r => Parsed (chunk ++ str)%string r
                | Malformed => Malformed
                | Refused e => Refused e
                | OutOfFuel => OutOfFuel
                end
            end
          else if code c <? 32 then Malformed
          else
            match scanstring fuel' rest with
            | Parsed str r => Parsed (String c str) r
            | Malformed => Malformed
            | Refused e => Refused e
            | OutOfFuel => OutOfFuel
            end
      end
  end.

Definition scan_string (s : string) : parse string :=
  scanstring (S (String.length s)) s.

(** The longest run of decimal digits at the front. *)
Fixpoint span_digits (s : string) : string * string :=
  match s with
  | String c s' =>
      if is_digit c then
        let (ds, r) := span_digits s' in (String c ds, r)
      else (EmptyString, s)
  | EmptyString => (EmptyString, s)
  end.

Fixpoint digits_value (acc : Z) (ds : string) : Z :=
  match ds with
  | EmptyString => acc
  | String c ds' => digits_value (acc * 10 + Z.of_N (code c - 48))%Z ds'
  end.

(** The integer part of the number pattern: an optional minus sign, then
    a single zero or a run of digits that does not start with zero. *)
Definition scan_int (s : string) : option (bool * string * string) :=
  let (neg, s1) :=
    match s with
    | String c s' => if code c =? 45 then (true, s') else (false, s)
    | EmptyString => (false, s)
    end in
  match s1 with
  | String c s2 =>
      if code c =? 48 then Some (neg, String c EmptyString, s2)
      else if is_digit c then
        let (ds, r) := span_digits s1 in Some (neg, ds, r)
      else None
  | EmptyString => None
  end.

(** The optional fraction: a dot and at least one digit. *)
Definition scan_frac (s : string) : string * string :=
  match s with
  | String c s' =>
      if code c =? 46 then
        match span_digits s' with
        | (EmptyString, _) => (EmptyString, s)
        | (ds, r) => (String c ds, r)
        end
      else (EmptyString, s)
  | EmptyString => (EmptyString, s)
  end.

(** The optional exponent: [e] or [E], an optional sign, at least one
    digit. *)
Definition scan_exp (s : string) : string * string :=
  match s with
  | String c s' =>
      if (code c =? 101) || (code c =? 69) then
        let (sign, s'') :=
          match s' with
          | String d t =>
              if (code d =? 43) || (code d =? 45)
              then (String d EmptyString, t) else (EmptyString, s')
          | EmptyString => (EmptyString, s')
          end in
        match span_digits s'' with
        | (EmptyString, _) => (EmptyString, s)
        | (ds, r) => (String c (sign ++ ds)%string, r)
        end
      else (EmptyString, s)
  | EmptyString => (EmptyString, s)
  end.

(** [int] on a run of decimal digits checks the limit of the interpreter
    when there are more than 640 of them; a limit of 0 is no limit. The
    sign is not counted. *)
Definition exceeds_int_limit `{Interpreter} (ds : string) : bool :=
  let n := N.of_nat (String.length ds) in
  (640 <? n) && (0 <? int_max_str_digits) && (int_max_str_digits <? n).

(** A number: [int] of the lexeme when there is neither fraction nor
    exponent, [float] of it otherwise. Only [int] can raise. *)
Definition scan_number `{Interpreter} (s : string)
  : option (result pyval * string) :=
  match scan_int s with
  | None => None
  | Some (neg, ds, r1) =>
      let (frac, r2) := scan_frac r1 in
      let (ex, r3) := scan_exp r2 in
      let sign := if neg then "-"%string else EmptyString in
      match frac, ex with
      | EmptyString, EmptyString =>
          if exceeds_int_limit ds then Some (Raise ValueError, r3)
          else
            let z := digits_value 0%Z ds in
            Some (Ok (PInt (if neg then (- z)%Z else z)), r3)
      | _, _ => Some (Ok (PFloat (sign ++ ds ++ frac ++ ex)%string), r3)
      end
  end.

(** The constants of the scanner, tried after the number pattern. *)
Definition scan_constant `{Interpreter} (s : string)
  : option (result pyval * string) :=
  let try_ (p : string) (v : pyval) (k : option (result pyval * string)) :=
    match strip_prefix p s with
    | Some r => Some (Ok v, r)
    | None => k
    end in
  try_ "null"%string PNone
    (try_ "true"%string (PBool true)
      (try_ "false"%string (PBool false)
        (match scan_number s with
         | Some x => Some x
         | None =>
             try_ "NaN"%string (PFloat "NaN")
               (try_ "Infinity"%string (PFloat "Infinity")
                 (try_ "-Infinity"%string (PFloat "-Infinity") None))
         end))).

(** [d[k] = v] on a [dict]: a repeated key keeps its place and takes the
    new value. *)
Fixpoint dict_set (kvs : list (string * pyval)) (k : string) (v : pyval)
  : list (string * pyval) :=
  match kvs with
  | [] => [(k, v)]
  | (k', v') :: kvs' =>
      if String.eqb k' k then (k', v) :: kvs'
      else (k', v') :: dict_set kvs' k v
  end.

(** [scan_once], [JSONArray] and [JSONObject]. [array_items] starts at an
    element, [object_members] at the opening quote of a key. Before it
    reads an object or an array the scanner enters a recursive call:
    [room] is how many of them can still be entered, and with none left
    the opening bracket raises [RecursionError]. The fuel only bounds the
    recursion of the model. *)
Fixpoint scan_once `{Interpreter} (fuel : nat) (room : nat) (s : string)
  : parse pyval :=
  match fuel with
  | O => OutOfFuel
  | S fuel' =>
      match s with
      | EmptyString => Malformed
      | String c rest =>
          match code c with
          | 34 =>
              match scan_string rest with
              | Parsed str r => Parsed (PStr str) r
              | Malformed => Malformed
              | Refused e => Refused e
              | OutOfFuel => OutOfFuel
              end
          | 123 =>
              match room with
              | O => Refused RecursionError
              | S room' =>
                  match skip_ws rest with
                  | String d r =>
                      if code d =? 125 then Parsed (PDict []) r
                      else object_members fuel' room' [] (String d r)
                  | EmptyString => Malformed
                  end
              end
          | 91 =>
              match room with
              | O => Refused RecursionError
              | S room' =>
                  match skip_ws rest with
                  | String d r =>
                      if code d =? 93 then Parsed (PList []) r
                      else array_items fuel' room' [] (String d r)
                  | EmptyString => Malformed
                  end
              end
          | _ =>
              match scan_constant s with
              | Some (Ok v, r) => Parsed v r
              | Some (Raise e, _) => Refused e
              | None => Malformed
              end
          end
      end
  end

with array_items `{Interpreter} (fuel : nat) (room : nat) (acc : list pyval)
  (s : string) : parse pyval :=
  match fuel with
  | O => OutOfFuel
  | S fuel' =>
      match scan_once fuel' room s with
      | Parsed v r =>
          match skip_ws r with
          | String d r' =>
              if code d =? 93 then Parsed (PList (acc ++ [v])) r'
              else if code d =? 44 then
                array_items fuel' room (acc ++ [v]) (skip_ws r')
              else Malformed
          | EmptyString => Malformed
          end
      | Malformed => Malformed
      | Refused e => Refused e
      | OutOfFuel => OutOfFuel
      end
  end

with object_members `{Interpreter} (fuel : nat) (room : nat)
  (acc : list (string * pyval)) (s : string) : parse pyval :=
  match fuel with
  | O => OutOfFuel
  | S fuel' =>
      match s with
      | EmptyString => Malformed
      | String q r0 =>
          if negb (Ascii.eqb q dquote) then Malformed
          else
            match scan_string r0 with
            | Parsed key r1 =>
                match skip_ws r1 with
                | String colon r2 =>
                    if negb (code colon =? 58) then Malformed
                    else
                      match scan_once fuel' room (skip_ws r2) with
                      | Parsed v r3 =>
                          let acc' := dict_set acc key v in
                          match skip_ws r3 with
                          | String d r4 =>
                              if code d =? 125 then Parsed (PDict acc') r4
                              else if code d =? 44 then
                                object_members fuel' room acc' (skip_ws r4)
                              else Malformed
                          | EmptyString => Malformed
                          end
                      | Malformed => Malformed
                      | Refused e => Refused e
                      | OutOfFuel => OutOfFuel
                      end
                | EmptyString => Malformed
                end
            | Malformed => Malformed
            | Refused e => Refused e
            | OutOfFuel => OutOfFuel
            end
      end
  end.

(** A successful parse leaves less than it was given. *)
Definition consumes (p : parse pyval) (s : string) : Prop :=
  forall v r, p = Parsed v r -> (String.length r < String.length s)%nat.

(** What a refusal can be: [ValueError], and then a limit on the digits
    of [int] is set, or [RecursionError]. *)
Definition refusal `{Interpreter} (e : exn) : Prop :=
  (e = ValueError /\ 0 < int_max_str_digits) \/ e = RecursionError.

(** [json.loads(s)]: one value, white space allowed around it, nothing
    else after it. A text that is no JSON raises [JSONDecodeError]; an
    integer of too many digits raises [ValueError] and nesting that is too
    deep [RecursionError], each where the scanner meets it. *)
Definition loads `{Interpreter} (s : string) : result pyval :=
  match scan_once (2 * String.length s + 2) recursion_room (skip_ws s) with
  | Parsed v rest =>
      match skip_ws rest with
      | EmptyString => Ok v
      | String _ _ => Raise JSONDecodeError
      end
  | Refused e => Raise e
  | Malformed | OutOfFuel => Raise JSONDecodeError
  end.

End Json.

(** A text with double quotes is written with single quotes, which
    [jtext] turns into double quotes. *)
Fixpoint jtext (s : string) : string :=
  match s with
  | EmptyString => EmptyString
  | String c s' =>
      String (if Ascii.eqb c "'"%char then Json.dquote else c) (jtext s')
  end.

(* ================================================================== *)
(** * The model gateway: requests and responses *)

(** One collected search result: the dict built on lines 82-86. *)
Record evidence_item : Type := {
  query : pyval;
  resp_id : string;
  research_output : string
}.

(** An f-string, kept as its parts: literal text, a formatted value
    ([{v}]), a formatted exception ([{e}]) and [json.dumps(collected)]. *)
Inductive fpart : Type :=
| Lit (s : string)
| Fmt (v : pyval)
| FmtExn (e : exn)
| Dumps (items : list evidence_item).

Definition fstring : Type := list fpart.

Record message : Type := { role : string; content : fstring }.

Inductive req_input : Type :=
| Prompt (p : fstring)
| Messages (ms : list message).

Inductive tool : Type := web_search.

(** The keyword arguments of [client.responses.create]. An argument that
    is not passed is [None], the default of the client. *)
Record request : Type := {
  model : string;
  input : req_input;
  instructions : string;
  tools : option (list tool);
  previous_response_id : option string
}.

(** What the code reads of a response: [output], each item's [id] and
    [content], each content part's [text]. A tool invocation has an [id]
    but no [content]; a refusal part has no [text]. *)
Inductive content_part : Type :=
| output_text (text : string)
| refusal (why : string).

Inductive output_item : Type :=
| output_message (id : string) (parts : list content_part)
| tool_call (id : string).

Record response : Type := { output : list output_item }.

Definition MODEL : string := "gpt-4.1".
Definition MODEL_MINI : string := "gpt-4.1-mini".
Definition TOOLS : list tool := [web_search].
Definition developer_message : string := "
You are an expert Deep Researcher.
You provide complete and in depth research to the user.
".

(** ** Attribute access and subscripts on results *)

Definition rbind {A B} (r : result A) (k : A -> result B) : result B :=
  match r with
  | Ok a => k a
  | Raise e => Raise e
  end.

(** [xs[i]] on a list. *)
Definition index {A} (xs : list A) (i : nat) : result A :=
  match nth_error xs i with
  | Some x => Ok x
  | None => Raise IndexError
  end.

Definition item_id (it : output_item) : string :=
  match it with
  | output_message i _ => i
  | tool_call i => i
  end.

Definition item_content (it : output_item) : result (list content_part) :=
  match it with
  | output_message _ parts => Ok parts
  | tool_call _ => Raise AttributeError
  end.

Definition part_text (p : content_part) : result string :=
  match p with
  | output_text t => Ok t
  | refusal _ => Raise AttributeError
  end.

(** [item.content[0].text] *)
Definition item_text (it : output_item) : result string :=
  rbind (item_content it) (fun parts =>
  rbind (index parts 0) part_text).

(** [r.output[0].content[0].text] *)
Definition first_text (r : response) : result string :=
  rbind (index (output r) 0) item_text.

Fixpoint dict_get (kvs : list (string * pyval)) (k : string) : option pyval :=
  match kvs with
  | [] => None
  | (k', v) :: kvs' => if String.eqb k' k then Some v else dict_get kvs' k
  end.

(** [v[k]] with a [str] key [k]: only a dict can be subscripted so. *)
Definition subscript (v : pyval) (k : string) : result pyval :=
  match v with
  | PDict kvs =>
      match dict_get kvs k with
      | Some x => Ok x
      | None => Raise (KeyError k)
      end
  | _ => Raise TypeError
  end.

(** The characters of a [str]: each byte that starts a code point, with
    the continuation bytes that follow it. *)
Definition is_continuation (c : ascii) : bool :=
  let n := N_of_ascii c in ((128 <=? n) && (n <? 192))%N.

Definition starts_with_continuation (s : string) : bool :=
  match s with
  | String d _ => is_continuation d
  | EmptyString => false
  end.

Fixpoint utf8_chars (s : string) : list string :=
  match s with
  | EmptyString => []
  | String c s' =>
      match utf8_chars s' with
      | g :: gs =>
          if starts_with_continuation s' then String c g :: gs
          else String c EmptyString :: g :: gs
      | [] => [String c EmptyString]
      end
  end.

(** What [for q in v] iterates over. The loop never mutates [v], so the
    items are those present when the [for] statement starts. *)
Definition py_iter (v : pyval) : result (list pyval) :=
  match v with
  | PList xs => Ok xs
  | PStr s => Ok (map PStr (utf8_chars s))
  | PDict kvs => Ok (map (fun kv => PStr (fst kv)) kvs)
  | PNone | PBool _ | PInt _ | PFloat _ => Raise TypeError
  end.

(** ** The session *)

(** [st.session_state], with the keys of lines 22-37. *)
Module Session.

Record t : Type := {
  step : nat;
  topic : string;
  questions : list string;
  answers : list string;
  goal : pyval;
  queries : pyval;
  collected : list evidence_item;
  report : string
}.

(** Lines 22-37: the session of a first run. *)
Definition initial : t :=
  {| step := 0; topic := EmptyString; questions := []; answers := [];
     goal := PStr EmptyString; queries := PList []; collected := [];
     report := EmptyString |}.

(** [st.session_state.goal = g] and [st.session_state.queries = qs] *)
Definition set_plan (g qs : pyval) (ss : t) : t :=
  {| step := step ss; topic := topic ss; questions := questions ss;
     answers := answers ss; goal := g; queries := qs;
     collected := collected ss; report := report ss |}.

(** [collected.append(item)] on the list held by the session. *)
Definition append (item : evidence_item) (ss : t) : t :=
  {| step := step ss; topic := topic ss; questions := questions ss;
     answers := answers ss; goal := goal ss; queries := queries ss;
     collected := collected ss ++ [item]; report := report ss |}.

(** [st.session_state.collected = items] and [st.session_state.step = n] *)
Definition set_collected_step (items : list evidence_item) (n : nat) (ss : t)
  : t :=
  {| step := n; topic := topic ss; questions := questions ss;
     answers := answers ss; goal := goal ss; queries := queries ss;
     collected := items; report := report ss |}.

End Session.

(** One exchange with the gateway, as seen from outside. *)
Record call : Type := { call_request : request; call_reply : result response }.

(* ================================================================== *)
(** * The program *)

Section App.

(** The gateway: a reply, or an exception of the client, for each request,
    in a world that the call may change. Nothing is assumed about it. *)
Variable W : Type.
Variable create : request -> W -> result response * W.

(** The interpreter that runs the script, with its limits. *)
Context {python : Json.Interpreter}.

(** What a script run acts on: the gateway's world, the record of the
    calls made, what [st.error] has displayed, and [st.session_state]. *)
Record state : Type := {
  world : W;
  calls : list call;
  shown : list fstring;
  session : Session.t
}.

(** Computations: they may raise, and keep their effects when they do. *)
Definition M (A : Type) : Type := state -> result A * state.

Definition ret {A} (a : A) : M A := fun s => (Ok a, s).

Definition bind {A B} (m : M A) (k : A -> M B) : M B :=
  fun s =>
    match m s with
    | (Ok a, s') => k a s'
    | (Raise e, s') => (Raise e, s')
    end.

Definition lift {A} (r : result A) : M A := fun s => (r, s).

Notation "x <- m ;; k" := (bind m (fun x => k))
  (at level 61, m at next level, right associativity).
Notation "m ;;; k" := (bind m (fun _ => k))
  (at level 61, right associativity).

(** The state after a call: the world the gateway left, and the call
    recorded. *)
Definition logged (s : state) (r : request) (reply : result response) (w : W)
  : state :=
  {| world := w;
     calls := calls s ++ [{| call_request := r; call_reply := reply |}];
     shown := shown s;
     session := session s |}.

(** [client.responses.create(...)] *)
Definition responses_create (r : request) : M response :=
  fun s =>
    let (reply, w) := create r (world s) in (reply, logged s r reply w).

(** [st.error(msg)] and [st.stop()] *)
Definition st_error (msg : fstring) : M unit :=
  fun s =>
    (Ok tt,
     {| world := world s; calls := calls s; shown := shown s ++ [msg];
        session := session s |}).

Definition st_stop {A} : M A := fun s => (Raise StopException, s).

(** ** Query Planner: [get_goal_and_queries], lines 61-73 *)

Definition plan_request (questions answers : list string) (topic : string)
  : request :=
  {| model := MODEL;
     input := Prompt
       [Lit "
Using the user answers "; Fmt (PList (map PStr answers));
        Lit " to  questions "; Fmt (PList (map PStr questions));
        Lit ", write a goal sentence and 5 web search queries for the research about ";
        Fmt (PStr topic);
        Lit (jtext "
Output: A json list of the goal and the 5 web search queries that will reach it.
Format: {'goal': '...', 'queries': ['q1', ....]}
")];
     instructions := developer_message;
     tools := None;
     previous_response_id := None |}.

Definition get_goal_and_queries (questions answers : list string)
  (topic : string) : M (pyval * pyval) :=
  goal_and_queries <- responses_create (plan_request questions answers topic) ;;
  text <- lift (first_text goal_and_queries) ;;
  plan <- lift (Json.loads text) ;;
  goal <- lift (subscript plan "goal") ;;
  queries <- lift (subscript plan "queries") ;;
  ret (goal, queries).

(** ** Evidence Collector: [run_search], lines 75-86 *)

Definition search_request (q : pyval) : request :=
  {| model := MODEL;
     input := Prompt [Lit "search: "; Fmt q];
     instructions := developer_message;
     tools := Some TOOLS;
     previous_response_id := None |}.

Definition run_search (q : pyval) : M evidence_item :=
  web_search_reply <- responses_create (search_request q) ;;
  slot <- lift (index (output web_search_reply) 1) ;;
  text <- lift (item_text slot) ;;
  ret {| query := q; resp_id := item_id slot; research_output := text |}.

(** ** Sufficiency Evaluator: [evaluate], lines 88-98 *)

Definition evaluate_request (collected : list evidence_item) (goal : pyval)
  : request :=
  {| model := MODEL;
     input := Messages
       [{| role := "developer"; content := [Lit "Research goal: "; Fmt goal] |};
        {| role := "assistant"; content := [Dumps collected] |};
        {| role := "user";
           content := [Lit "Does this information will fully satisfy the goal? Answer Yes or No only."] |}];
     instructions := developer_message;
     tools := None;
     previous_response_id := None |}.

Definition evaluate (collected : list evidence_item) (goal : pyval) : M bool :=
  review <- responses_create (evaluate_request collected goal) ;;
  text <- lift (first_text review) ;;
  ret (Str.contains "yes" (Str.lower text)).

(** ** Query Expander: [get_more_queries], lines 100-118 *)

Definition expand_request (collected : list evidence_item) (goal : pyval)
  (prev_id : option string) : request :=
  {| model := MODEL;
     input := Messages
       [{| role := "assistant";
           content := [Lit "Current data: "; Dumps collected] |};
        {| role := "user";
           content := [Lit "This has not met the goal: "; Fmt goal;
                       Lit ". Write 5 other web searchs to achieve the goal"] |}];
     instructions := developer_message;
     tools := None;
     previous_response_id := prev_id |}.

Definition empty_response_message : fstring :=
  [Lit "OpenAI returned an empty response when generating more queries. Please check your API key, usage limits, or try again."].

Definition invalid_json_message (text : string) (e : exn) : fstring :=
  [Lit "OpenAI returned invalid JSON: "; Fmt (PStr text); Lit "
Error: "; FmtExn e].

Definition get_more_queries (collected : list evidence_item) (goal : pyval)
  (prev_id : option string) : M pyval :=
  more_searches <- responses_create (expand_request collected goal prev_id) ;;
  text <- lift (first_text more_searches) ;;
  if Str.is_empty text then
    st_error empty_response_message ;;; st_stop
  else
    match Json.loads text with
    | Ok v => ret v
    | Raise e => st_error (invalid_json_message text e) ;;; st_stop
    end.

(** ** Planning step: lines 161-167, run while the session has no plan *)

Definition with_session (f : Session.t -> Session.t) (s : state) : state :=
  {| world := world s; calls := calls s; shown := shown s;
     session := f (session s) |}.

Definition update_session (f : Session.t -> Session.t) : M unit :=
  fun s => (Ok tt, with_session f s).

Definition generate_plan : M unit :=
  fun s =>
    (plan <- get_goal_and_queries (Session.questions (session s))
               (Session.answers (session s)) (Session.topic (session s)) ;;
     update_session (Session.set_plan (fst plan) (snd plan))) s.

(** ** Research Loop: lines 176-191

    The loop as a machine. A configuration holds the state, the locals
    [_] (here [count]), [queries] and [goal], and the point of control.
    The local [collected] is bound on line 178 to the very list that
    the session holds, so [collected.append] on line 184 acts on the
    session's list, and an abort leaves there what was appended so far.
    [passes] is a ghost counter: the [for q in queries] loops run to
    their end. *)

Inductive control : Type :=
| Searching (pending : list pyval)   (* line 183, queries still to search *)
| Evaluating                         (* line 185 *)
| Expanding                          (* line 188 *)
| Finished                           (* lines 186, 189-191 *)
| Aborted (e : exn).                 (* an exception left the loop *)

Record config : Type := {
  mem : state;
  count : nat;
  queries : pyval;
  goal : pyval;
  passes : nat;
  pc : control
}.

(** Line 183: the [for] statement takes an iterator of [queries]. *)
Definition start_pass (n : nat) (qs g : pyval) (p : nat) (s : state) : config :=
  {| mem := s; count := n; queries := qs; goal := g; passes := p;
     pc := match py_iter qs with
           | Ok items => Searching items
           | Raise e => Aborted e
           end |}.

(** Lines 178-183: the locals are read from the session and the first
    iteration starts with [_ = 0]. *)
Definition enter (s : state) : config :=
  start_pass 0 (Session.queries (session s)) (Session.goal (session s)) 0 s.

Definition goto (c : config) (s : state) (k : control) : config :=
  {| mem := s; count := count c; queries := queries c; goal := goal c;
     passes := passes c; pc := k |}.

Definition loop_step (c : config) : config :=
  match pc c with
  | Searching [] =>
      {| mem := mem c; count := count c; queries := queries c;
         goal := goal c; passes := S (passes c); pc := Evaluating |}
  | Searching (q :: rest) =>
      (* line 184: collected.append(run_search(q)) *)
      match run_search q (mem c) with
      | (Ok item, s) =>
          goto c (with_session (Session.append item) s) (Searching rest)
      | (Raise e, s) => goto c s (Aborted e)
      end
  | Evaluating =>
      (* line 185: if evaluate(collected, goal): break *)
      match evaluate (Session.collected (session (mem c))) (goal c) (mem c) with
      | (Ok true, s) =>
          (* lines 189-190 *)
          goto c
            (with_session
               (Session.set_collected_step (Session.collected (session s)) 4) s)
            Finished
      | (Ok false, s) => goto c s Expanding
      | (Raise e, s) => goto c s (Aborted e)
      end
  | Expanding =>
      (* line 188: queries = get_more_queries(collected, goal, None),
         then line 182 takes the next [_] and line 183 starts over *)
      match get_more_queries (Session.collected (session (mem c))) (goal c)
              None (mem c) with
      | (Ok qs, s) => start_pass (S (count c)) qs (goal c) (passes c) s
      | (Raise e, s) => goto c s (Aborted e)
      end
  | Finished => c
  | Aborted _ => c
  end.

Fixpoint run (k : nat) (c : config) : config :=
  match k with
  | O => c
  | S k' => run k' (loop_step c)
  end.

End App.

(* ================================================================== *)
(** * Observing a run *)

(** The three requests of the loop differ in shape: only a search passes
    [tools]; an evaluation sends the roles developer, assistant, user; an
    expansion sends assistant, user. *)
Definition roles (r : request) : list string :=
  match input r with
  | Messages ms => map role ms
  | Prompt _ => []
  end.

Fixpoint same_strings (a b : list string) : bool :=
  match a, b with
  | [], [] => true
  | x :: a', y :: b' => String.eqb x y && same_strings a' b'
  | _, _ => false
  end.

Definition is_search (r : request) : bool :=
  match tools r with
  | Some _ => true
  | None => false
  end.

Definition is_evaluate (r : request) : bool :=
  same_strings (roles r) ["developer"; "assistant"; "user"].

Definition is_expand (r : request) : bool :=
  same_strings (roles r) ["assistant"; "user"].

Definition searches (tr : list call) : list call :=
  filter (fun x => is_search (call_request x)) tr.

Definition evaluations (tr : list call) : list call :=
  filter (fun x => is_evaluate (call_request x)) tr.

Definition expansions (tr : list call) : list call :=
  filter (fun x => is_expand (call_request x)) tr.

(** What [evaluate] returns for a reply, if it returns. *)
Definition verdict_of (reply : result response) : result bool :=
  rbind reply (fun review =>
  rbind (first_text review) (fun text =>
  Ok (Str.contains "yes" (Str.lower text)))).

Definition verdict (x : call) : option bool :=
  match verdict_of (call_reply x) with
  | Ok b => Some b
  | Raise _ => None
  end.

Definition verdicts (tr : list call) : list (option bool) :=
  map verdict (evaluations tr).


(** What [get_more_queries] returns for a reply, and what it displays. *)
Definition expansion_of `{Json.Interpreter} (reply : result response)
  : result pyval * list fstring :=
  match rbind reply first_text with
  | Raise e => (Raise e, [])
  | Ok text =>
      if Str.is_empty text then (Raise StopException, [empty_response_message])
      else
        match Json.loads text with
        | Ok v => (Ok v, [])
        | Raise e => (Raise StopException, [invalid_json_message text e])
        end
  end.

(** What [get_goal_and_queries] returns for a reply. *)
Definition plan_of `{Json.Interpreter} (reply : result response)
  : result (pyval * pyval) :=
  rbind reply (fun r =>
  rbind (first_text r) (fun text =>
  rbind (Json.loads text) (fun plan =>
  rbind (subscript plan "goal") (fun goal =>
  rbind (subscript plan "queries") (fun queries =>
  Ok (goal, queries)))))).

(** The text is a JSON object that has a [goal] and a [queries] key. *)
Definition has_plan_shape `{Json.Interpreter} (text : string) : Prop :=
  exists kvs goal queries,
    Json.loads text = Ok (PDict kvs) /\
    dict_get kvs "goal" = Some goal /\
    dict_get kvs "queries" = Some queries.

(** What [run_search q] returns for a reply. *)
Definition search_result (q : pyval) (reply : result response)
  : result evidence_item :=
  rbind reply (fun r =>
  rbind (index (output r) 1) (fun slot =>
  rbind (item_text slot) (fun text =>
  Ok {| query := q; resp_id := item_id slot; research_output := text |}))).

Definition calls_since {W} (s0 : state W) (c : config W) : list call :=
  skipn (length (calls s0)) (calls (mem c)).

Definition evidence {W} (c : config W) : list evidence_item :=
  Session.collected (session (mem c)).

Definition stopped {W} (c : config W) : bool :=
  match pc c with
  | Finished | Aborted _ => true
  | Searching _ | Evaluating | Expanding => false
  end.

Definition aborted {W} (c : config W) : bool :=
  match pc c with
  | Aborted _ => true
  | _ => false
  end.

(** A gateway that never fails the loop: every search comes back with a
    second slot that carries text, every evaluation with a text, every
    expansion with JSON that can be iterated over. *)
Section Cooperative.
Variable W : Type.
Variable create : request -> W -> result response * W.
Context {python : Json.Interpreter}.





End Cooperative.

(* ================================================================== *)
(** * The loop as a transition relation

    The states of the loop and the moves between them: a search pass
    ([Searching]), the evaluation, the expansion, and the two ways out. *)

Section Transitions.
Variable W : Type.
Variable create : request -> W -> result response * W.
Context {python : Json.Interpreter}.

(** The state after [get_more_queries] got [reply]. *)
Definition expanded (s : state W) (r : request) (reply : result response)
  (w : W) : state W :=
  {| world := w;
     calls := calls s ++ [{| call_request := r; call_reply := reply |}];
     shown := shown s ++ snd (expansion_of reply);
     session := session s |}.

Inductive transition (c : config W) : config W -> Prop :=
| pass_done :
    pc c = Searching [] ->
    transition c
      {| mem := mem c; count := count c; queries := queries c;
         goal := goal c; passes := S (passes c); pc := Evaluating |}
| search_ok q rest reply w item :
    pc c = Searching (q :: rest) ->
    create (search_request q) (world (mem c)) = (reply, w) ->
    search_result q reply = Ok item ->
    transition c
      (goto c
         (with_session (Session.append item)
            (logged (mem c) (search_request q) reply w))
         (Searching rest))
| search_fails q rest reply w e :
    pc c = Searching (q :: rest) ->
    create (search_request q) (world (mem c)) = (reply, w) ->
    search_result q reply = Raise e ->
    transition c
      (goto c (logged (mem c) (search_request q) reply w) (Aborted e))
| evaluate_yes reply w :
    pc c = Evaluating ->
    create (evaluate_request (evidence c) (goal c)) (world (mem c))
    = (reply, w) ->
    verdict_of reply = Ok true ->
    transition c
      (goto c
         (with_session (Session.set_collected_step (evidence c) 4)
            (logged (mem c) (evaluate_request (evidence c) (goal c)) reply w))
         Finished)
| evaluate_no reply w :
    pc c = Evaluating ->
    create (evaluate_request (evidence c) (goal c)) (world (mem c))
    = (reply, w) ->
    verdict_of reply = Ok false ->
    transition c
      (goto c
         (logged (mem c) (evaluate_request (evidence c) (goal c)) reply w)
         Expanding)
| evaluate_fails reply w e :
    pc c = Evaluating ->
    create (evaluate_request (evidence c) (goal c)) (world (mem c))
    = (reply, w) ->
    verdict_of reply = Raise e ->
    transition c
      (goto c
         (logged (mem c) (evaluate_request (evidence c) (goal c)) reply w)
         (Aborted e))
| expand_ok reply w qs :
    pc c = Expanding ->
    create (expand_request (evidence c) (goal c) None) (world (mem c))
    = (reply, w) ->
    fst (expansion_of reply) = Ok qs ->
    transition c
      (start_pass (S (count c)) qs (goal c) (passes c)
         (expanded (mem c) (expand_request (evidence c) (goal c) None)
            reply w))
| expand_fails reply w e :
    pc c = Expanding ->
    create (expand_request (evidence c) (goal c) None) (world (mem c))
    = (reply, w) ->
    fst (expansion_of reply) = Raise e ->
    transition c
      (goto c
         (expanded (mem c) (expand_request (evidence c) (goal c) None)
            reply w)
         (Aborted e))
| halted :
    stopped c = true ->
    transition c c.

(** The collector's results for the queries of a pass, call by call. *)
Definition pass_items (qs : list pyval) (tr : list call)
  : list (result evidence_item) :=
  map (fun p => search_result (fst p) (call_reply (snd p))) (combine qs tr).

(** A request that the loop makes for the goal [g]: a search, an
    evaluation, or an expansion that continues no earlier response. *)
Definition loop_request (g : pyval) (r : request) : Prop :=
  (exists q, r = search_request q) \/
  (exists collected, r = evaluate_request collected g) \/
  (exists collected, r = expand_request collected g None).



(** Where a pass began: at the calls the loop was entered with, or right
    after an expansion. *)
Definition pass_start (s0 : state W) (c : config W) (tr0 : list call) : Prop :=
  (count c = 0 /\ tr0 = calls s0) \/
  (exists tr1 x, tr0 = tr1 ++ [x] /\ is_expand (call_request x) = true).

(** The pass in progress: the queries [done] of the active set have been
    searched, one call each and in order, their results appended to the
    evidence; [pending] are still to come. *)
Definition pass_record (s0 : state W) (c : config W) (pending : list pyval)
  : Prop :=
  exists done tr0 tr ev0 new,
    py_iter (queries c) = Ok (done ++ pending) /\
    pass_start s0 c tr0 /\
    calls (mem c) = tr0 ++ tr /\
    map call_request tr = map search_request done /\
    evidence c = ev0 ++ new /\
    map Ok new = pass_items done tr.

Definition pass_so_far (s0 : state W) (c : config W) : Prop :=
  match pc c with
  | Searching pending => pass_record s0 c pending
  | Evaluating => pass_record s0 c []
  | Expanding | Finished | Aborted _ => True
  end.

(** The calls made since [s0] are requests of the loop for the goal of
    [s0]. *)
Definition loop_calls (s0 : state W) (c : config W) : Prop :=
  goal c = Session.goal (session s0) /\
  exists tr, calls (mem c) = calls s0 ++ tr /\
    Forall (fun x => loop_request (Session.goal (session s0)) (call_request x))
      tr.


End Transitions.

(* ================================================================== *)
(** * Stub gateways *)

Module Stub.

Definition text_reply (t : string) : response :=
  {| output := [output_message "msg_0" [output_text t]] |}.

(** The two slots of a reply to a search: the tool invocation, then the
    message with the finding. *)
Definition search_reply : response :=
  {| output := [tool_call "ws_1";
                output_message "msg_1" [output_text "finding"]] |}.

(** A reply with a single slot: no tool was invoked. *)
Definition no_tool_reply : response := text_reply "I could not search.".

(** A gateway that answers by the shape of the request. Its world counts
    the evaluations answered; evaluation number [yes_at] is answered Yes,
    every other one No ([yes_at = 0]: never Yes). An expansion is
    answered with the text [expansion]. *)
Definition by_shape (yes_at : nat) (expansion : string)
  (r : request) (w : nat) : result response * nat :=
  if is_search r then (Ok search_reply, w)
  else if is_evaluate r then
    (Ok (text_reply (if S w =? yes_at then "Yes" else "No")), S w)
  else if is_expand r then (Ok (text_reply expansion), w)
  else (Ok (text_reply EmptyString), w).

(** A gateway that plays a script: the replies to give, in order, whatever
    the requests are. *)
Definition scripted (r : request) (w : list (result response))
  : result response * list (result response) :=
  match w with
  | [] => (Raise (APIError "no reply left"), [])
  | reply :: w' => (reply, w')
  end.

Definition start {W} (w : W) (ss : Session.t) : state W :=
  {| world := w; calls := []; shown := []; session := ss |}.

(** An interpreter with its limits as they are set at the start: 4300
    digits, and room for nine hundred containers one inside the other. *)
#[global] Instance interpreter : Json.Interpreter :=
  {| Json.int_max_str_digits := 4300; Json.recursion_room := 900 |}.

(** [s * n] *)
Fixpoint copies (n : nat) (s : string) : string :=
  match n with
  | O => EmptyString
  | S n' => (s ++ copies n' s)%string
  end.

Definition five_queries : pyval :=
  PList [PStr "solar battery 2024"; PStr "grid storage costs";
         PStr "battery chemistry advances"; PStr "storage subsidies";
         PStr "market forecast 2025"].

Definition five_more : string :=
  jtext "['q6', 'q7', 'q8', 'q9', 'q10']".

(** The session when the loop is entered: a plan is set, nothing is
    collected yet, [step] is 3. *)
Definition planned : Session.t :=
  {| Session.step := 3;
     Session.topic := "solar battery storage";
     Session.questions := [];
     Session.answers := [];
     Session.goal :=
       PStr "Assess current solar battery storage technology trends";
     Session.queries := five_queries;
     Session.collected := [];
     Session.report := EmptyString |}.

(** The seventh call of the run in which the evaluator says no, then
    yes: after five searches and an evaluation, the expansion. *)
Definition expansion_call : call :=
  Eval vm_compute in
    nth 6
      (calls (mem (run (by_shape 2 five_more) 15 (enter (start 0 planned)))))
      {| call_request := search_request PNone;
         call_reply := Raise (APIError EmptyString) |}.

End Stub.

(* ================================================================== *)
(** * The pages of the script

    The rest of [app.py]: the two remaining gateway functions and the
    page shown for each value of [step] (lines 134-207). What the pages
    draw ([st.subheader], [st.write], [st.markdown], the spinner) is left
    out; what the user does with the widgets of a run is an input of that
    run. *)

Module Text.

Definition newline : ascii := Json.chr 10.

(** [s.split(newline)]: the lines of [s], at least one. *)
Fixpoint split_lines (s : string) : list string :=
  match s with
  | EmptyString => [EmptyString]
  | String c s' =>
      if Ascii.eqb c newline then EmptyString :: split_lines s'
      else
        match split_lines s' with
        | l :: ls => String c l :: ls
        | [] => [String c EmptyString]
        end
  end.

(** [newline.join(ls)] *)
Fixpoint join_lines (ls : list string) : string :=
  match ls with
  | [] => EmptyString
  | [l] => l
  | l :: ls' => (l ++ String newline (join_lines ls'))%string
  end.

Fixpoint has_newline (s : string) : bool :=
  match s with
  | EmptyString => false
  | String c s' => Ascii.eqb c newline || has_newline s'
  end.

(** The code point that the bytes of one character encode. *)
Definition code_point (g : string) : option N :=
  let b := Json.code in
  match g with
  | String b0 EmptyString => Some (b b0)
  | String b0 (String b1 EmptyString) =>
      Some ((b b0 - 192) * 64 + (b b1 - 128))%N
  | String b0 (String b1 (String b2 EmptyString)) =>
      Some (((b b0 - 224) * 64 + (b b1 - 128)) * 64 + (b b2 - 128))%N
  | String b0 (String b1 (String b2 (String b3 EmptyString))) =>
      Some ((((b b0 - 240) * 64 + (b b1 - 128)) * 64 + (b b2 - 128)) * 64
            + (b b3 - 128))%N
  | _ => None
  end.

(** The characters that [str.strip()] removes. *)
Definition isspace (n : N) : bool :=
  (((9 <=? n) && (n <=? 13)) || ((28 <=? n) && (n <=? 32))
   || (n =? 133) || (n =? 160) || (n =? 5760)
   || ((8192 <=? n) && (n <=? 8202))
   || (n =? 8232) || (n =? 8233) || (n =? 8239) || (n =? 8287)
   || (n =? 12288))%N.

Definition is_space_char (g : string) : bool :=
  match code_point g with
  | Some n => isspace n
  | None => false
  end.

(** [not s.strip()]: nothing but white space in [s]. *)
Definition blank (s : string) : bool := forallb is_space_char (utf8_chars s).

End Text.

(** ** Truth values

    [bool(v)] for a value that [json.loads] returned. A float is false
    when it is zero: its digits are all zero, or it is so small that it
    rounds to zero (at most two to the power -1075). *)

Module Truth.

Definition drop_first (s : string) : string :=
  match s with
  | EmptyString => EmptyString
  | String _ s' => s'
  end.

(** The value of an exponent part: [e], an optional sign, digits. *)
Definition exponent_value (ex : string) : Z :=
  match drop_first ex with
  | String c ds =>
      if (Json.code c =? 45)%N then (- Json.digits_value 0 ds)%Z
      else if (Json.code c =? 43)%N then Json.digits_value 0 ds
      else Json.digits_value 0 (String c ds)
  | EmptyString => 0%Z
  end.

Definition float_is_zero (lexeme : string) : bool :=
  match Json.scan_int lexeme with
  | None => false
  | Some (_, ds, r1) =>
      let (frac, r2) := Json.scan_frac r1 in
      let (ex, _) := Json.scan_exp r2 in
      let fd := drop_first frac in
      let m := Json.digits_value 0 (ds ++ fd)%string in
      let x := (exponent_value ex - Z.of_nat (String.length fd))%Z in
      (m =? 0)%Z || ((x <? 0)%Z && (m * 2 ^ 1075 <=? 10 ^ (- x))%Z)
  end.

Definition truthy (v : pyval) : bool :=
  match v with
  | PNone => false
  | PBool b => b
  | PInt z => negb (z =? 0)%Z
  | PFloat lexeme => negb (float_is_zero lexeme)
  | PStr s => negb (Str.is_empty s)
  | PList xs => match xs with [] => false | _ :: _ => true end
  | PDict kvs => match kvs with [] => false | _ :: _ => true end
  end.

End Truth.

(** ** The widgets of a run *)

(** What the user has entered and pressed when a run starts: the text of
    the topic box, the texts of the answer boxes (an empty text where
    there is none), whether the form's button was pressed, and whether the
    page's own button was. *)
Record widgets : Type := {
  topic_box : string;
  answer_boxes : list string;
  submitted : bool;
  clicked : bool
}.

Definition answer_box (ui : widgets) (i : nat) : string :=
  nth i (answer_boxes ui) EmptyString.

(** How a run of the script ends: at its last line, by [st.rerun()], by an
    exception ([st.stop()] among them), or not at all within the steps
    followed. *)
Inductive ending : Type :=
| Completed
| Rerun
| Raised (e : exn)
| Unfinished.

(** ** Assignments to the session *)

Module Fields.
Import Session.

(** Lines 140-141 *)
Definition set_topic (v : string) (ss : t) : t :=
  {| step := 1; topic := v; questions := questions ss;
     answers := answers ss; goal := goal ss; queries := queries ss;
     collected := collected ss; report := report ss |}.

(** Line 147 *)
Definition set_questions (qs : list string) (ss : t) : t :=
  {| step := step ss; topic := topic ss; questions := qs;
     answers := answers ss; goal := goal ss; queries := queries ss;
     collected := collected ss; report := report ss |}.

(** Lines 154-155 *)
Definition set_answers (xs : list string) (ss : t) : t :=
  {| step := 2; topic := topic ss; questions := questions ss;
     answers := xs; goal := goal ss; queries := queries ss;
     collected := collected ss; report := report ss |}.

(** Line 173 *)
Definition set_step (n : nat) (ss : t) : t :=
  {| step := n; topic := topic ss; questions := questions ss;
     answers := answers ss; goal := goal ss; queries := queries ss;
     collected := collected ss; report := report ss |}.

(** Line 197 *)
Definition set_report (r : string) (ss : t) : t :=
  {| step := step ss; topic := topic ss; questions := questions ss;
     answers := answers ss; goal := goal ss; queries := queries ss;
     collected := collected ss; report := r |}.

(** Line 205: a list becomes the empty list, anything else the empty
    string. *)
Definition reset_value (v : pyval) : pyval :=
  match v with
  | PList _ => PList []
  | _ => PStr EmptyString
  end.

(** Lines 204-206. [topic] and [report] are strings, [questions],
    [answers] and [collected] are lists; [step] is set to the empty string
    and then to 0. *)
Definition reset (ss : t) : t :=
  {| step := 0; topic := EmptyString; questions := []; answers := [];
     goal := reset_value (goal ss); queries := reset_value (queries ss);
     collected := []; report := EmptyString |}.

End Fields.

Section Pages.
Variable W : Type.
Variable create : request -> W -> result response * W.
Context {python : Json.Interpreter}.

(** ** [ask_clarifying_questions], lines 47-59 *)

Definition clarify_request (topic : string) : request :=
  {| model := MODEL_MINI;
     input := Prompt
       [Lit "
Ask 5 numbered clarifying question to the user about the topic: ";
        Fmt (PStr topic);
        Lit ".
The goal os the questions is to understand the intended purpose of the research.
Reply only with the questions
"];
     instructions := developer_message;
     tools := None;
     previous_response_id := None |}.

Definition ask_clarifying_questions (topic : string) : M W (list string) :=
  bind (responses_create create (clarify_request topic)) (fun clarify =>
  bind (lift (first_text clarify)) (fun text =>
  let questions := Text.split_lines text in
  ret (filter (fun q => negb (Text.blank q)) questions))).

(** ** [write_report], lines 120-131 *)

Definition report_request (goal : pyval) (collected : list evidence_item)
  : request :=
  {| model := MODEL;
     input := Messages
       [{| role := "developer";
           content :=
             [Lit "Write a complete and detailed report about research goal: ";
              Fmt goal;
              Lit " Cite Sources inline using [n] and append a reference list mapping [n] to url"] |};
        {| role := "assistant"; content := [Dumps collected] |}];
     instructions := developer_message;
     tools := None;
     previous_response_id := None |}.

Definition write_report (goal : pyval) (collected : list evidence_item)
  : M W string :=
  bind (responses_create create (report_request goal collected)) (fun report =>
  lift (first_text report)).

(** ** The pages, lines 134-207 *)

(** Lines 146-147 *)
Definition fetch_questions : M W unit :=
  fun s =>
    match Session.questions (session s) with
    | [] =>
        bind (ask_clarifying_questions (Session.topic (session s)))
          (fun qs => update_session (Fields.set_questions qs)) s
    | _ :: _ => (Ok tt, s)
    end.

(** Lines 149-151: one answer box for each question. *)
Definition read_answers (ui : widgets) (questions : list string) : list string :=
  map (answer_box ui) (seq 0 (length questions)).

(** Lines 160-167 *)
Definition fetch_plan : M W unit :=
  fun s =>
    if negb (Truth.truthy (Session.goal (session s)))
       || negb (Truth.truthy (Session.queries (session s)))
    then generate_plan create s
    else (Ok tt, s).

(** Lines 170-171: the queries are listed, which iterates over them. *)
Definition list_queries : M W unit :=
  fun s =>
    match py_iter (Session.queries (session s)) with
    | Ok _ => (Ok tt, s)
    | Raise e => (Raise e, s)
    end.

(** Lines 195-200 *)
Definition fetch_report : M W unit :=
  fun s =>
    if Str.is_empty (Session.report (session s)) then
      bind (write_report (Session.goal (session s))
              (Session.collected (session s)))
        (fun r => update_session (Fields.set_report r)) s
    else (Ok tt, s).

(** One run of the script on the session it finds. The loop of step 3 is
    followed for [fuel] steps. *)
Definition script (fuel : nat) (ui : widgets) (s : state W) : ending * state W :=
  match Session.step (session s) with
  | 0 =>
      if submitted ui && negb (Str.is_empty (topic_box ui)) then
        (Rerun, with_session (Fields.set_topic (topic_box ui)) s)
      else (Completed, s)
  | 1 =>
      match fetch_questions s with
      | (Raise e, s1) => (Raised e, s1)
      | (Ok _, s1) =>
          let answers := read_answers ui (Session.questions (session s1)) in
          if submitted ui && forallb (fun a => negb (Text.blank a)) answers then
            (Rerun, with_session (Fields.set_answers answers) s1)
          else (Completed, s1)
      end
  | 2 =>
      match bind fetch_plan (fun _ => list_queries) s with
      | (Raise e, s1) => (Raised e, s1)
      | (Ok _, s1) =>
          if clicked ui then (Rerun, with_session (Fields.set_step 3) s1)
          else (Completed, s1)
      end
  | 3 =>
      let c := run create fuel (enter s) in
      match pc c with
      | Finished => (Rerun, mem c)
      | Aborted e => (Raised e, mem c)
      | Searching _ | Evaluating | Expanding => (Unfinished, mem c)
      end
  | 4 =>
      match fetch_report s with
      | (Raise e, s1) => (Raised e, s1)
      | (Ok _, s1) =>
          if clicked ui then (Rerun, with_session Fields.reset s1)
          else (Completed, s1)
      end
  | _ => (Completed, s)
  end.

(** Runs of the script one after the other, each with the widgets the
    user left for it. *)
Fixpoint visits (fuel : nat) (uis : list widgets) (s : state W) : state W :=
  match uis with
  | [] => s
  | ui :: uis' => visits fuel uis' (snd (script fuel ui s))
  end.

End Pages.

(** ** The order of the phases *)

(** What holds of the session at each value of [step]: a topic from step
    1 on; from step 2 on, one answer for each question and none of them
    blank; from step 3 on, queries that can be iterated over; no plan
    before step 2, no evidence before step 3, no report before step 4,
    and nothing at all at step 0 but what is left of a plan. *)
Definition well_phased (ss : Session.t) : Prop :=
  Session.step ss <= 4 /\
  (1 <= Session.step ss -> Session.topic ss <> EmptyString) /\
  (2 <= Session.step ss ->
   length (Session.answers ss) = length (Session.questions ss) /\
   forallb (fun a => negb (Text.blank a)) (Session.answers ss) = true) /\
  (3 <= Session.step ss -> is_ok (py_iter (Session.queries ss)) = true) /\
  (Session.step ss <= 1 ->
   Truth.truthy (Session.goal ss) = false /\
   Truth.truthy (Session.queries ss) = false /\
   Session.answers ss = []) /\
  (Session.step ss <= 2 -> Session.collected ss = []) /\
  (Session.step ss <= 3 -> Session.report ss = EmptyString) /\
  (Session.step ss = 0 ->
   Session.topic ss = EmptyString /\ Session.questions ss = []).

(** The page has what it would fetch: a run without a press of a button
    has nothing to do. *)
Definition settled (ss : Session.t) : bool :=
  match Session.step ss with
  | 1 => match Session.questions ss with [] => false | _ :: _ => true end
  | 2 => Truth.truthy (Session.goal ss) && Truth.truthy (Session.queries ss)
         && is_ok (py_iter (Session.queries ss))
  | 3 => false
  | 4 => negb (Str.is_empty (Session.report ss))
  | _ => true
  end.

(** ** What the calls of the loop carry *)

(** The query of a search request. *)
Definition query_of (r : request) : option pyval :=
  match tools r, input r with
  | Some _, Prompt [Lit _; Fmt q] => Some q
  | _, _ => None
  end.

(** The item that a search call yielded, if it yielded one. *)
Definition item_of (x : call) : list evidence_item :=
  match query_of (call_request x) with
  | Some q =>
      match search_result q (call_reply x) with
      | Ok item => [item]
      | Raise _ => []
      end
  | None => []
  end.

Definition gathered (tr : list call) : list evidence_item :=
  flat_map item_of tr.

Fixpoint first_dumps (ps : list fpart) : option (list evidence_item) :=
  match ps with
  | [] => None
  | Dumps items :: _ => Some items
  | _ :: ps' => first_dumps ps'
  end.

(** The evidence that a request sends along: its [json.dumps(collected)]. *)
Definition evidence_sent (r : request) : option (list evidence_item) :=
  match input r with
  | Messages ms => first_dumps (flat_map content ms)
  | Prompt _ => None
  end.

(** Every call of [tr] that is no search sends the evidence [ev0] and all
    that the calls before it gathered. *)
Definition sends_all_evidence (ev0 : list evidence_item) (tr : list call)
  : Prop :=
  forall pre x post,
    tr = pre ++ x :: post ->
    is_search (call_request x) = false ->
    evidence_sent (call_request x) = Some (ev0 ++ gathered pre).

(** ** A stub gateway for the whole script *)

Module Desk.

Definition is_clarify (r : request) : bool := String.eqb (model r) MODEL_MINI.

Definition is_report (r : request) : bool :=
  same_strings (roles r) ["developer"; "assistant"].

Definition questions_text : string :=
  "1. Who reads the report?

2. Which years matter?".

Definition plan_text : string :=
  jtext "{'goal': 'Assess storage trends', 'queries': ['q1', 'q2']}".

(** Answers by the shape of the request; the evaluator says yes at once. *)
Definition gateway (r : request) (w : nat) : result response * nat :=
  if is_search r then (Ok Stub.search_reply, w)
  else if is_evaluate r then (Ok (Stub.text_reply "Yes"), S w)
  else if is_expand r then (Ok (Stub.text_reply Stub.five_more), w)
  else if is_report r then (Ok (Stub.text_reply "Storage is cheap [1]."), w)
  else if is_clarify r then (Ok (Stub.text_reply questions_text), w)
  else (Ok (Stub.text_reply plan_text), w).

Definition fresh : state nat := Stub.start 0 Session.initial.

Definition idle : widgets :=
  {| topic_box := EmptyString; answer_boxes := [];
     submitted := false; clicked := false |}.

Definition enter_topic : widgets :=
  {| topic_box := "solar battery storage"; answer_boxes := [];
     submitted := true; clicked := false |}.

Definition answer_all : widgets :=
  {| topic_box := EmptyString; answer_boxes := ["investors"; "2020 to 2025"];
     submitted := true; clicked := false |}.

Definition press : widgets :=
  {| topic_box := EmptyString; answer_boxes := [];
     submitted := false; clicked := true |}.

(** The session at step 1, the topic entered and nothing else. *)
Definition topic_entered : state nat :=
  Stub.start 0 (Fields.set_topic "solar battery storage" Session.initial).

(** A visit from the first page to the report: the topic, the answers,
    the start of the research, with a run in between where the page only
    fetches. *)
Definition visit : list widgets :=
  [idle; enter_topic; idle; answer_all; idle; press; idle; idle].

End Desk.

(* ================================================================== *)
(** * Facts about strings and [json.loads] *)

Module StrFacts.
Import Str.

Lemma startswith_app (p s : string) :
  startswith p s = true <-> exists post, s = (p ++ post)%string.
Proof.
  revert s; induction p as [|c p IH]; intros s; simpl.
  - split; [intros _; exists s; reflexivity | intros _; reflexivity].
  - destruct s as [|d s].
    + split; [discriminate | intros [post H]; discriminate].
    + rewrite andb_true_iff, Ascii.eqb_eq, IH. split.
      * intros [-> [post ->]]. exists post; reflexivity.
      * intros [post H]. injection H as -> ->. split; [reflexivity | eauto].
Qed.

Lemma contains_spec (needle hay : string) :
  contains needle hay = true <->
  exists pre post, hay = (pre ++ needle ++ post)%string.
Proof.
  induction hay as [|c hay IH]; cbn [contains].
  - destruct (startswith needle EmptyString) eqn:Hp.
    + apply startswith_app in Hp as [post Hp].
      split; [intros _; exists EmptyString, post; exact Hp | reflexivity].
    + split; [discriminate|].
      intros [pre [post H]]. destruct pre; simpl in H.
      * assert (startswith needle EmptyString = true)
          by (apply startswith_app; exists post; exact H).
        congruence.
      * discriminate.
  - destruct (startswith needle (String c hay)) eqn:Hp.
    + apply startswith_app in Hp as [post Hp].
      split; [intros _; exists EmptyString, post; exact Hp | reflexivity].
    + rewrite IH. split.
      * intros [pre [post H]]. exists (String c pre), post. simpl. now rewrite H.
      * intros [pre [post H]]. destruct pre as [|d pre]; simpl in H.
        -- assert (startswith needle (String c hay) = true)
             by (apply startswith_app; exists post; exact H).
           congruence.
        -- injection H as _ H. exists pre, post. exact H.
Qed.

Lemma lower_length (s : string) : String.length (lower s) = String.length s.
Proof. induction s; simpl; congruence. Qed.

Lemma lower_app (a b : string) : lower (a ++ b) = (lower a ++ lower b)%string.
Proof. induction a as [|c a IH]; simpl; [reflexivity | now rewrite IH]. Qed.

Lemma lower_split (s a b : string) :
  lower s = (a ++ b)%string ->
  exists a' b', s = (a' ++ b')%string /\ lower a' = a /\ lower b' = b.
Proof.
  revert s. induction a as [|c a IH]; intros s H.
  - exists EmptyString, s. auto.
  - destruct s as [|d s]; [discriminate|]. simpl in H.
    injection H as Hc H. destruct (IH s H) as [a' [b' [-> [<- <-]]]].
    exists (String d a'), b'. simpl. now rewrite Hc.
Qed.

(** Only a letter and its capital are lower-cased to that letter. *)
Lemma lower_ascii_letter (c : ascii) :
  (lower_ascii c = "y"%char <-> c = "y"%char \/ c = "Y"%char) /\
  (lower_ascii c = "e"%char <-> c = "e"%char \/ c = "E"%char) /\
  (lower_ascii c = "s"%char <-> c = "s"%char \/ c = "S"%char).
Proof.
  destruct c as [[] [] [] [] [] [] [] []]; vm_compute;
    repeat split; intros H; try discriminate;
    try (destruct H; discriminate); auto.
Qed.

(** The test of line 98 in terms of the reply itself: the text contains
    the three letters of [yes] in a row, each in either case. *)
Lemma contains_yes_any_case (text : string) :
  contains "yes" (lower text) = true <->
  exists pre y e s post,
    text = (pre ++ String y (String e (String s post)))%string /\
    (y = "y"%char \/ y = "Y"%char) /\
    (e = "e"%char \/ e = "E"%char) /\
    (s = "s"%char \/ s = "S"%char).
Proof.
  rewrite contains_spec. split.
  - intros [pre [post H]].
    destruct (lower_split _ _ _ H) as [pre' [rest [-> [_ Hrest]]]].
    destruct rest as [|y [|e [|s post']]]; try discriminate.
    simpl in Hrest. injection Hrest as Hy He Hs _.
    exists pre', y, e, s, post'. split; [reflexivity|].
    repeat split.
    + now apply (lower_ascii_letter y).
    + now apply (lower_ascii_letter e).
    + now apply (lower_ascii_letter s).
  - intros [pre [y [e [s [post [-> [Hy [He Hs]]]]]]]].
    exists (lower pre), (lower post). rewrite lower_app. simpl.
    apply (lower_ascii_letter y) in Hy. apply (lower_ascii_letter e) in He.
    apply (lower_ascii_letter s) in Hs. now rewrite Hy, He, Hs.
Qed.

End StrFacts.

Example loads_plan :
  Json.loads (jtext "{'goal': 'g', 'queries': ['a', 'b']}")
  = Ok (PDict [("goal", PStr "g"); ("queries", PList [PStr "a"; PStr "b"])]).
Proof. vm_compute. reflexivity. Qed.

Example loads_empty_list : Json.loads "[]" = Ok (PList []).
Proof. vm_compute. reflexivity. Qed.

Example loads_numbers :
  Json.loads " [0, -12, 1.5e3, null, true] "
  = Ok (PList [PInt 0; PInt (-12); PFloat "1.5e3"; PNone; PBool true]).
Proof. vm_compute. reflexivity. Qed.

Example loads_prose : Json.loads "Here are five queries" = Raise JSONDecodeError.
Proof. vm_compute. reflexivity. Qed.

Example loads_trailing : Json.loads "[1,]" = Raise JSONDecodeError.
Proof. vm_compute. reflexivity. Qed.

Example loads_extra_data : Json.loads "[] x" = Raise JSONDecodeError.
Proof. vm_compute. reflexivity. Qed.

Example loads_duplicate_key :
  Json.loads (jtext "{'a': 1, 'b': 2, 'a': 3}")
  = Ok (PDict [("a", PInt 3); ("b", PInt 2)]).
Proof. vm_compute. reflexivity. Qed.

(** The limits, on the stub interpreter: 4300 digits pass and 4301 do
    not, with or without a sign, unless the number is a float; nine
    hundred brackets pass and one more does not. The exception is raised
    where the scanner meets its cause, before it sees what is missing
    further on. *)
Example loads_int_limit :
  is_ok (Json.loads (Stub.copies 4300 "7")) = true /\
  Json.loads (Stub.copies 4301 "7") = Raise ValueError /\
  Json.loads ("-" ++ Stub.copies 4301 "7")%string = Raise ValueError /\
  is_ok (Json.loads (Stub.copies 4301 "7" ++ ".0")%string) = true /\
  Json.loads ("[1, " ++ Stub.copies 4301 "7")%string = Raise ValueError /\
  Json.loads ("[1, " ++ Stub.copies 4300 "7")%string = Raise JSONDecodeError.
Proof. vm_compute. repeat split. Qed.

Example loads_recursion_limit :
  is_ok (Json.loads (Stub.copies 900 "[" ++ Stub.copies 900 "]")%string)
  = true /\
  Json.loads (Stub.copies 901 "[" ++ Stub.copies 901 "]")%string
  = Raise RecursionError /\
  Json.loads (Stub.copies 901 "[")%string = Raise RecursionError /\
  Json.loads (Stub.copies 900 "[")%string = Raise JSONDecodeError.
Proof. vm_compute. repeat split. Qed.

Example loads_escape :
  Json.loads (jtext "'aA\n'")
  = Ok (PStr (String "a" (String "A" (String (Json.chr 10) EmptyString)))).
Proof. vm_compute. reflexivity. Qed.


(** ** The fuel of the decoder is enough

    Each function of the decoder consumes input, so the fuel that [loads]
    hands out cannot run out: a [JSONDecodeError] of the model is always a
    malformed text, never an exhausted bound. *)

Module JsonFacts.
Import Json.

Ltac break_match :=
  repeat match goal with
         | H : context [match ?x with _ => _ end] |- _ =>
             destruct x eqn:?; try discriminate
         end.

Lemma skip_ws_length (s : string) :
  String.length (skip_ws s) <= String.length s.
Proof.
  induction s as [|c s IH]; simpl; [lia|].
  destruct (is_ws c); simpl; lia.
Qed.

Lemma strip_prefix_length (p s r : string) :
  strip_prefix p s = Some r ->
  String.length s = String.length p + String.length r.
Proof.
  revert s. induction p as [|a p IH]; intros s H; simpl in *.
  - now injection H as ->.
  - destruct s as [|b s]; [discriminate|].
    destruct (Ascii.eqb a b); [|discriminate].
    simpl. now rewrite (IH _ H).
Qed.

Lemma hex4_length (s r : string) (n : N) :
  hex4 s = Some (n, r) -> String.length s = 4 + String.length r.
Proof.
  unfold hex4. intros H. break_match. injection H as _ <-. reflexivity.
Qed.

Lemma unescape_length (s chunk r : string) :
  unescape s = Some (chunk, r) -> String.length r < String.length s.
Proof.
  unfold unescape. intros H.
  destruct s as [|e rest]; [discriminate|].
  break_match;
    repeat match goal with
           | Hx : hex4 _ = Some _ |- _ => apply hex4_length in Hx
           end;
    injection H as _ <-; simpl in *; lia.
Qed.

Lemma scanstring_length (fuel : nat) :
  forall s str r,
    scanstring fuel s = Parsed str r -> String.length r < String.length s.
Proof.
  induction fuel as [|fuel IH]; intros s str r H; simpl in H; [discriminate|].
  destruct s as [|c rest]; [discriminate|].
  destruct (Ascii.eqb c dquote).
  - injection H as _ <-. simpl. lia.
  - destruct (Ascii.eqb c backslash).
    + destruct (unescape rest) as [[chunk rest']|] eqn:Hu; [|discriminate].
      apply unescape_length in Hu.
      destruct (scanstring fuel rest') as [str' r'| | |] eqn:Hs; try discriminate.
      injection H as _ <-. apply IH in Hs. simpl. lia.
    + destruct (code c <? 32)%N; [discriminate|].
      destruct (scanstring fuel rest) as [str' r'| | |] eqn:Hs; try discriminate.
      injection H as _ <-. apply IH in Hs. simpl. lia.
Qed.

Lemma scanstring_fuel (fuel : nat) :
  forall s, String.length s < fuel -> scanstring fuel s <> OutOfFuel.
Proof.
  induction fuel as [|fuel IH]; intros s Hlen; [lia|]. simpl.
  destruct s as [|c rest]; [discriminate|]. simpl in Hlen.
  destruct (Ascii.eqb c dquote); [discriminate|].
  destruct (Ascii.eqb c backslash).
  - destruct (unescape rest) as [[chunk rest']|] eqn:Hu; [|discriminate].
    apply unescape_length in Hu.
    assert (Hr : scanstring fuel rest' <> OutOfFuel) by (apply IH; lia).
    destruct (scanstring fuel rest'); congruence.
  - destruct (code c <? 32)%N; [discriminate|].
    assert (Hr : scanstring fuel rest <> OutOfFuel) by (apply IH; lia).
    destruct (scanstring fuel rest); congruence.
Qed.

Lemma scan_string_length (s str r : string) :
  scan_string s = Parsed str r -> String.length r < String.length s.
Proof. apply scanstring_length. Qed.

Lemma scan_string_fuel (s : string) : scan_string s <> OutOfFuel.
Proof. apply scanstring_fuel. lia. Qed.

Lemma span_digits_length (s ds r : string) :
  span_digits s = (ds, r) ->
  String.length s = String.length ds + String.length r.
Proof.
  revert ds r. induction s as [|c s IH]; intros ds r H; simpl in H.
  - now injection H as <- <-.
  - destruct (is_digit c).
    + destruct (span_digits s) as [ds' r'] eqn:Hs.
      injection H as <- <-. simpl. now rewrite (IH _ _ eq_refl).
    + now injection H as <- <-.
Qed.

Lemma scan_int_length (s ds r : string) (neg : bool) :
  scan_int s = Some (neg, ds, r) -> String.length r < String.length s.
Proof.
  unfold scan_int. intros H.
  destruct s as [|c s']; [discriminate|].
  destruct (code c =? 45)%N.
  - destruct s' as [|d s2]; [discriminate|].
    destruct (code d =? 48)%N; [injection H as _ _ <-; simpl; lia|].
    destruct (is_digit d); [|discriminate].
    destruct (span_digits (String d s2)) as [ds' r'] eqn:Hs.
    injection H as _ <- <-. apply span_digits_length in Hs. simpl in *. lia.
  - destruct (code c =? 48)%N; [injection H as _ _ <-; simpl; lia|].
    destruct (is_digit c) eqn:Hd; [|discriminate].
    destruct (span_digits (String c s')) as [ds' r'] eqn:Hs.
    injection H as _ <- <-.
    simpl in Hs. rewrite Hd in Hs.
    destruct (span_digits s') as [ds2 r2] eqn:Hs2.
    injection Hs as <- <-. apply span_digits_length in Hs2. simpl. lia.
Qed.

Lemma scan_frac_length (s f r : string) :
  scan_frac s = (f, r) -> String.length r <= String.length s.
Proof.
  unfold scan_frac. intros H.
  destruct s as [|c s']; [injection H as _ <-; simpl; lia|].
  destruct (code c =? 46)%N; [|injection H as _ <-; simpl; lia].
  destruct (span_digits s') as [ds r'] eqn:Hs.
  apply span_digits_length in Hs.
  destruct ds; injection H as _ <-; simpl in *; lia.
Qed.

Lemma scan_exp_length (s f r : string) :
  scan_exp s = (f, r) -> String.length r <= String.length s.
Proof.
  unfold scan_exp. intros H.
  destruct s as [|c s']; [injection H as _ <-; simpl; lia|].
  destruct ((code c =? 101)%N || (code c =? 69)%N);
    [|injection H as _ <-; simpl; lia].
  destruct s' as [|d t].
  - simpl in H. injection H as _ <-. simpl. lia.
  - destruct ((code d =? 43)%N || (code d =? 45)%N).
    + destruct (span_digits t) as [ds r'] eqn:Hs.
      apply span_digits_length in Hs.
      destruct ds; injection H as _ <-; simpl in *; lia.
    + destruct (span_digits (String d t)) as [ds r'] eqn:Hs.
      apply span_digits_length in Hs.
      destruct ds; injection H as _ <-; simpl in *; lia.
Qed.

(** ** The decoder proper, for any limits of the interpreter *)

Section Decoder.
Context {python : Interpreter}.

Lemma scan_number_length (s r : string) (v : result pyval) :
  scan_number s = Some (v, r) -> String.length r < String.length s.
Proof.
  unfold scan_number. intros H.
  destruct (scan_int s) as [[[neg ds] r1]|] eqn:Hi; [|discriminate].
  apply scan_int_length in Hi.
  destruct (scan_frac r1) as [frac r2] eqn:Hf. apply scan_frac_length in Hf.
  destruct (scan_exp r2) as [ex r3] eqn:He. apply scan_exp_length in He.
  destruct frac; destruct ex; try destruct (exceeds_int_limit ds);
    injection H as _ <-; lia.
Qed.

Lemma scan_constant_length (s r : string) (v : result pyval) :
  scan_constant s = Some (v, r) -> String.length r < String.length s.
Proof.
  unfold scan_constant. intros H.
  repeat match type of H with
         | match strip_prefix ?p s with _ => _ end = _ =>
             let Hp := fresh "Hp" in
             destruct (strip_prefix p s) eqn:Hp;
             [apply strip_prefix_length in Hp; injection H as _ <-;
              simpl in Hp; lia|]
         | match scan_number s with _ => _ end = _ =>
             let Hn := fresh "Hn" in
             destruct (scan_number s) as [[v' r']|] eqn:Hn;
             [apply scan_number_length in Hn; injection H as _ <-; lia|]
         end.
  discriminate.
Qed.

(** What each of the three mutually recursive functions consumes, and
    the fuel that is enough for it. *)
Lemma decoder_fuel (fuel : nat) :
  (forall room s,
     consumes (scan_once fuel room s) s /\
     (2 * String.length s + 1 <= fuel -> scan_once fuel room s <> OutOfFuel)) /\
  (forall room acc s,
     consumes (array_items fuel room acc s) s /\
     (2 * String.length s + 2 <= fuel ->
      array_items fuel room acc s <> OutOfFuel)) /\
  (forall room acc s,
     consumes (object_members fuel room acc s) s /\
     (2 * String.length s + 2 <= fuel ->
      object_members fuel room acc s <> OutOfFuel)).
Proof.
  induction fuel as [|fuel [IHs [IHa IHo]]].
  - repeat split; try (intros v r H; discriminate); simpl; lia.
  - split; [|split].
    + intros room s. cbn [scan_once].
      destruct s as [|c rest]; [split; [intros v r H|]; discriminate|].
      pose proof (skip_ws_length rest) as Hws.
      assert (Hconst :
        consumes (match scan_constant (String c rest) with
                  | Some (Ok v, r) => Parsed v r
                  | Some (Raise e, _) => Refused e
                  | None => Malformed
                  end) (String c rest) /\
        (2 * String.length (String c rest) + 1 <= S fuel ->
         match scan_constant (String c rest) with
         | Some (Ok v, r) => Parsed v r
         | Some (Raise e, _) => Refused e
         | None => Malformed
         end <> OutOfFuel)).
      { destruct (scan_constant (String c rest)) as [[[v|e] r]|] eqn:Hk.
        - apply scan_constant_length in Hk.
          split; [intros v' r' H; injection H as _ <-; exact Hk | discriminate].
        - split; [intros v' r' H|]; discriminate.
        - split; [intros v' r' H|]; discriminate. }
      destruct (code c) as [|p] eqn:Hcode; [exact Hconst|].
      assert (Hstr :
        consumes (match scan_string rest with
                  | Parsed str r => Parsed (PStr str) r
                  | Malformed => Malformed
                  | Refused e => Refused e
                  | OutOfFuel => OutOfFuel
                  end) (String c rest) /\
        (2 * String.length (String c rest) + 1 <= S fuel ->
         match scan_string rest with
         | Parsed str r => Parsed (PStr str) r
         | Malformed => Malformed
         | Refused e => Refused e
         | OutOfFuel => OutOfFuel
         end <> OutOfFuel)).
      { pose proof (scan_string_fuel rest) as Hf.
        destruct (scan_string rest) as [str r| | |] eqn:Hs.
        - apply scan_string_length in Hs.
          split; [intros v' r' H; injection H as _ <-; simpl; lia
                 | discriminate].
        - split; [intros v' r' H|]; discriminate.
        - split; [intros v' r' H|]; discriminate.
        - congruence. }
      assert (Hobj :
        consumes (match room with
                  | O => Refused RecursionError
                  | S room' =>
                      match skip_ws rest with
                      | String d r =>
                          if (code d =? 125)%N then Parsed (PDict []) r
                          else object_members fuel room' [] (String d r)
                      | EmptyString => Malformed
                      end
                  end) (String c rest) /\
        (2 * String.length (String c rest) + 1 <= S fuel ->
         match room with
         | O => Refused RecursionError
         | S room' =>
             match skip_ws rest with
             | String d r =>
                 if (code d =? 125)%N then Parsed (PDict []) r
                 else object_members fuel room' [] (String d r)
             | EmptyString => Malformed
             end
         end <> OutOfFuel)).
      { destruct room as [|room'];
          [split; [intros v' r' H|]; discriminate|].
        destruct (skip_ws rest) as [|d r] eqn:Hsk;
          [split; [intros v' r' H|]; discriminate|].
        simpl in Hws.
        destruct (code d =? 125)%N.
        - split; [intros v' r' H; injection H as _ <-; simpl; lia
                 | discriminate].
        - destruct (IHo room' [] (String d r)) as [Hc Hf]. split.
          + intros v' r' H. apply Hc in H. simpl in *. lia.
          + intros Hlen. apply Hf. simpl in *. lia. }
      assert (Harr :
        consumes (match room with
                  | O => Refused RecursionError
                  | S room' =>
                      match skip_ws rest with
                      | String d r =>
                          if (code d =? 93)%N then Parsed (PList []) r
                          else array_items fuel room' [] (String d r)
                      | EmptyString => Malformed
                      end
                  end) (String c rest) /\
        (2 * String.length (String c rest) + 1 <= S fuel ->
         match room with
         | O => Refused RecursionError
         | S room' =>
             match skip_ws rest with
             | String d r =>
                 if (code d =? 93)%N then Parsed (PList []) r
                 else array_items fuel room' [] (String d r)
             | EmptyString => Malformed
             end
         end <> OutOfFuel)).
      { destruct room as [|room'];
          [split; [intros v' r' H|]; discriminate|].
        destruct (skip_ws rest) as [|d r] eqn:Hsk;
          [split; [intros v' r' H|]; discriminate|].
        simpl in Hws.
        destruct (code d =? 93)%N.
        - split; [intros v' r' H; injection H as _ <-; simpl; lia
                 | discriminate].
        - destruct (IHa room' [] (String d r)) as [Hc Hf]. split.
          + intros v' r' H. apply Hc in H. simpl in *. lia.
          + intros Hlen. apply Hf. simpl in *. lia. }
      clear Hcode Hws.
      repeat (destruct p as [p|p|]; try exact Hconst);
        first [exact Hstr | exact Hobj | exact Harr].
    + intros room acc s. cbn [array_items].
      destruct (IHs room s) as [Hc Hf].
      destruct (scan_once fuel room s) as [v r| | |] eqn:Hs.
      * specialize (Hc v r eq_refl).
        pose proof (skip_ws_length r) as Hws.
        destruct (skip_ws r) as [|d r'] eqn:Hsk;
          [split; [intros v' r'' H|]; discriminate|].
        simpl in Hws.
        destruct (code d =? 93)%N.
        { split; [intros v' r'' H; injection H as _ <-; lia | discriminate]. }
        destruct (code d =? 44)%N;
          [|split; [intros v' r'' H|]; discriminate].
        pose proof (skip_ws_length r') as Hws'.
        destruct (IHa room (acc ++ [v]) (skip_ws r')) as [Hc' Hf']. split.
        -- intros v' r'' H. apply Hc' in H. lia.
        -- intros Hlen. apply Hf'. lia.
      * split; [intros v' r'' H|]; discriminate.
      * split; [intros v' r'' H|]; discriminate.
      * split; [intros v' r'' H; discriminate|].
        intros Hlen. exfalso. apply Hf; [lia | reflexivity].
    + intros room acc s. cbn [object_members].
      destruct s as [|q r0]; [split; [intros v r H|]; discriminate|].
      destruct (negb (Ascii.eqb q dquote));
        [split; [intros v r H|]; discriminate|].
      pose proof (scan_string_fuel r0) as Hsf.
      destruct (scan_string r0) as [key r1| | |] eqn:Hkey;
        [|split; [intros v r H|]; discriminate
         |split; [intros v r H|]; discriminate | congruence].
      apply scan_string_length in Hkey.
      pose proof (skip_ws_length r1) as Hws1.
      destruct (skip_ws r1) as [|colon r2] eqn:Hsk1;
        [split; [intros v r H|]; discriminate|].
      simpl in Hws1.
      destruct (negb (code colon =? 58)%N);
        [split; [intros v r H|]; discriminate|].
      pose proof (skip_ws_length r2) as Hws2.
      destruct (IHs room (skip_ws r2)) as [Hc Hf].
      destruct (scan_once fuel room (skip_ws r2)) as [v r3| | |] eqn:Hs.
      * specialize (Hc v r3 eq_refl).
        pose proof (skip_ws_length r3) as Hws3.
        destruct (skip_ws r3) as [|d r4] eqn:Hsk3;
          [split; [intros v' r'' H|]; discriminate|].
        simpl in Hws3.
        destruct (code d =? 125)%N.
        { split; [intros v' r'' H; injection H as _ <-; simpl; lia
                 | discriminate]. }
        destruct (code d =? 44)%N;
          [|split; [intros v' r'' H|]; discriminate].
        pose proof (skip_ws_length r4) as Hws4.
        destruct (IHo room (dict_set acc key v) (skip_ws r4)) as [Hc' Hf'].
        split.
        -- intros v' r'' H. apply Hc' in H. simpl. lia.
        -- intros Hlen. apply Hf'. simpl in Hlen. lia.
      * split; [intros v' r'' H|]; discriminate.
      * split; [intros v' r'' H|]; discriminate.
      * split; [intros v' r'' H; discriminate|].
        intros Hlen. exfalso. apply Hf; [simpl in Hlen; lia | reflexivity].
Qed.

(** The bound of [loads] is never reached. *)
Lemma loads_fuel_suffices (room : nat) (s : string) :
  scan_once (2 * String.length s + 2) room (skip_ws s) <> OutOfFuel.
Proof.
  apply (proj1 (decoder_fuel (2 * String.length s + 2))).
  pose proof (skip_ws_length s). lia.
Qed.

(** ** What [json.loads] raises

    A string is never refused; a number is refused only by [int], with
    [ValueError]; an opening bracket only for want of room, with
    [RecursionError]. *)

Lemma scanstring_never_refuses (fuel : nat) :
  forall s e, scanstring fuel s <> Refused e.
Proof.
  induction fuel as [|fuel IH]; intros s e; simpl; [discriminate|].
  destruct s as [|c rest]; [discriminate|].
  destruct (Ascii.eqb c dquote); [discriminate|].
  destruct (Ascii.eqb c backslash).
  - destruct (unescape rest) as [[chunk rest']|]; [|discriminate].
    pose proof (IH rest') as Hr.
    destruct (scanstring fuel rest'); try discriminate.
    intros H. injection H as ->. now apply (Hr e).
  - destruct (code c <? 32)%N; [discriminate|].
    pose proof (IH rest) as Hr.
    destruct (scanstring fuel rest); try discriminate.
    intros H. injection H as ->. now apply (Hr e).
Qed.

Lemma scan_number_raises (s r : string) (e : exn) :
  scan_number s = Some (Raise e, r) ->
  e = ValueError /\ (0 < int_max_str_digits)%N.
Proof.
  unfold scan_number. intros H.
  destruct (scan_int s) as [[[neg ds] r1]|]; [|discriminate].
  destruct (scan_frac r1) as [frac r2]. destruct (scan_exp r2) as [ex r3].
  destruct frac; destruct ex; try discriminate.
  destruct (exceeds_int_limit ds) eqn:Hlim; [|discriminate].
  injection H as <- _. split; [reflexivity|].
  unfold exceeds_int_limit in Hlim.
  apply andb_true_iff in Hlim as [Hlim _].
  apply andb_true_iff in Hlim as [_ Hlim]. now apply N.ltb_lt.
Qed.

Lemma scan_constant_raises (s r : string) (e : exn) :
  scan_constant s = Some (Raise e, r) ->
  e = ValueError /\ (0 < int_max_str_digits)%N.
Proof.
  unfold scan_constant. intros H.
  repeat match type of H with
         | match strip_prefix ?p s with _ => _ end = _ =>
             destruct (strip_prefix p s); [discriminate|]
         | match scan_number s with _ => _ end = _ =>
             let Hn := fresh "Hn" in
             destruct (scan_number s) as [[v' r']|] eqn:Hn;
             [injection H as -> ->; now apply scan_number_raises in Hn|]
         end.
  discriminate.
Qed.

Lemma decoder_refusals (fuel : nat) :
  (forall room s e, scan_once fuel room s = Refused e -> refusal e) /\
  (forall room acc s e,
     array_items fuel room acc s = Refused e -> refusal e) /\
  (forall room acc s e,
     object_members fuel room acc s = Refused e -> refusal e).
Proof.
  induction fuel as [|fuel [IHs [IHa IHo]]].
  - repeat split; intros; discriminate.
  - split; [|split].
    + intros room s e. cbn [scan_once].
      destruct s as [|c rest]; [discriminate|].
      assert (Hconst :
        match scan_constant (String c rest) with
        | Some (Ok v, r) => Parsed v r
        | Some (Raise e, _) => Refused e
        | None => Malformed
        end = Refused e -> refusal e).
      { destruct (scan_constant (String c rest)) as [[[v|e'] r]|] eqn:Hk;
          try discriminate.
        intros H. injection H as <-. left.
        now apply scan_constant_raises in Hk. }
      destruct (code c) as [|p]; [exact Hconst|].
      assert (Hstr :
        match scan_string rest with
        | Parsed str r => Parsed (PStr str) r
        | Malformed => Malformed
        | Refused e => Refused e
        | OutOfFuel => OutOfFuel
        end = Refused e -> refusal e).
      { pose proof (scanstring_never_refuses (S (String.length rest)) rest)
          as Hnever.
        unfold scan_string.
        destruct (scanstring (S (String.length rest)) rest) as [str r| |e'|];
          try discriminate.
        exfalso. now apply (Hnever e'). }
      assert (Hobj :
        match room with
        | O => Refused RecursionError
        | S room' =>
            match skip_ws rest with
            | String d r =>
                if (code d =? 125)%N then Parsed (PDict []) r
                else object_members fuel room' [] (String d r)
            | EmptyString => Malformed
            end
        end = Refused e -> refusal e).
      { destruct room as [|room'];
          [intros H; injection H as <-; now right|].
        destruct (skip_ws rest) as [|d r]; [discriminate|].
        destruct (code d =? 125)%N; [discriminate|].
        intros H. apply IHo in H. exact H. }
      assert (Harr :
        match room with
        | O => Refused RecursionError
        | S room' =>
            match skip_ws rest with
            | String d r =>
                if (code d =? 93)%N then Parsed (PList []) r
                else array_items fuel room' [] (String d r)
            | EmptyString => Malformed
            end
        end = Refused e -> refusal e).
      { destruct room as [|room'];
          [intros H; injection H as <-; now right|].
        destruct (skip_ws rest) as [|d r]; [discriminate|].
        destruct (code d =? 93)%N; [discriminate|].
        intros H. apply IHa in H. exact H. }
      repeat (destruct p as [p|p|]; try exact Hconst);
        first [exact Hstr | exact Hobj | exact Harr].
    + intros room acc s e. cbn [array_items].
      destruct (scan_once fuel room s) as [v r| |e'|] eqn:Hs;
        try discriminate.
      * destruct (skip_ws r) as [|d r']; [discriminate|].
        destruct (code d =? 93)%N; [discriminate|].
        destruct (code d =? 44)%N; [|discriminate]. apply IHa.
      * intros H. injection H as <-. now apply IHs in Hs.
    + intros room acc s e. cbn [object_members].
      destruct s as [|q r0]; [discriminate|].
      destruct (negb (Ascii.eqb q dquote)); [discriminate|].
      pose proof (scanstring_never_refuses (S (String.length r0)) r0)
        as Hnever.
      unfold scan_string.
      destruct (scanstring (S (String.length r0)) r0) as [key r1| |e'|];
        try discriminate; [|exfalso; now apply (Hnever e')].
      destruct (skip_ws r1) as [|colon r2]; [discriminate|].
      destruct (negb (code colon =? 58)%N); [discriminate|].
      destruct (scan_once fuel room (skip_ws r2)) as [v r3| |e'|] eqn:Hs;
        try discriminate.
      * destruct (skip_ws r3) as [|d r4]; [discriminate|].
        destruct (code d =? 125)%N; [discriminate|].
        destruct (code d =? 44)%N; [|discriminate]. apply IHo.
      * intros H. injection H as <-. now apply IHs in Hs.
Qed.

(** [json.loads] raises [JSONDecodeError], or [ValueError] when a limit on
    the digits of [int] is set, or [RecursionError], and nothing else. *)
Lemma loads_raises (s : string) (e : exn) :
  loads s = Raise e ->
  e = JSONDecodeError \/
  (e = ValueError /\ (0 < int_max_str_digits)%N) \/
  e = RecursionError.
Proof.
  unfold loads. intros H.
  destruct (scan_once _ _ _) as [v rest| |e'|] eqn:Hs.
  - destruct (skip_ws rest); [discriminate|]. injection H as <-. now left.
  - injection H as <-. now left.
  - injection H as <-. right.
    exact (proj1 (decoder_refusals _) _ _ _ Hs).
  - injection H as <-. now left.
Qed.

(** With no room left, a text that opens an array or an object raises
    [RecursionError], whatever follows the bracket. *)
Lemma loads_without_room (s : string) :
  recursion_room = 0%nat ->
  loads (String "[" s) = Raise RecursionError /\
  loads (String "{" s) = Raise RecursionError.
Proof.
  intros Hroom. unfold loads. rewrite Hroom. split; reflexivity.
Qed.

End Decoder.

End JsonFacts.

(* ================================================================== *)
(** * The components, one reply at a time *)

Section ComponentFacts.
Variable W : Type.
Variable create : request -> W -> result response * W.
Context {python : Json.Interpreter}.

(** Each component makes one call, records it, and returns what the
    reply determines; none of them touches the session. *)
Lemma run_search_eq (q : pyval) (s : state W) :
  run_search create q s =
  let reply := fst (create (search_request q) (world s)) in
  let w := snd (create (search_request q) (world s)) in
  (search_result q reply, logged s (search_request q) reply w).
Proof.
  unfold run_search, bind, responses_create, lift, ret, search_result, rbind.
  destruct (create (search_request q) (world s)) as [[r|e] w]; simpl;
    [|reflexivity].
  destruct (index (output r) 1) as [slot|e]; [|reflexivity].
  destruct (item_text slot); reflexivity.
Qed.

Lemma evaluate_eq (collected : list evidence_item) (goal : pyval) (s : state W) :
  evaluate create collected goal s =
  let reply := fst (create (evaluate_request collected goal) (world s)) in
  let w := snd (create (evaluate_request collected goal) (world s)) in
  (verdict_of reply, logged s (evaluate_request collected goal) reply w).
Proof.
  unfold evaluate, bind, responses_create, lift, ret, verdict_of, rbind.
  destruct (create (evaluate_request collected goal) (world s)) as [[r|e] w];
    simpl; [|reflexivity].
  destruct (first_text r); reflexivity.
Qed.

Lemma get_more_queries_eq (collected : list evidence_item) (goal : pyval)
  (prev_id : option string) (s : state W) :
  get_more_queries create collected goal prev_id s =
  let r := expand_request collected goal prev_id in
  let reply := fst (create r (world s)) in
  let w := snd (create r (world s)) in
  (fst (expansion_of reply),
   {| world := w;
      calls := calls s ++ [{| call_request := r; call_reply := reply |}];
      shown := shown s ++ snd (expansion_of reply);
      session := session s |}).
Proof.
  unfold get_more_queries, bind, responses_create, lift, ret, expansion_of,
    rbind, st_error, st_stop, logged.
  destruct (create (expand_request collected goal prev_id) (world s))
    as [[r|e] w]; simpl; [|now rewrite app_nil_r].
  destruct (first_text r) as [text|e]; simpl; [|now rewrite app_nil_r].
  destruct (Str.is_empty text); simpl; [reflexivity|].
  destruct (Json.loads text); simpl; [now rewrite app_nil_r | reflexivity].
Qed.

Lemma get_goal_and_queries_eq (questions answers : list string)
  (topic : string) (s : state W) :
  get_goal_and_queries create questions answers topic s =
  let r := plan_request questions answers topic in
  let reply := fst (create r (world s)) in
  let w := snd (create r (world s)) in
  (plan_of reply, logged s r reply w).
Proof.
  unfold get_goal_and_queries, bind, responses_create, lift, ret, plan_of, rbind.
  destruct (create (plan_request questions answers topic) (world s))
    as [[r|e] w]; simpl; [|reflexivity].
  destruct (first_text r) as [text|e]; [|reflexivity].
  destruct (Json.loads text) as [plan|e]; [|reflexivity].
  destruct (subscript plan "goal"); [|reflexivity].
  destruct (subscript plan "queries"); reflexivity.
Qed.

End ComponentFacts.

(* ================================================================== *)
(** * The components' contracts *)

Section ComponentContracts.
Variable W : Type.
Variable create : request -> W -> result response * W.
Context {python : Json.Interpreter}.

(** C3. Whatever text the gateway replies with, [evaluate] returns true
    exactly when the lower-cased text contains [yes] as a substring, and
    false when it does not. In terms of the reply itself, which says what
    lower-casing comes to here: it returns true exactly when the text
    holds, somewhere and in a row, a [y] or [Y], an [e] or [E] and an [s]
    or [S]. *)
Theorem evaluate_true_iff_reply_contains_yes :
  forall collected goal (s : state W) review w text,
    create (evaluate_request collected goal) (world s) = (Ok review, w) ->
    first_text review = Ok text ->
    exists b,
      fst (evaluate create collected goal s) = Ok b /\
      (b = true <->
       exists pre post, Str.lower text = (pre ++ "yes" ++ post)%string) /\
      (b = false <->
       ~ exists pre post, Str.lower text = (pre ++ "yes" ++ post)%string) /\
      (b = true <->
       exists pre y e s post,
         text = (pre ++ String y (String e (String s post)))%string /\
         (y = "y"%char \/ y = "Y"%char) /\
         (e = "e"%char \/ e = "E"%char) /\
         (s = "s"%char \/ s = "S"%char)).
Proof.
  intros collected goal s review w text Hc Ht.
  exists (Str.contains "yes" (Str.lower text)).
  rewrite evaluate_eq, Hc. cbn [fst snd verdict_of rbind]. rewrite Ht.
  cbn [rbind]. split; [reflexivity|].
  split; [|split].
  - rewrite <- StrFacts.contains_spec.
    destruct (Str.contains "yes" (Str.lower text)); split; congruence || tauto.
  - rewrite <- StrFacts.contains_spec.
    destruct (Str.contains "yes" (Str.lower text)); split; congruence || tauto.
  - apply StrFacts.contains_yes_any_case.
Qed.

(** C6. When the reply to a search has no second output slot,
    [run_search] raises (Python's IndexError on [output[1]]) and returns no
    item, and in the loop that ends the run with the evidence as it was;
    when the second slot is there and carries text, the item holds the
    query, that slot's id and that slot's text. *)
Theorem run_search_reads_second_slot :
  forall q (s : state W) r w,
    create (search_request q) (world s) = (Ok r, w) ->
    (length (output r) < 2 ->
     fst (run_search create q s) = Raise IndexError /\
     session (snd (run_search create q s)) = session s /\
     forall (c : config W) rest,
       pc c = Searching (q :: rest) -> mem c = s ->
       pc (loop_step create c) = Aborted IndexError /\
       evidence (loop_step create c) = evidence c) /\
    (forall slot text,
       nth_error (output r) 1 = Some slot ->
       item_text slot = Ok text ->
       fst (run_search create q s)
       = Ok {| query := q; resp_id := item_id slot;
               research_output := text |}).
Proof.
  intros q s r w Hc. split.
  - intros Hlen.
    assert (Hnone : nth_error (output r) 1 = None)
      by (apply nth_error_None; lia).
    assert (Hrun : run_search create q s
                   = (Raise IndexError, logged s (search_request q) (Ok r) w)).
    { rewrite run_search_eq, Hc. cbn [fst snd search_result rbind].
      unfold index. now rewrite Hnone. }
    rewrite Hrun. split; [reflexivity|]. split; [reflexivity|].
    intros c rest Hpc Hmem. unfold loop_step. rewrite Hpc, Hmem, Hrun.
    split; [reflexivity|]. unfold evidence. cbn. now rewrite Hmem.
  - intros slot text Hslot Htext. rewrite run_search_eq, Hc.
    cbn [fst snd search_result rbind]. unfold index.
    rewrite Hslot. cbn [rbind]. now rewrite Htext.
Qed.

(** The planner returns exactly when the reply is a JSON object with both
    keys. *)
Lemma plan_of_ok (r : response) (text : string) (goal queries : pyval) :
  first_text r = Ok text ->
  plan_of (Ok r) = Ok (goal, queries) <->
  exists kvs, Json.loads text = Ok (PDict kvs) /\
              dict_get kvs "goal" = Some goal /\
              dict_get kvs "queries" = Some queries.
Proof.
  intros Ht. unfold plan_of. cbn [rbind]. rewrite Ht. cbn [rbind].
  destruct (Json.loads text) as [plan|e]; cbn [rbind].
  - destruct plan as [| | | | |xs|kvs]; cbn [subscript rbind];
      try (split; [discriminate | intros [kvs' [H _]]; discriminate]).
    destruct (dict_get kvs "goal") as [g|] eqn:Hg; cbn [rbind].
    + destruct (dict_get kvs "queries") as [qs|] eqn:Hq; cbn [rbind].
      * split.
        -- intros H. injection H as <- <-. now exists kvs.
        -- intros [kvs' [H [H1 H2]]]. injection H as <-. congruence.
      * split; [discriminate|].
        intros [kvs' [H [H1 H2]]]. injection H as <-. congruence.
    + split; [discriminate|].
      intros [kvs' [H [H1 H2]]]. injection H as <-. congruence.
  - split; [discriminate | intros [kvs' [H _]]; discriminate].
Qed.

Lemma plan_of_error (r : response) (text : string) :
  first_text r = Ok text ->
  ~ has_plan_shape text ->
  exists e, plan_of (Ok r) = Raise e /\
    (e = JSONDecodeError \/ e = ValueError \/ e = RecursionError \/
     e = TypeError \/ e = KeyError "goal" \/ e = KeyError "queries").
Proof.
  intros Ht Hno. unfold plan_of. cbn [rbind]. rewrite Ht. cbn [rbind].
  destruct (Json.loads text) as [plan|e] eqn:Hl; cbn [rbind].
  - destruct plan as [| | | | |xs|kvs]; cbn [subscript rbind];
      try (exists TypeError; tauto).
    destruct (dict_get kvs "goal") as [g|] eqn:Hg; cbn [rbind];
      [|exists (KeyError "goal"); tauto].
    destruct (dict_get kvs "queries") as [qs|] eqn:Hq; cbn [rbind];
      [|exists (KeyError "queries"); tauto].
    exfalso. apply Hno. now exists kvs, g, qs.
  - exists e. split; [reflexivity|].
    destruct (JsonFacts.loads_raises _ Hl) as [->|[[-> _]| ->]]; tauto.
Qed.

(** C7, as the code has it. When [json.loads] does not accept the reply
    text, or accepts it as something that is no object, or as an object
    without a [goal] or without a [queries] key, [get_goal_and_queries]
    raises, and the planning step stores nothing in the session: no plan,
    not even an empty one, is set. When the text is an object with both
    keys, their values are returned as the plan whatever they are: that
    the goal is a string and the queries a sequence is checked nowhere. *)
Theorem get_goal_and_queries_raises_on_malformed_plan :
  forall questions answers topic (s : state W) r w text,
    create (plan_request questions answers topic) (world s) = (Ok r, w) ->
    first_text r = Ok text ->
    (~ has_plan_shape text ->
     (exists e,
        fst (get_goal_and_queries create questions answers topic s) = Raise e /\
        (e = JSONDecodeError \/ e = ValueError \/ e = RecursionError \/
         e = TypeError \/ e = KeyError "goal" \/ e = KeyError "queries")) /\
     (questions = Session.questions (session s) ->
      answers = Session.answers (session s) ->
      topic = Session.topic (session s) ->
      is_ok (fst (generate_plan create s)) = false /\
      session (snd (generate_plan create s)) = session s)) /\
    (forall kvs goal queries,
       Json.loads text = Ok (PDict kvs) ->
       dict_get kvs "goal" = Some goal ->
       dict_get kvs "queries" = Some queries ->
       fst (get_goal_and_queries create questions answers topic s)
       = Ok (goal, queries) /\
       (questions = Session.questions (session s) ->
        answers = Session.answers (session s) ->
        topic = Session.topic (session s) ->
        session (snd (generate_plan create s))
        = Session.set_plan goal queries (session s))).
Proof.
  intros questions answers topic s r w text Hc Ht. split.
  - intros Hno. destruct (plan_of_error r Ht Hno) as [e [He Hkind]].
    split.
    + exists e. rewrite get_goal_and_queries_eq. cbv zeta. rewrite Hc.
      cbn [fst snd]. now split.
    + intros -> -> ->. unfold generate_plan, bind.
      rewrite get_goal_and_queries_eq. cbv zeta. rewrite Hc.
      cbn [fst snd]. rewrite He.
      split; reflexivity.
  - intros kvs goal queries Hl Hg Hq.
    assert (Hplan : plan_of (Ok r) = Ok (goal, queries))
      by (apply (plan_of_ok r goal queries Ht); now exists kvs).
    split.
    + rewrite get_goal_and_queries_eq. cbv zeta. rewrite Hc.
      cbn [fst snd]. exact Hplan.
    + intros -> -> ->. unfold generate_plan, bind.
      rewrite get_goal_and_queries_eq. cbv zeta. rewrite Hc.
      cbn [fst snd]. rewrite Hplan. reflexivity.
Qed.

End ComponentContracts.

Lemma evaluate_true_iff_reply_contains_yes_witness :
  exists b,
    fst (evaluate Stub.scripted [] (PStr "g")
           (Stub.start [Ok (Stub.text_reply "YeS, that is enough.")]
              Stub.planned)) = Ok b /\
    (b = true <->
     exists pre post,
       Str.lower "YeS, that is enough." = (pre ++ "yes" ++ post)%string) /\
    (b = false <->
     ~ exists pre post,
       Str.lower "YeS, that is enough." = (pre ++ "yes" ++ post)%string) /\
    (b = true <->
     exists pre y e s post,
       "YeS, that is enough."
       = (pre ++ String y (String e (String s post)))%string /\
       (y = "y"%char \/ y = "Y"%char) /\
       (e = "e"%char \/ e = "E"%char) /\
       (s = "s"%char \/ s = "S"%char)).
Proof.
  apply (@evaluate_true_iff_reply_contains_yes _ Stub.scripted [] (PStr "g")
           (Stub.start [Ok (Stub.text_reply "YeS, that is enough.")]
              Stub.planned)
           (Stub.text_reply "YeS, that is enough.") []);
    reflexivity.
Defined.

Lemma run_search_reads_second_slot_witness :
  fst (run_search Stub.scripted (PStr "grid storage costs")
         (Stub.start [Ok Stub.no_tool_reply] Stub.planned))
  = Raise IndexError /\
  fst (run_search Stub.scripted (PStr "grid storage costs")
         (Stub.start [Ok Stub.search_reply] Stub.planned))
  = Ok {| query := PStr "grid storage costs"; resp_id := "msg_1";
          research_output := "finding" |}.
Proof.
  split.
  - apply (proj1 (@run_search_reads_second_slot _ Stub.scripted _
                    (PStr "grid storage costs")
                    (Stub.start [Ok Stub.no_tool_reply] Stub.planned)
                    Stub.no_tool_reply [] eq_refl)).
    simpl. lia.
  - apply (proj2 (@run_search_reads_second_slot _ Stub.scripted _
                    (PStr "grid storage costs")
                    (Stub.start [Ok Stub.search_reply] Stub.planned)
                    Stub.search_reply [] eq_refl)
             (output_message "msg_1" [output_text "finding"]) "finding");
      reflexivity.
Defined.

(* ================================================================== *)
(** * The research loop *)

Section LoopFacts.
Variable W : Type.
Variable create : request -> W -> result response * W.
Context {python : Json.Interpreter}.

#[local] Abbreviation step := (loop_step create).
#[local] Abbreviation steps := (run create).
Notation "c '-->' d" := (transition create c d) (at level 70).

(** The step function makes exactly the moves of the relation. *)
Lemma loop_step_transition (c : config W) : c --> step c.
Proof.
  unfold loop_step. destruct (pc c) as [[|q rest]| | | |e] eqn:Hpc.
  - now apply pass_done.
  - rewrite run_search_eq. cbv zeta.
    destruct (create (search_request q) (world (mem c))) as [reply w] eqn:Hc.
    cbn [fst snd].
    destruct (search_result q reply) as [item|e] eqn:Hr.
    + eapply search_ok; eauto.
    + eapply search_fails; eauto.
  - rewrite evaluate_eq. cbv zeta.
    destruct (create _ (world (mem c))) as [reply w] eqn:Hc. cbn [fst snd].
    destruct (verdict_of reply) as [[|]|e] eqn:Hv.
    + apply evaluate_yes; assumption.
    + apply evaluate_no; assumption.
    + apply evaluate_fails; assumption.
  - rewrite get_more_queries_eq. cbv zeta.
    destruct (create _ (world (mem c))) as [reply w] eqn:Hc. cbn [fst snd].
    destruct (fst (expansion_of reply)) as [qs|e] eqn:Hx.
    + eapply expand_ok; eassumption.
    + eapply expand_fails; eassumption.
  - apply halted. unfold stopped. now rewrite Hpc.
  - apply halted. unfold stopped. now rewrite Hpc.
Qed.

Lemma steps_plus (j k : nat) (c : config W) :
  steps (j + k) c = steps k (steps j c).
Proof. revert c; induction j as [|j IH]; intros c; simpl; auto. Qed.

Lemma steps_succ (k : nat) (c : config W) :
  steps (S k) c = step (steps k c).
Proof.
  replace (S k) with (k + 1) by lia. now rewrite steps_plus.
Qed.

Lemma step_stopped (c : config W) : stopped c = true -> step c = c.
Proof.
  unfold stopped, loop_step. destruct (pc c) as [[|]| | | |];
    congruence || discriminate.
Qed.

Lemma steps_stopped (k : nat) (c : config W) :
  stopped c = true -> steps k c = c.
Proof.
  intros H. induction k as [|k IH]; [reflexivity|].
  simpl. now rewrite step_stopped.
Qed.

(** What every move preserves holds all along a run. *)
Lemma steps_invariant (P : config W -> Prop) :
  (forall c d, c --> d -> P c -> P d) ->
  forall k c, P c -> P (steps k c).
Proof.
  intros Hstep k. induction k as [|k IH]; intros c Hc; [exact Hc|].
  simpl. apply IH. eapply Hstep; [apply loop_step_transition | exact Hc].
Qed.

(** ** What a move leaves alone *)

Lemma start_pass_mem n qs g p (s : state W) : mem (start_pass n qs g p s) = s.
Proof. reflexivity. Qed.

Lemma start_pass_goal n qs g p (s : state W) : goal (start_pass n qs g p s) = g.
Proof. reflexivity. Qed.

(** A move changes the session in two ways only: one item is appended to
    [collected], or, when the loop ends, [step] is set. *)
Lemma transition_session (c d : config W) :
  c --> d ->
  goal d = goal c /\
  Session.goal (session (mem d)) = Session.goal (session (mem c)) /\
  Session.queries (session (mem d)) = Session.queries (session (mem c)) /\
  exists added, evidence d = evidence c ++ added /\ length added <= 1.
Proof.
  intros H. destruct H; unfold evidence; cbn;
    repeat split; try reflexivity;
    try (exists []; rewrite app_nil_r; split; [reflexivity | simpl; lia]).
  exists [item]. split; [reflexivity | simpl; lia].
Qed.

Lemma steps_evidence (k : nat) (c : config W) :
  exists added, evidence (steps k c) = evidence c ++ added.
Proof.
  revert c. induction k as [|k IH]; intros c.
  - exists []. now rewrite app_nil_r.
  - simpl. destruct (IH (step c)) as [more Hmore].
    destruct (transition_session (loop_step_transition c))
      as [_ [_ [_ [added [Hadd _]]]]].
    exists (added ++ more). now rewrite Hmore, Hadd, app_assoc.
Qed.

(** C4. The evidence is append-only along every run of the loop: each
    step keeps the items collected so far, in place and unchanged, and adds
    at most one at the end; so the length never decreases, whether the loop
    goes on, finishes or is aborted by an exception. *)
Theorem evidence_is_append_only :
  forall (c : config W) (k j : nat),
    (exists added, evidence (steps (k + j) c) = evidence (steps k c) ++ added) /\
    length (evidence (steps k c)) <= length (evidence (steps (k + j) c)) /\
    (forall i item,
       nth_error (evidence (steps k c)) i = Some item ->
       nth_error (evidence (steps (k + j) c)) i = Some item) /\
    (exists added,
       evidence (step (steps k c)) = evidence (steps k c) ++ added /\
       length added <= 1).
Proof.
  intros c k j. rewrite steps_plus.
  destruct (steps_evidence j (steps k c)) as [added Hadd].
  split; [now exists added|]. rewrite Hadd. split; [|split].
  - rewrite length_app. lia.
  - intros i item Hi. rewrite nth_error_app1; [exact Hi|].
    apply nth_error_Some. congruence.
  - destruct (transition_session (loop_step_transition (steps k c)))
      as [_ [_ [_ H]]]. exact H.
Qed.

(** The components themselves leave the whole session as it is. *)
Lemma components_keep_session (s : state W) :
  (forall q, session (snd (run_search create q s)) = session s) /\
  (forall collected goal,
     session (snd (evaluate create collected goal s)) = session s) /\
  (forall collected goal prev_id,
     session (snd (get_more_queries create collected goal prev_id s))
     = session s).
Proof.
  split; [|split]; intros.
  - now rewrite run_search_eq.
  - now rewrite evaluate_eq.
  - now rewrite get_more_queries_eq.
Qed.

(** C8. Neither the evaluator nor the expander writes the goal, and no
    step of the loop does: along every run the session's goal, and the
    loop's own copy of it, stay what they were when the loop was entered. *)
Theorem goal_is_never_modified :
  forall (s : state W),
    (forall collected goal,
       Session.goal (session (snd (evaluate create collected goal s)))
       = Session.goal (session s)) /\
    (forall collected goal prev_id,
       Session.goal
         (session (snd (get_more_queries create collected goal prev_id s)))
       = Session.goal (session s)) /\
    (forall k,
       Session.goal (session (mem (steps k (enter s))))
       = Session.goal (session s) /\
       goal (steps k (enter s)) = Session.goal (session s)).
Proof.
  intros s. destruct (components_keep_session s) as [_ [He Hx]].
  split; [|split].
  - intros. now rewrite He.
  - intros. now rewrite Hx.
  - intros k.
    apply (@steps_invariant
             (fun c => Session.goal (session (mem c)) = Session.goal (session s)
                       /\ goal c = Session.goal (session s))).
    + intros c d Hcd [H1 H2].
      destruct (transition_session Hcd) as [Hg [Hsg _]]. split; congruence.
    + split; reflexivity.
Qed.

End LoopFacts.

(* ================================================================== *)
(** * The calls of a run *)

Lemma shape_of_search (q : pyval) :
  is_search (search_request q) = true /\
  is_evaluate (search_request q) = false /\
  is_expand (search_request q) = false.
Proof. repeat split. Qed.

Lemma shape_of_evaluate (collected : list evidence_item) (goal : pyval) :
  is_search (evaluate_request collected goal) = false /\
  is_evaluate (evaluate_request collected goal) = true /\
  is_expand (evaluate_request collected goal) = false.
Proof. repeat split. Qed.

Lemma shape_of_expand (collected : list evidence_item) (goal : pyval)
  (prev_id : option string) :
  is_search (expand_request collected goal prev_id) = false /\
  is_evaluate (expand_request collected goal prev_id) = false /\
  is_expand (expand_request collected goal prev_id) = true.
Proof. repeat split. Qed.



Lemma searches_snoc (tr : list call) (x : call) :
  searches (tr ++ [x]) =
  searches tr ++ (if is_search (call_request x) then [x] else []).
Proof.
  unfold searches. rewrite filter_app. simpl.
  now destruct (is_search (call_request x)).
Qed.



Lemma skipn_prefix {A} (l tr : list A) : skipn (length l) (l ++ tr) = tr.
Proof. induction l as [|a l IH]; simpl; auto. Qed.



Section LoopTraces.
Variable W : Type.
Variable create : request -> W -> result response * W.
Context {python : Json.Interpreter}.

#[local] Abbreviation step := (loop_step create).
#[local] Abbreviation steps := (run create).
#[local] Notation "c '-->' d" := (transition create c d) (at level 70).





(** ** The loop goes on while the gateway cooperates *)


Lemma step_search_ok (c : config W) q rest reply w item :
  pc c = Searching (q :: rest) ->
  create (search_request q) (world (mem c)) = (reply, w) ->
  search_result q reply = Ok item ->
  step c = goto c
             (with_session (Session.append item)
                (logged (mem c) (search_request q) reply w))
             (Searching rest).
Proof.
  intros Hpc Hc Hr. unfold loop_step.
  rewrite Hpc, run_search_eq. cbv zeta. rewrite Hc. cbn [fst snd].
  now rewrite Hr.
Qed.


Lemma step_expand_ok (c : config W) review w text v :
  pc c = Expanding ->
  create (expand_request (evidence c) (goal c) None) (world (mem c))
  = (Ok review, w) ->
  first_text review = Ok text ->
  Str.is_empty text = false ->
  Json.loads text = Ok v ->
  step c = start_pass (S (count c)) v (goal c) (passes c)
             (expanded (mem c) (expand_request (evidence c) (goal c) None)
                (Ok review) w).
Proof.
  intros Hpc Hc Ht Hne Hl. unfold loop_step.
  rewrite Hpc, get_more_queries_eq. cbv zeta. unfold evidence in Hc.
  rewrite Hc. cbn [fst snd]. unfold expanded, expansion_of. cbn [rbind].
  rewrite Ht, Hne, Hl. reflexivity.
Qed.









End LoopTraces.

(* ================================================================== *)
(** * The stub gateways at work *)



(** The second scenario of the specification: the evaluator says no once,
    then yes. Five searches, a no, an expansion, five more searches, a
    yes: fifteen steps, two passes, ten items. *)
Example no_then_yes :
  let c := run (Stub.by_shape 2 Stub.five_more) 15
             (enter (Stub.start 0 Stub.planned)) in
  pc c = Finished /\ passes c = 2 /\ length (evidence c) = 10 /\
  length (searches (calls (mem c))) = 10 /\
  verdicts (calls (mem c)) = [Some false; Some true] /\
  length (expansions (calls (mem c))) = 1 /\
  Session.step (session (mem c)) = 4 /\
  queries c = PList [PStr "q6"; PStr "q7"; PStr "q8"; PStr "q9"; PStr "q10"] /\
  Session.queries (session (mem c)) = Stub.five_queries.
Proof. vm_compute. repeat split. Qed.

(** The first scenario: the evaluator says yes at once. *)
Example yes_at_once :
  let c := run (Stub.by_shape 1 Stub.five_more) 7
             (enter (Stub.start 0 Stub.planned)) in
  pc c = Finished /\ passes c = 1 /\ length (evidence c) = 5 /\
  length (calls (mem c)) = 6.
Proof. vm_compute. repeat split. Qed.


(* ================================================================== *)
(** * Search passes and the requests of the loop *)

Lemma combine_snoc {A B} (xs : list A) (ys : list B) (x : A) (y : B) :
  length xs = length ys ->
  combine (xs ++ [x]) (ys ++ [y]) = combine xs ys ++ [(x, y)].
Proof.
  revert ys. induction xs as [|a xs IH]; intros [|b ys] H; try discriminate.
  - reflexivity.
  - cbn. f_equal. apply IH. now injection H.
Qed.

Section Passes.
Variable W : Type.
Variable create : request -> W -> result response * W.
Context {python : Json.Interpreter}.

#[local] Abbreviation step := (loop_step create).
#[local] Abbreviation steps := (run create).
#[local] Notation "c '-->' d" := (transition create c d) (at level 70).

Lemma pass_record_start (s0 : state W) n qs g p (s : state W) items :
  py_iter qs = Ok items ->
  pass_start s0 (start_pass n qs g p s) (calls s) ->
  pass_so_far s0 (start_pass n qs g p s).
Proof.
  intros Hi Hstart. unfold pass_so_far, start_pass. rewrite Hi. cbn.
  exists [], (calls s), [], (Session.collected (session s)), [].
  cbn. rewrite Hi, !app_nil_r. unfold start_pass in Hstart.
  rewrite Hi in Hstart. repeat split; auto.
Qed.

Lemma pass_so_far_enter (s0 : state W) : pass_so_far s0 (enter s0).
Proof.
  unfold enter.
  destruct (py_iter (Session.queries (session s0))) as [items|e] eqn:Hi.
  - eapply pass_record_start; [exact Hi|]. left. now split.
  - unfold pass_so_far, start_pass. now rewrite Hi.
Qed.

Lemma pass_so_far_transition (s0 : state W) (c d : config W) :
  c --> d -> pass_so_far s0 c -> pass_so_far s0 d.
Proof.
  intros Hcd Hp. unfold pass_so_far in Hp.
  destruct Hcd as [Hpc|q rest reply w item Hpc Hc Hr|q rest reply w e Hpc Hc Hr
                   |reply w Hpc Hc Hv|reply w Hpc Hc Hv|reply w e Hpc Hc Hv
                   |reply w qs Hpc Hc Hx|reply w e Hpc Hc Hx|Hstop];
    try (rewrite Hpc in Hp); try exact I.
  - exact Hp.
  - destruct Hp as [done [tr0 [tr [ev0 [new [Hq [Hst [Hcalls [Hreq [Hev Hit]]]]]]]]]].
    unfold pass_so_far. cbn.
    exists (done ++ [q]), tr0,
      (tr ++ [{| call_request := search_request q; call_reply := reply |}]),
      ev0, (new ++ [item]).
    cbn. rewrite Hcalls, <- !app_assoc. cbn. unfold evidence in Hev.
    rewrite Hev, <- !app_assoc, !map_app, Hreq. cbn.
    repeat split; auto.
    unfold pass_items in *. rewrite combine_snoc, map_app, <- Hit.
    + cbn. now rewrite Hr.
    + apply (f_equal (@length _)) in Hreq. now rewrite !length_map in Hreq.
  - unfold start_pass, pass_so_far. cbn.
    destruct (py_iter qs) as [items|e] eqn:Hi; cbn; [|exact I].
    exists [], (calls (expanded (mem c)
                         (expand_request (evidence c) (goal c) None) reply w)),
      [], (evidence c), [].
    cbn. rewrite Hi, !app_nil_r. repeat split; auto.
    right. eexists. eexists. split; [reflexivity | reflexivity].
  - unfold stopped in Hstop. unfold pass_so_far.
    destruct (pc c); try discriminate; exact I.
Qed.

Lemma pass_so_far_steps (s0 : state W) (k : nat) :
  pass_so_far s0 (steps k (enter s0)).
Proof.
  apply (@steps_invariant _ create _ (pass_so_far s0)).
  - intros c d. apply pass_so_far_transition.
  - apply pass_so_far_enter.
Qed.

(** A pass from any point: it is aborted by the first search that fails,
    or makes one call per query. *)
Lemma pass_outcome (qs : list pyval) :
  forall c : config W,
    pc c = Searching qs ->
    aborted (steps (length qs) c) = true \/
    (pc (steps (length qs) c) = Searching [] /\
     exists tr new,
       calls (mem (steps (length qs) c)) = calls (mem c) ++ tr /\
       map call_request tr = map search_request qs /\
       evidence (steps (length qs) c) = evidence c ++ new /\
       map Ok new = pass_items qs tr).
Proof.
  induction qs as [|q rest IH]; intros c Hpc.
  - right. cbn. split; [exact Hpc|]. exists [], []. now rewrite !app_nil_r.
  - cbn [length run].
    destruct (create (search_request q) (world (mem c))) as [reply w] eqn:Hc.
    destruct (search_result q reply) as [item|e] eqn:Hr.
    + rewrite (step_search_ok create c Hpc Hc Hr).
      set (c1 := goto c _ (Searching rest)).
      destruct (IH c1 eq_refl) as [Hab|[Hdone [tr [new [H1 [H2 [H3 H4]]]]]]];
        [now left | right].
      split; [exact Hdone|].
      exists ({| call_request := search_request q; call_reply := reply |} :: tr),
        (item :: new).
      rewrite H1, H3. unfold c1, evidence. cbn. rewrite <- !app_assoc.
      repeat split; auto.
      * now rewrite H2.
      * unfold pass_items in *. cbn. now rewrite Hr, H4.
    + left. unfold loop_step. rewrite Hpc, run_search_eq. cbv zeta.
      rewrite Hc. cbn [fst snd]. rewrite Hr.
      rewrite steps_stopped; reflexivity.
Qed.

(** C2. In every search pass the collector is called once for each query
    of the active query set, in the order of the set, and each result is
    appended to the evidence:
    - whenever a run is at the end of a pass, the calls since the pass
      began are the searches for the items of [queries], in order, and
      the items added to the evidence are what those calls returned;
    - while a pass is under way, the same holds for the queries searched
      so far, which with the pending ones make up the active set;
    - for a plan whose queries are five, the first pass makes exactly
      five calls, one per query, in order, unless a search fails and
      aborts it. *)
Theorem search_pass_calls_each_query_in_order :
  forall (s0 : state W),
    (forall k,
       pc (steps k (enter s0)) = Evaluating ->
       pass_record s0 (steps k (enter s0)) []) /\
    (forall k pending,
       pc (steps k (enter s0)) = Searching pending ->
       pass_record s0 (steps k (enter s0)) pending) /\
    (forall qs,
       py_iter (Session.queries (session s0)) = Ok qs ->
       length qs = 5 ->
       pc (enter s0) = Searching qs /\
       (aborted (steps 5 (enter s0)) = false ->
        pc (steps 5 (enter s0)) = Searching [] /\
        exists tr new,
          calls (mem (steps 5 (enter s0))) = calls s0 ++ tr /\
          length tr = 5 /\
          map call_request tr = map search_request qs /\
          evidence (steps 5 (enter s0))
          = Session.collected (session s0) ++ new /\
          map Ok new = pass_items qs tr)).
Proof.
  intros s0. split; [|split].
  - intros k Hpc. pose proof (pass_so_far_steps s0 k) as H.
    unfold pass_so_far in H. now rewrite Hpc in H.
  - intros k pending Hpc. pose proof (pass_so_far_steps s0 k) as H.
    unfold pass_so_far in H. now rewrite Hpc in H.
  - intros qs Hq Hlen.
    assert (Hpc : pc (enter s0) = Searching qs)
      by (unfold enter, start_pass; cbn; now rewrite Hq).
    split; [exact Hpc|]. intros Hab.
    destruct (pass_outcome (enter s0) Hpc) as [H|[Hdone [tr [new [H1 [H2 [H3 H4]]]]]]];
      rewrite Hlen in *; [congruence|].
    split; [exact Hdone|]. exists tr, new. repeat split; auto.
    apply (f_equal (@length _)) in H2. rewrite !length_map in H2. lia.
Qed.

(** ** The requests of the loop *)

Lemma loop_calls_transition (s0 : state W) (c d : config W) :
  c --> d -> loop_calls s0 c -> loop_calls s0 d.
Proof.
  intros Hcd [Hg [tr [Hcalls Hall]]]. unfold loop_calls.
  destruct Hcd; cbn; (split; [exact Hg|]);
    try (exists tr; split; [exact Hcalls | exact Hall]);
    eexists; (split; [rewrite Hcalls, <- app_assoc; reflexivity|]);
    apply Forall_app; (split; [exact Hall|]);
    (apply Forall_cons; [|apply Forall_nil]);
    cbn; unfold loop_request; rewrite <- Hg;
    first [ left; eexists; reflexivity
          | right; left; eexists; reflexivity
          | right; right; eexists; reflexivity ].
Qed.

Lemma loop_calls_steps (s0 : state W) (k : nat) :
  loop_calls s0 (steps k (enter s0)).
Proof.
  apply (@steps_invariant _ create _ (loop_calls s0)).
  - intros c d. apply loop_calls_transition.
  - split; [reflexivity|]. exists []. split; [now rewrite app_nil_r|constructor].
Qed.

(** C9. Every expansion request of the loop is made with
    [previous_response_id] set to None: it is the request that
    [get_more_queries] builds from the evidence, the goal and None. The
    parameter itself is passed on to the gateway unchanged, so it is the
    loop's argument that keeps an expansion from continuing an earlier
    response. *)
Theorem expansion_never_continues_a_response :
  forall (s0 : state W),
    (forall k x,
       In x (calls_since s0 (steps k (enter s0))) ->
       is_expand (call_request x) = true ->
       previous_response_id (call_request x) = None /\
       exists collected,
         call_request x
         = expand_request collected (Session.goal (session s0)) None) /\
    (forall c : config W,
       pc c = Expanding ->
       mem (step c)
       = snd (get_more_queries create (evidence c) (goal c) None (mem c))) /\
    (forall collected goal prev_id,
       exists reply,
         calls (snd (get_more_queries create collected goal prev_id s0))
         = calls s0 ++ [{| call_request := expand_request collected goal prev_id;
                           call_reply := reply |}] /\
         previous_response_id (expand_request collected goal prev_id)
         = prev_id).
Proof.
  intros s0. split; [|split].
  - intros k x Hin Hx.
    destruct (loop_calls_steps s0 k) as [_ [tr [Hcalls Hall]]].
    unfold calls_since in Hin. rewrite Hcalls, skipn_prefix in Hin.
    rewrite Forall_forall in Hall. specialize (Hall x Hin).
    destruct Hall as [[q Hq]|[[coll Hq]|[coll Hq]]]; rewrite Hq in *.
    + discriminate.
    + discriminate.
    + split; [reflexivity | now exists coll].
  - intros c Hpc. unfold loop_step. rewrite Hpc.
    destruct (get_more_queries create (evidence c) (goal c) None (mem c))
      as [[qs|e] s] eqn:Hg; unfold evidence in Hg; rewrite Hg; reflexivity.
  - intros collected goal prev_id. rewrite get_more_queries_eq. cbv zeta.
    eexists. split; reflexivity.
Qed.

End Passes.

(* ================================================================== *)
(** * What the expander accepts and what it refuses *)

Section Expansion.
Variable W : Type.
Variable create : request -> W -> result response * W.
Context {python : Json.Interpreter}.

#[local] Abbreviation step := (loop_step create).
#[local] Abbreviation steps := (run create).

Lemma expansion_of_refused (review : response) (text : string) :
  first_text review = Ok text ->
  text = EmptyString \/ is_ok (Json.loads text) = false ->
  exists msg, expansion_of (Ok review) = (Raise StopException, [msg]).
Proof.
  intros Ht Hbad. unfold expansion_of. cbn [rbind]. rewrite Ht.
  destruct (Str.is_empty text) eqn:He; [eauto|].
  destruct Hbad as [->|Hbad]; [discriminate|].
  destruct (Json.loads text); [discriminate | eauto].
Qed.

Lemma expansion_of_accepted (review : response) (text : string) (v : pyval) :
  first_text review = Ok text ->
  text <> EmptyString ->
  Json.loads text = Ok v ->
  expansion_of (Ok review) = (Ok v, []).
Proof.
  intros Ht Hne Hl. unfold expansion_of. cbn [rbind]. rewrite Ht.
  destruct text as [|ch text]; [congruence|]. cbn [Str.is_empty].
  now rewrite Hl.
Qed.

(** C5, as the code has it. [get_more_queries] displays an error and stops
    the script when the reply text is empty or [json.loads] raises on it,
    and that ends the loop at once: no further call is made and the
    evidence collected so far stays in the session. A reply text that
    [json.loads] accepts is returned as parsed, whatever its shape. What
    [json.loads] raises is [JSONDecodeError] on a text that is no JSON,
    [ValueError] on an integer of more digits than the interpreter
    allows, [RecursionError] on nesting deeper than it has room for; the
    message displayed holds the text and the exception. *)
Theorem get_more_queries_stops_on_empty_or_invalid_json :
  forall collected g prev_id (s : state W) review w text,
    create (expand_request collected g prev_id) (world s) = (Ok review, w) ->
    first_text review = Ok text ->
    ((text = EmptyString \/ is_ok (Json.loads text) = false) ->
     fst (get_more_queries create collected g prev_id s)
     = Raise StopException /\
     (exists msg,
        shown (snd (get_more_queries create collected g prev_id s))
        = shown s ++ [msg]) /\
     (forall c : config W,
        pc c = Expanding -> mem c = s -> evidence c = collected ->
        goal c = g -> prev_id = None ->
        pc (step c) = Aborted StopException /\
        evidence (step c) = evidence c /\
        forall k, steps k (step c) = step c)) /\
    (forall v,
       text <> EmptyString -> Json.loads text = Ok v ->
       fst (get_more_queries create collected g prev_id s) = Ok v /\
       shown (snd (get_more_queries create collected g prev_id s)) = shown s) /\
    (forall e,
       text <> EmptyString -> Json.loads text = Raise e ->
       shown (snd (get_more_queries create collected g prev_id s))
       = shown s ++ [invalid_json_message text e] /\
       (e = JSONDecodeError \/
        (e = ValueError /\ (0 < Json.int_max_str_digits)%N) \/
        e = RecursionError)).
Proof.
  intros collected g prev_id s review w text Hc Ht. split; [|split].
  - intros Hbad. destruct (expansion_of_refused review Ht Hbad) as [msg Hx].
    rewrite get_more_queries_eq. cbv zeta. rewrite Hc. cbn [fst snd].
    rewrite Hx. cbn [fst snd shown]. split; [reflexivity|].
    split; [now exists msg|].
    intros c Hpc <- <- <- ->.
    assert (Hstep : step c
                    = goto c
                        (expanded (mem c)
                           (expand_request (evidence c) (goal c) None)
                           (Ok review) w)
                        (Aborted StopException)).
    { unfold loop_step. rewrite Hpc, get_more_queries_eq. cbv zeta.
      unfold evidence in Hc. rewrite Hc. cbn [fst snd]. rewrite Hx.
      unfold expanded. now rewrite Hx. }
    rewrite Hstep. repeat split. intros k. now apply steps_stopped.
  - intros v Hne Hl. rewrite get_more_queries_eq. cbv zeta. rewrite Hc.
    cbn [fst snd]. rewrite (expansion_of_accepted review Ht Hne Hl).
    cbn [fst snd shown]. now rewrite app_nil_r.
  - intros e Hne Hl. split; [|exact (JsonFacts.loads_raises _ Hl)].
    rewrite get_more_queries_eq. cbv zeta. rewrite Hc. cbn [fst snd].
    unfold expansion_of. cbn [rbind]. rewrite Ht.
    destruct text as [|ch text]; [congruence|]. cbn [Str.is_empty].
    rewrite Hl. reflexivity.
Qed.

(** C10. The loop never writes the session's [queries]: at every point of
    every run, and so when the loop has finished, the session still holds
    the queries of the plan. An expansion rebinds the local [queries] of
    the loop and leaves the whole session as it is. *)
Theorem session_queries_are_never_written :
  forall (s : state W),
    (forall k,
       Session.queries (session (mem (steps k (enter s))))
       = Session.queries (session s)) /\
    (forall (c : config W) review w text v,
       pc c = Expanding ->
       create (expand_request (evidence c) (goal c) None) (world (mem c))
       = (Ok review, w) ->
       first_text review = Ok text ->
       Str.is_empty text = false ->
       Json.loads text = Ok v ->
       queries (step c) = v /\
       session (mem (step c)) = session (mem c)).
Proof.
  intros s. split.
  - intros k.
    apply (@steps_invariant _ create _
             (fun c => Session.queries (session (mem c))
                       = Session.queries (session s))).
    + intros c d Hcd H.
      destruct (transition_session Hcd) as [_ [_ [Hq _]]]. congruence.
    + reflexivity.
  - intros c review w text v Hpc Hc Ht Hne Hl.
    rewrite (step_expand_ok create c Hpc Hc Ht Hne Hl). split; reflexivity.
Qed.

End Expansion.

(** C5, as stated, fails. The reply [[]] is valid JSON and not empty as
    a text. [get_more_queries] returns the empty list and displays
    nothing; the loop takes it as its query set, runs a pass that searches
    nothing, and asks the evaluator again: after two rounds there are
    still only the five items of the first pass, two evaluations have
    been made, and the loop is about to expand once more. *)
Lemma expansion_accepts_an_empty_query_set_counterexample :
  let gateway := Stub.by_shape 0 "[]" in
  let s := Stub.start 0 Stub.planned in
  Json.loads "[]" = Ok (PList []) /\
  fst (get_more_queries gateway [] (Session.goal Stub.planned) None s)
  = Ok (PList []) /\
  shown (snd (get_more_queries gateway [] (Session.goal Stub.planned) None s))
  = [] /\
  pc (run gateway 7 (enter s)) = Expanding /\
  pc (run gateway 8 (enter s)) = Searching [] /\
  queries (run gateway 8 (enter s)) = PList [] /\
  pc (run gateway 9 (enter s)) = Evaluating /\
  pc (run gateway 10 (enter s)) = Expanding /\
  length (evidence (run gateway 10 (enter s))) = 5 /\
  length (evaluations (calls (mem (run gateway 10 (enter s))))) = 2 /\
  length (searches (calls (mem (run gateway 10 (enter s))))) = 5 /\
  shown (mem (run gateway 10 (enter s))) = [].
Proof. vm_compute. repeat split. Qed.

(** Other JSON values that are no list of query strings are returned by
    the expander just the same. An empty object gives a pass over no
    query; a number makes the [for] statement raise; a string is searched
    character by character. *)
Example expansion_of_other_shapes :
  let s := Stub.start 0 Stub.planned in
  pc (run (Stub.by_shape 0 "{}") 9 (enter s)) = Evaluating /\
  pc (run (Stub.by_shape 0 "42") 8 (enter s)) = Aborted TypeError /\
  pc (run (Stub.by_shape 0 (jtext "'abc'")) 8 (enter s))
  = Searching [PStr "a"; PStr "b"; PStr "c"].
Proof. vm_compute. repeat split. Qed.

(* ================================================================== *)
(** * The contracts on the stub gateways *)

Lemma get_goal_and_queries_raises_on_malformed_plan_witness :
  (let s := Stub.start [Ok (Stub.text_reply "I cannot help with that.")]
              Session.initial in
   (exists e,
      fst (get_goal_and_queries Stub.scripted [] [] EmptyString s) = Raise e /\
      (e = JSONDecodeError \/ e = ValueError \/ e = RecursionError \/
       e = TypeError \/ e = KeyError "goal" \/ e = KeyError "queries")) /\
   is_ok (fst (generate_plan Stub.scripted s)) = false /\
   session (snd (generate_plan Stub.scripted s)) = session s) /\
  (let s := Stub.start
              [Ok (Stub.text_reply (jtext "{'goal': 42, 'queries': 7}"))]
              Session.initial in
   fst (get_goal_and_queries Stub.scripted [] [] EmptyString s)
   = Ok (PInt 42, PInt 7) /\
   session (snd (generate_plan Stub.scripted s))
   = Session.set_plan (PInt 42) (PInt 7) (session s)).
Proof.
  split.
  - intros s.
    destruct (@get_goal_and_queries_raises_on_malformed_plan _ Stub.scripted _
                [] [] EmptyString s
                (Stub.text_reply "I cannot help with that.") []
                "I cannot help with that." eq_refl eq_refl) as [H _].
    destruct H as [H1 H2].
    + intros [kvs [g [q [H _]]]]. vm_compute in H. discriminate.
    + split; [exact H1|]. apply H2; reflexivity.
  - intros s.
    destruct (@get_goal_and_queries_raises_on_malformed_plan _ Stub.scripted _
                [] [] EmptyString s
                (Stub.text_reply (jtext "{'goal': 42, 'queries': 7}")) []
                (jtext "{'goal': 42, 'queries': 7}") eq_refl eq_refl)
      as [_ H].
    destruct (H [("goal", PInt 42); ("queries", PInt 7)] (PInt 42) (PInt 7))
      as [H1 H2]; try (vm_compute; reflexivity).
    split; [exact H1|]. apply H2; reflexivity.
Defined.

(** C7, as stated, fails. The reply holds an object whose [goal] is a
    number and whose [queries] is a number: no goal string, no sequence of
    queries. [get_goal_and_queries] returns the two numbers, the planning
    step stores them as the plan, and the page of step 2 goes on to list
    the queries, where the [for] statement raises. *)
Lemma planner_returns_a_plan_of_any_types_counterexample :
  let text := jtext "{'goal': 42, 'queries': 7}" in
  let s := Stub.start [Ok (Stub.text_reply text)]
             (Fields.set_answers [] (Fields.set_topic "tides" Session.initial)) in
  Json.loads text = Ok (PDict [("goal", PInt 42); ("queries", PInt 7)]) /\
  (forall g, PInt 42 <> PStr g) /\
  (forall qs, PInt 7 <> PList qs) /\
  fst (get_goal_and_queries Stub.scripted (Session.questions (session s))
         (Session.answers (session s)) (Session.topic (session s)) s)
  = Ok (PInt 42, PInt 7) /\
  fst (generate_plan Stub.scripted s) = Ok tt /\
  Session.goal (session (snd (generate_plan Stub.scripted s))) = PInt 42 /\
  Session.queries (session (snd (generate_plan Stub.scripted s))) = PInt 7 /\
  fst (script Stub.scripted 0 Desk.idle s) = Raised TypeError /\
  Session.queries (session (snd (script Stub.scripted 0 Desk.idle s)))
  = PInt 7.
Proof. vm_compute. repeat split; discriminate. Qed.

Lemma search_pass_calls_each_query_in_order_witness :
  let gateway := Stub.by_shape 1 Stub.five_more in
  let s0 := Stub.start 0 Stub.planned in
  pass_record s0 (run gateway 6 (enter s0)) [] /\
  pc (run gateway 5 (enter s0)) = Searching [] /\
  exists tr new,
    calls (mem (run gateway 5 (enter s0))) = calls s0 ++ tr /\
    length tr = 5 /\
    map call_request tr
    = map search_request
        [PStr "solar battery 2024"; PStr "grid storage costs";
         PStr "battery chemistry advances"; PStr "storage subsidies";
         PStr "market forecast 2025"] /\
    evidence (run gateway 5 (enter s0)) = Session.collected (session s0) ++ new /\
    map Ok new
    = pass_items
        [PStr "solar battery 2024"; PStr "grid storage costs";
         PStr "battery chemistry advances"; PStr "storage subsidies";
         PStr "market forecast 2025"] tr.
Proof.
  intros gateway s0.
  destruct (@search_pass_calls_each_query_in_order _ gateway _ s0)
    as [H1 [_ H3]].
  split.
  - apply H1. reflexivity.
  - apply (H3 [PStr "solar battery 2024"; PStr "grid storage costs";
               PStr "battery chemistry advances"; PStr "storage subsidies";
               PStr "market forecast 2025"]); reflexivity.
Defined.

Lemma expansion_never_continues_a_response_witness :
  previous_response_id (call_request Stub.expansion_call) = None /\
  exists collected,
    call_request Stub.expansion_call
    = expand_request collected (Session.goal Stub.planned) None.
Proof.
  apply (proj1 (@expansion_never_continues_a_response _
                  (Stub.by_shape 2 Stub.five_more) _
                  (Stub.start 0 Stub.planned)) 15 Stub.expansion_call).
  - vm_compute. do 6 right. left. reflexivity.
  - reflexivity.
Defined.

Lemma get_more_queries_stops_on_empty_or_invalid_json_witness :
  let gateway := Stub.by_shape 0 "Here are five more queries." in
  let c := run gateway 7 (enter (Stub.start 0 Stub.planned)) in
  fst (get_more_queries gateway (evidence c) (goal c) None (mem c))
  = Raise StopException /\
  pc (loop_step gateway c) = Aborted StopException /\
  evidence (loop_step gateway c) = evidence c /\
  length (evidence c) = 5.
Proof.
  intros gateway c.
  destruct (@get_more_queries_stops_on_empty_or_invalid_json _ gateway _
              (evidence c) (goal c) None (mem c)
              (Stub.text_reply "Here are five more queries.") 1
              "Here are five more queries." eq_refl eq_refl) as [H _].
  destruct H as [Hstop [_ Hloop]].
  - right. vm_compute. reflexivity.
  - destruct (Hloop c eq_refl eq_refl eq_refl eq_refl eq_refl)
      as [Hpc [Hev _]].
    repeat split; assumption || reflexivity.
Defined.

Lemma evidence_is_append_only_witness :
  let gateway := Stub.by_shape 2 Stub.five_more in
  let c := enter (Stub.start 0 Stub.planned) in
  nth_error (evidence (run gateway (5 + 10) c)) 0
  = Some {| query := PStr "solar battery 2024"; resp_id := "msg_1";
            research_output := "finding" |} /\
  length (evidence (run gateway 5 c))
  <= length (evidence (run gateway (5 + 10) c)).
Proof.
  intros gateway c.
  destruct (@evidence_is_append_only _ gateway _ c 5 10)
    as [_ [Hlen [Hnth _]]].
  split; [apply Hnth; reflexivity | exact Hlen].
Defined.

Lemma session_queries_are_never_written_witness :
  let gateway := Stub.by_shape 2 Stub.five_more in
  let c := run gateway 7 (enter (Stub.start 0 Stub.planned)) in
  queries (loop_step gateway c)
  = PList [PStr "q6"; PStr "q7"; PStr "q8"; PStr "q9"; PStr "q10"] /\
  session (mem (loop_step gateway c)) = session (mem c).
Proof.
  intros gateway c.
  apply (proj2 (@session_queries_are_never_written _ gateway _
                  (Stub.start 0 Stub.planned))
           c (Stub.text_reply Stub.five_more) 1 Stub.five_more);
    reflexivity.
Defined.

(* ================================================================== *)
(** * The clarifying questions *)

Module TextFacts.
Import Text.

Lemma split_lines_not_nil (s : string) : split_lines s <> [].
Proof.
  induction s as [|c s IH]; simpl; [discriminate|].
  destruct (Ascii.eqb c newline); [discriminate|].
  destruct (split_lines s); discriminate.
Qed.

(** Splitting loses nothing: the lines, joined again, are the text. *)
Lemma join_split_lines (s : string) : join_lines (split_lines s) = s.
Proof.
  induction s as [|c s IH]; [reflexivity|]. simpl.
  destruct (Ascii.eqb c newline) eqn:Hc.
  - apply Ascii.eqb_eq in Hc. subst c.
    pose proof (split_lines_not_nil s) as Hne.
    destruct (split_lines s) as [|l ls]; [congruence|].
    cbn [join_lines]. cbn [join_lines] in IH. now rewrite IH.
  - pose proof (split_lines_not_nil s) as Hne.
    destruct (split_lines s) as [|l ls]; [congruence|].
    destruct ls as [|l2 ls]; cbn [join_lines] in *; simpl; now rewrite IH.
Qed.

Lemma split_lines_no_newline (s : string) :
  Forall (fun l => has_newline l = false) (split_lines s).
Proof.
  induction s as [|c s IH]; simpl; [repeat constructor|].
  destruct (Ascii.eqb c newline) eqn:Hc.
  - constructor; [reflexivity | exact IH].
  - destruct (split_lines s) as [|l ls]; [repeat constructor; simpl; now rewrite Hc|].
    inversion IH as [|? ? Hl Hls]; subst.
    constructor; [simpl; now rewrite Hc, Hl | exact Hls].
Qed.

End TextFacts.

Section PageFacts.
Variable W : Type.
Variable create : request -> W -> result response * W.
Context {python : Json.Interpreter}.

(** What [ask_clarifying_questions] returns for a reply. *)
Lemma ask_clarifying_questions_eq (topic : string) (s : state W) :
  ask_clarifying_questions create topic s =
  let reply := fst (create (clarify_request topic) (world s)) in
  let w := snd (create (clarify_request topic) (world s)) in
  (rbind reply (fun clarify =>
   rbind (first_text clarify) (fun text =>
   Ok (filter (fun q => negb (Text.blank q)) (Text.split_lines text)))),
   logged s (clarify_request topic) reply w).
Proof.
  unfold ask_clarifying_questions, bind, responses_create, lift, ret, rbind.
  destruct (create (clarify_request topic) (world s)) as [[r|e] w]; simpl;
    [|reflexivity].
  destruct (first_text r); reflexivity.
Qed.

Lemma write_report_eq (goal : pyval) (collected : list evidence_item)
  (s : state W) :
  write_report create goal collected s =
  let reply := fst (create (report_request goal collected) (world s)) in
  let w := snd (create (report_request goal collected) (world s)) in
  (rbind reply first_text, logged s (report_request goal collected) reply w).
Proof.
  unfold write_report, bind, responses_create, lift, rbind.
  destruct (create (report_request goal collected) (world s)) as [[r|e] w];
    reflexivity.
Qed.

Lemma ask_clarifying_questions_ok topic (s : state W) clarify w text :
  create (clarify_request topic) (world s) = (Ok clarify, w) ->
  first_text clarify = Ok text ->
  ask_clarifying_questions create topic s
  = (Ok (filter (fun q => negb (Text.blank q)) (Text.split_lines text)),
     logged s (clarify_request topic) (Ok clarify) w).
Proof.
  intros Hc Ht. rewrite ask_clarifying_questions_eq. cbv zeta. rewrite Hc.
  cbn [fst snd rbind]. now rewrite Ht.
Qed.

Lemma no_nonblank_line (ls : list string) :
  filter (fun q => negb (Text.blank q)) ls = [] <->
  forallb Text.blank ls = true.
Proof.
  induction ls as [|l ls IH]; simpl; [tauto|].
  destruct (Text.blank l); simpl; [exact IH|].
  split; discriminate.
Qed.

(** X1. The questions that [ask_clarifying_questions] returns are the
    lines of the reply that are not blank, in the order of the reply: each
    of them is a line of the reply, holds no newline and is not blank;
    every line that is not blank is among them; there are no more of them
    than lines, and none when every line is blank; and the lines, joined
    by newlines, are the reply. The session is left as it is. *)
Theorem ask_clarifying_questions_returns_the_nonblank_lines :
  forall topic (s : state W) clarify w text,
    create (clarify_request topic) (world s) = (Ok clarify, w) ->
    first_text clarify = Ok text ->
    exists questions,
      ask_clarifying_questions create topic s
      = (Ok questions, logged s (clarify_request topic) (Ok clarify) w) /\
      questions
      = filter (fun q => negb (Text.blank q)) (Text.split_lines text) /\
      Text.join_lines (Text.split_lines text) = text /\
      (forall q,
         In q questions <->
         In q (Text.split_lines text) /\ Text.blank q = false) /\
      Forall (fun q => Text.has_newline q = false) questions /\
      length questions <= length (Text.split_lines text) /\
      (questions = [] <->
       forallb Text.blank (Text.split_lines text) = true).
Proof.
  intros topic s clarify w text Hc Ht.
  exists (filter (fun q => negb (Text.blank q)) (Text.split_lines text)).
  split; [now apply ask_clarifying_questions_ok|].
  split; [reflexivity|].
  split; [apply TextFacts.join_split_lines|].
  split.
  { intros q. rewrite filter_In, negb_true_iff. reflexivity. }
  split.
  { pose proof (TextFacts.split_lines_no_newline text) as H.
    rewrite Forall_forall in *. intros q Hq. apply filter_In in Hq.
    now apply H. }
  split; [apply filter_length_le | apply no_nonblank_line].
Qed.

Lemma fetch_questions_stored (s : state W) :
  Session.questions (session s) <> [] -> fetch_questions create s = (Ok tt, s).
Proof.
  unfold fetch_questions. destruct (Session.questions (session s));
    [congruence | reflexivity].
Qed.

(** X2. When no question is stored and every line of the reply is blank,
    the run at step 1 calls the gateway and still stores no question, so
    the next run asks again; and as there is no answer box to fill, a
    submitted form goes on to step 2 with no answers, whatever the boxes
    hold. *)
Theorem no_questions_let_the_form_through :
  forall fuel ui (s : state W) clarify w text,
    Session.step (session s) = 1 ->
    Session.questions (session s) = [] ->
    create (clarify_request (Session.topic (session s))) (world s)
    = (Ok clarify, w) ->
    first_text clarify = Ok text ->
    forallb Text.blank (Text.split_lines text) = true ->
    let s' := snd (script create fuel ui s) in
    calls s'
    = calls s ++ [{| call_request := clarify_request (Session.topic (session s));
                     call_reply := Ok clarify |}] /\
    Session.questions (session s') = [] /\
    (submitted ui = true ->
     fst (script create fuel ui s) = Rerun /\
     Session.step (session s') = 2 /\ Session.answers (session s') = []) /\
    (submitted ui = false ->
     fst (script create fuel ui s) = Completed /\
     Session.step (session s') = 1).
Proof.
  intros fuel ui s clarify w text Hstep Hq Hc Ht Hblank.
  pose proof (ask_clarifying_questions_ok s Hc Ht) as Hask.
  apply no_nonblank_line in Hblank. rewrite Hblank in Hask.
  assert (Hrun : fetch_questions create s
                 = (Ok tt,
                    with_session (Fields.set_questions [])
                      (logged s (clarify_request (Session.topic (session s)))
                         (Ok clarify) w))).
  { unfold fetch_questions, bind. rewrite Hq, Hask. reflexivity. }
  unfold script. rewrite Hstep, Hrun. cbn [read_answers].
  cbn. destruct (submitted ui); cbn; repeat split; intros; try discriminate;
    reflexivity || exact Hstep.
Qed.

(** X3. Once a page has what it would fetch (questions at step 1; a goal
    and queries that are true and can be listed at step 2; a report at
    step 4; anything at step 0), a run makes no call to the gateway, and
    a run in which no button is pressed leaves all as it is. *)
Theorem settled_page_makes_no_call :
  forall fuel ui (s : state W),
    settled (session s) = true ->
    calls (snd (script create fuel ui s)) = calls s /\
    world (snd (script create fuel ui s)) = world s /\
    (submitted ui = false -> clicked ui = false ->
     script create fuel ui s = (Completed, s)).
Proof.
  intros fuel ui s Hset. unfold settled in Hset. unfold script.
  destruct (Session.step (session s)) as [|[|[|[|[|n]]]]] eqn:Hstep.
  - destruct (submitted ui); cbn; [|auto].
    destruct (Str.is_empty (topic_box ui)); cbn; repeat split; intros;
      discriminate || reflexivity.
  - rewrite fetch_questions_stored
      by (destruct (Session.questions (session s)); discriminate).
    destruct (submitted ui); cbn; [|auto].
    destruct (forallb _ _); cbn; repeat split; intros;
      discriminate || reflexivity.
  - apply andb_true_iff in Hset as [Hset Hit].
    apply andb_true_iff in Hset as [Hg Hq].
    unfold bind, fetch_plan, list_queries. rewrite Hg, Hq. cbn.
    destruct (py_iter (Session.queries (session s))); [|discriminate].
    destruct (clicked ui); cbn; repeat split; intros;
      discriminate || reflexivity.
  - discriminate.
  - unfold fetch_report. apply negb_true_iff in Hset. rewrite Hset.
    destruct (clicked ui); cbn; repeat split; intros;
      discriminate || reflexivity.
  - auto.
Qed.

(** X4. A run of a page other than the loop calls the gateway at most
    once, and displays nothing through [st.error]: at step 0 never; at
    step 1 for questions about the topic, at step 2 for a plan from the
    questions, the answers and the topic, at step 4 for a report on the
    goal from all the evidence of the session. *)
Theorem pages_call_the_gateway_at_most_once :
  forall fuel ui (s : state W),
    Session.step (session s) <> 3 ->
    shown (snd (script create fuel ui s)) = shown s /\
    (calls (snd (script create fuel ui s)) = calls s \/
     exists r reply,
       calls (snd (script create fuel ui s))
       = calls s ++ [{| call_request := r; call_reply := reply |}] /\
       create r (world s) = (reply, world (snd (script create fuel ui s))) /\
       match Session.step (session s) with
       | 1 => r = clarify_request (Session.topic (session s))
       | 2 => r = plan_request (Session.questions (session s))
                    (Session.answers (session s)) (Session.topic (session s))
       | 4 => r = report_request (Session.goal (session s))
                    (Session.collected (session s))
       | _ => False
       end).
Proof.
  intros fuel ui s Hstep. unfold script.
  destruct (Session.step (session s)) as [|[|[|[|[|n]]]]] eqn:Hs;
    try congruence.
  - destruct (submitted ui && negb (Str.is_empty (topic_box ui))); cbn; auto.
  - unfold fetch_questions.
    destruct (Session.questions (session s)) as [|q qs] eqn:Hq.
    + unfold bind. rewrite ask_clarifying_questions_eq. cbv zeta.
      destruct (create (clarify_request (Session.topic (session s))) (world s))
        as [reply w] eqn:Hc.
      cbn [fst snd].
      match goal with
      | |- context [rbind reply ?k] => destruct (rbind reply k) as [qs|e]
      end.
      * cbn. destruct (submitted ui && forallb _ _); cbn;
          (split; [reflexivity|]); right; eexists; exists reply;
          (split; [reflexivity | split; [exact Hc | reflexivity]]).
      * cbn. split; [reflexivity|]. right. eexists. exists reply.
        split; [reflexivity | split; [exact Hc | reflexivity]].
    + destruct (submitted ui && forallb _ _); cbn; auto.
  - unfold bind, fetch_plan, list_queries, generate_plan.
    destruct (negb (Truth.truthy (Session.goal (session s)))
              || negb (Truth.truthy (Session.queries (session s)))).
    + unfold bind. rewrite get_goal_and_queries_eq. cbv zeta.
      destruct (create _ (world s)) as [reply w] eqn:Hc. cbn [fst snd].
      destruct (plan_of reply) as [[g q]|e]; cbn.
      * destruct (py_iter q); [destruct (clicked ui)|]; cbn;
          (split; [reflexivity|]); right; eexists; exists reply;
          (split; [reflexivity | split; [exact Hc | reflexivity]]).
      * split; [reflexivity|]. right. eexists. exists reply.
        split; [reflexivity | split; [exact Hc | reflexivity]].
    + destruct (py_iter (Session.queries (session s)));
        [destruct (clicked ui)|]; cbn; auto.
  - unfold fetch_report.
    destruct (Str.is_empty (Session.report (session s))).
    + unfold bind. rewrite write_report_eq. cbv zeta.
      destruct (create _ (world s)) as [reply w] eqn:Hc. cbn [fst snd].
      destruct (rbind reply first_text) as [r|e]; cbn.
      * destruct (clicked ui); cbn;
          (split; [reflexivity|]); right; eexists; exists reply;
          (split; [reflexivity | split; [exact Hc | reflexivity]]).
      * split; [reflexivity|]. right. eexists. exists reply.
        split; [reflexivity | split; [exact Hc | reflexivity]].
    + destruct (clicked ui); cbn; auto.
  - auto.
Qed.

End PageFacts.

(* ================================================================== *)
(** * More on the loop: what it takes along and what it leaves behind *)

Lemma snoc_split {A} (tr pre post : list A) (x y : A) :
  tr ++ [x] = pre ++ y :: post ->
  (post = [] /\ pre = tr /\ y = x) \/
  (exists post', post = post' ++ [x] /\ tr = pre ++ y :: post').
Proof.
  intros H. destruct (exists_last (l := y :: post)) as [l' [z Hl]];
    [discriminate|].
  destruct post as [|p post].
  - left. change (pre ++ [y]) with (pre ++ [y]) in H.
    apply app_inj_tail in H as [-> ->]. auto.
  - right. destruct (exists_last (l := p :: post)) as [post' [z' Hp]];
      [discriminate|].
    rewrite Hp in H. change (pre ++ y :: post' ++ [z'])
      with (pre ++ (y :: post') ++ [z']) in H.
    rewrite app_assoc in H. apply app_inj_tail in H as [-> ->].
    exists post'. rewrite Hp. auto.
Qed.

Lemma gathered_snoc (tr : list call) (x : call) :
  gathered (tr ++ [x]) = gathered tr ++ item_of x.
Proof. unfold gathered. rewrite flat_map_app. simpl. now rewrite app_nil_r. Qed.

Lemma item_of_length (x : call) :
  length (item_of x) <= if is_search (call_request x) then 1 else 0.
Proof.
  unfold item_of, query_of, is_search.
  destruct (tools (call_request x)); [|cbn; lia].
  destruct (input (call_request x)) as [p|ms]; [|cbn; lia].
  destruct p as [|[s|v|e|i] [|[s'|v'|e'|i'] [|p3 ps]]]; cbn; try lia.
  destruct (search_result v' (call_reply x)); cbn; lia.
Qed.

Lemma gathered_length (tr : list call) :
  length (gathered tr) <= length (searches tr).
Proof.
  induction tr as [|x tr IH]; [cbn; lia|].
  unfold gathered, searches in *. cbn [flat_map filter].
  rewrite length_app. pose proof (item_of_length x) as Hx.
  destruct (is_search (call_request x)); cbn [length]; lia.
Qed.

Lemma expansion_of_messages {python : Json.Interpreter}
  (reply : result response) :
  (forall v, fst (expansion_of reply) = Ok v -> snd (expansion_of reply) = []) /\
  (forall e,
     fst (expansion_of reply) = Raise e ->
     snd (expansion_of reply) = [] \/
     (e = StopException /\ exists msg, snd (expansion_of reply) = [msg])).
Proof.
  unfold expansion_of.
  destruct (rbind reply first_text) as [text|e0]; cbn; [|split; intros; auto; discriminate].
  destruct (Str.is_empty text); cbn.
  - split; intros; [discriminate|]. right. injection H as <-. eauto.
  - destruct (Json.loads text); cbn; split; intros; auto; try discriminate.
    right. injection H as <-. eauto.
Qed.

Section LoopLedger.
Variable W : Type.
Variable create : request -> W -> result response * W.
Context {python : Json.Interpreter}.

#[local] Abbreviation steps := (run create).
#[local] Notation "c '-->' d" := (transition create c d) (at level 70).

(** The fields of the session that a move keeps, and what it does to
    [step]. *)
Lemma transition_fields (c d : config W) :
  c --> d ->
  Session.topic (session (mem d)) = Session.topic (session (mem c)) /\
  Session.questions (session (mem d)) = Session.questions (session (mem c)) /\
  Session.answers (session (mem d)) = Session.answers (session (mem c)) /\
  Session.report (session (mem d)) = Session.report (session (mem c)).
Proof. intros H. destruct H; cbn; repeat split. Qed.

Lemma transition_step (c d : config W) :
  c --> d ->
  d = c \/
  (stopped c && negb (aborted c) = false /\
   Session.step (session (mem d))
   = if stopped d && negb (aborted d) then 4
     else Session.step (session (mem c))).
Proof.
  intros H. destruct H as [Hpc|q rest reply w item Hpc|q rest reply w e Hpc
                           |reply w Hpc|reply w Hpc|reply w e Hpc
                           |reply w qs Hpc|reply w e Hpc|Hstop];
    [right|right|right|right|right|right|right|right|left; reflexivity];
    unfold stopped, aborted, start_pass; rewrite Hpc; cbn;
    (split; [reflexivity|]); try reflexivity.
  destruct (py_iter qs); reflexivity.
Qed.

Lemma loop_fields (s : state W) (k : nat) :
  Session.topic (session (mem (steps k (enter s))))
  = Session.topic (session s) /\
  Session.questions (session (mem (steps k (enter s))))
  = Session.questions (session s) /\
  Session.answers (session (mem (steps k (enter s))))
  = Session.answers (session s) /\
  Session.report (session (mem (steps k (enter s))))
  = Session.report (session s) /\
  Session.goal (session (mem (steps k (enter s))))
  = Session.goal (session s) /\
  Session.queries (session (mem (steps k (enter s))))
  = Session.queries (session s) /\
  Session.step (session (mem (steps k (enter s))))
  = (if stopped (steps k (enter s)) && negb (aborted (steps k (enter s)))
     then 4 else Session.step (session s)) /\
  exists added, Session.collected (session (mem (steps k (enter s))))
                = Session.collected (session s) ++ added.
Proof.
  apply (@steps_invariant _ create _
           (fun c =>
              Session.topic (session (mem c)) = Session.topic (session s) /\
              Session.questions (session (mem c)) = Session.questions (session s) /\
              Session.answers (session (mem c)) = Session.answers (session s) /\
              Session.report (session (mem c)) = Session.report (session s) /\
              Session.goal (session (mem c)) = Session.goal (session s) /\
              Session.queries (session (mem c)) = Session.queries (session s) /\
              Session.step (session (mem c))
              = (if stopped c && negb (aborted c) then 4
                 else Session.step (session s)) /\
              exists added, Session.collected (session (mem c))
                            = Session.collected (session s) ++ added)).
  - intros c d Hcd [H1 [H2 [H3 [H4 [H5 [H6 [H7 [added H8]]]]]]]].
    destruct (transition_fields Hcd) as [F1 [F2 [F3 F4]]].
    destruct (transition_session Hcd) as [_ [G1 [G2 [more [G3 _]]]]].
    repeat split; try congruence.
    + destruct (transition_step Hcd) as [->|[Hc Hd]]; [exact H7|].
      rewrite Hc in H7. now rewrite Hd, H7.
    + exists (added ++ more). unfold evidence in G3.
      now rewrite G3, H8, app_assoc.
  - unfold enter, start_pass, stopped, aborted. cbn.
    repeat split; auto.
    + destruct (py_iter (Session.queries (session s))); reflexivity.
    + exists []. now rewrite app_nil_r.
Qed.

(** X5. The loop writes two fields of the session and no other: it
    appends to [collected], and it sets [step] to 4 when, and only when, it
    finishes. The topic, the questions, the answers, the goal, the
    queries and the report are, after any number of steps and however the
    loop ends, what they were when it was entered. *)
Theorem loop_writes_only_collected_and_step :
  forall (s : state W) (k : nat),
    Session.topic (session (mem (steps k (enter s))))
    = Session.topic (session s) /\
    Session.questions (session (mem (steps k (enter s))))
    = Session.questions (session s) /\
    Session.answers (session (mem (steps k (enter s))))
    = Session.answers (session s) /\
    Session.goal (session (mem (steps k (enter s))))
    = Session.goal (session s) /\
    Session.queries (session (mem (steps k (enter s))))
    = Session.queries (session s) /\
    Session.report (session (mem (steps k (enter s))))
    = Session.report (session s) /\
    (pc (steps k (enter s)) = Finished ->
     Session.step (session (mem (steps k (enter s)))) = 4) /\
    (pc (steps k (enter s)) <> Finished ->
     Session.step (session (mem (steps k (enter s))))
     = Session.step (session s)) /\
    exists added,
      Session.collected (session (mem (steps k (enter s))))
      = Session.collected (session s) ++ added.
Proof.
  intros s k.
  destruct (loop_fields s k) as [H1 [H2 [H3 [H4 [H5 [H6 [H7 H8]]]]]]].
  repeat split; auto.
  - intros Hpc. rewrite H7. unfold stopped, aborted. now rewrite Hpc.
  - intros Hpc. rewrite H7. unfold stopped, aborted.
    destruct (pc (steps k (enter s))); congruence || reflexivity.
Qed.

(** ** The ledger of a run: calls against evidence *)

Lemma sends_all_evidence_snoc (ev0 : list evidence_item) (tr : list call)
  (x : call) :
  sends_all_evidence ev0 tr ->
  (is_search (call_request x) = false ->
   evidence_sent (call_request x) = Some (ev0 ++ gathered tr)) ->
  sends_all_evidence ev0 (tr ++ [x]).
Proof.
  intros H Hx pre y post Heq Hy.
  apply snoc_split in Heq as [[-> [-> ->]]|[post' [-> ->]]].
  - now apply Hx.
  - now apply (H pre y post').
Qed.

Lemma ledger_steps (s0 : state W) (k : nat) :
  exists tr,
    calls (mem (steps k (enter s0))) = calls s0 ++ tr /\
    evidence (steps k (enter s0))
    = Session.collected (session s0) ++ gathered tr /\
    sends_all_evidence (Session.collected (session s0)) tr.
Proof.
  apply (@steps_invariant _ create _
           (fun c =>
              exists tr,
                calls (mem c) = calls s0 ++ tr /\
                evidence c = Session.collected (session s0) ++ gathered tr /\
                sends_all_evidence (Session.collected (session s0)) tr)).
  - intros c d Hcd [tr [Hcalls [Hev Hsent]]]. unfold evidence in *.
    destruct Hcd as [Hpc|q rest reply w item Hpc Hc Hr|q rest reply w e Hpc Hc Hr
                     |reply w Hpc Hc Hv|reply w Hpc Hc Hv|reply w e Hpc Hc Hv
                     |reply w qs Hpc Hc Hx|reply w e Hpc Hc Hx|Hstop].
    + exists tr. repeat split; assumption.
    + exists (tr ++ [{| call_request := search_request q; call_reply := reply |}]).
      split; [cbn; now rewrite Hcalls, <- app_assoc|].
      rewrite gathered_snoc. unfold item_of. cbn. rewrite Hr.
      split; [now rewrite Hev, <- app_assoc|].
      apply sends_all_evidence_snoc; [exact Hsent | discriminate].
    + exists (tr ++ [{| call_request := search_request q; call_reply := reply |}]).
      split; [cbn; now rewrite Hcalls, <- app_assoc|].
      rewrite gathered_snoc. unfold item_of. cbn. rewrite Hr, app_nil_r.
      split; [exact Hev|].
      apply sends_all_evidence_snoc; [exact Hsent | discriminate].
    + eexists. split; [cbn; rewrite Hcalls, <- app_assoc; reflexivity|].
      rewrite gathered_snoc. unfold item_of. cbn. rewrite app_nil_r.
      split; [exact Hev|].
      apply sends_all_evidence_snoc; [exact Hsent|]. intros _. cbn.
      unfold evidence. now rewrite Hev.
    + eexists. split; [cbn; rewrite Hcalls, <- app_assoc; reflexivity|].
      rewrite gathered_snoc. unfold item_of. cbn. rewrite app_nil_r.
      split; [exact Hev|].
      apply sends_all_evidence_snoc; [exact Hsent|]. intros _. cbn.
      unfold evidence. now rewrite Hev.
    + eexists. split; [cbn; rewrite Hcalls, <- app_assoc; reflexivity|].
      rewrite gathered_snoc. unfold item_of. cbn. rewrite app_nil_r.
      split; [exact Hev|].
      apply sends_all_evidence_snoc; [exact Hsent|]. intros _. cbn.
      unfold evidence. now rewrite Hev.
    + eexists. split; [cbn; rewrite Hcalls, <- app_assoc; reflexivity|].
      rewrite gathered_snoc. unfold item_of. cbn. rewrite app_nil_r.
      split; [exact Hev|].
      apply sends_all_evidence_snoc; [exact Hsent|]. intros _. cbn.
      unfold evidence. now rewrite Hev.
    + eexists. split; [cbn; rewrite Hcalls, <- app_assoc; reflexivity|].
      rewrite gathered_snoc. unfold item_of. cbn. rewrite app_nil_r.
      split; [exact Hev|].
      apply sends_all_evidence_snoc; [exact Hsent|]. intros _. cbn.
      unfold evidence. now rewrite Hev.
    + exists tr. repeat split; assumption.
  - exists []. cbn. rewrite !app_nil_r. repeat split.
    intros pre x post H. destruct pre; discriminate.
Qed.

(** X6. The evidence of the session is, at every point of a run of the
    loop, what it was at entry followed by the items that the search
    calls of the run have yielded, one for each search that came back
    with a result, in the order of the calls. *)
Theorem evidence_is_what_the_searches_yielded :
  forall (s0 : state W) (k : nat),
    evidence (steps k (enter s0))
    = Session.collected (session s0)
      ++ gathered (calls_since s0 (steps k (enter s0))) /\
    length (evidence (steps k (enter s0)))
    <= length (Session.collected (session s0))
       + length (searches (calls_since s0 (steps k (enter s0)))).
Proof.
  intros s0 k. destruct (ledger_steps s0 k) as [tr [Hcalls [Hev _]]].
  unfold calls_since. rewrite Hcalls, skipn_prefix. split; [exact Hev|].
  rewrite Hev, length_app. apply Nat.add_le_mono_l, gathered_length.
Qed.

(** X7. Every evaluation and every expansion of a run sends all the
    evidence there is at that point: what the session held at entry and
    every item gathered by the calls before it. An expansion sends what
    the evaluation before it has judged. *)
Theorem evaluations_and_expansions_send_all_evidence :
  forall (s0 : state W) (k : nat) pre x post,
    calls_since s0 (steps k (enter s0)) = pre ++ x :: post ->
    is_search (call_request x) = false ->
    evidence_sent (call_request x)
    = Some (Session.collected (session s0) ++ gathered pre) /\
    (forall y post', post = y :: post' ->
       is_expand (call_request y) = true ->
       evidence_sent (call_request y) = evidence_sent (call_request x)).
Proof.
  intros s0 k pre x post Htr Hx.
  destruct (ledger_steps s0 k) as [tr [Hcalls [_ Hsent]]].
  unfold calls_since in Htr. rewrite Hcalls, skipn_prefix in Htr. subst tr.
  split; [now apply (Hsent pre x post)|].
  intros y post' -> Hy.
  rewrite (Hsent pre x (y :: post') eq_refl Hx).
  rewrite (Hsent (pre ++ [x]) y post').
  - rewrite gathered_snoc. unfold item_of, query_of.
    unfold is_search in Hx. destruct (tools (call_request x)); [discriminate|].
    now rewrite app_nil_r.
  - now rewrite <- app_assoc.
  - unfold is_search, is_expand, roles in *.
    destruct (tools (call_request y)) eqn:Ht; [|reflexivity].
    exfalso.
    destruct (loop_calls_steps create s0 k) as [_ [tr [Hcalls' Hall]]].
    rewrite Hcalls in Hcalls'. apply app_inv_head in Hcalls'. subst tr.
    rewrite Forall_forall in Hall.
    assert (Hin : In y (pre ++ x :: y :: post'))
      by (apply in_or_app; right; right; now left).
    destruct (Hall y Hin) as [[q Hq]|[[coll Hq]|[coll Hq]]];
      rewrite Hq in *; discriminate.
Qed.

(** X8. The loop displays an error only when an expansion stops the
    script: after any number of steps [st.error] has shown what it had
    shown at entry, or one message more, and then the loop was stopped by
    [st.stop()] and its last call is the expansion. A search or an
    evaluation that fails ends the loop without a message. *)
Theorem loop_displays_only_a_stopping_expansion :
  forall (s0 : state W) (k : nat),
    shown (mem (steps k (enter s0))) = shown s0 \/
    (pc (steps k (enter s0)) = Aborted StopException /\
     exists msg tr x,
       shown (mem (steps k (enter s0))) = shown s0 ++ [msg] /\
       calls (mem (steps k (enter s0))) = tr ++ [x] /\
       is_expand (call_request x) = true).
Proof.
  intros s0 k.
  apply (@steps_invariant _ create _
           (fun c =>
              shown (mem c) = shown s0 \/
              (pc c = Aborted StopException /\
               exists msg tr x,
                 shown (mem c) = shown s0 ++ [msg] /\
                 calls (mem c) = tr ++ [x] /\
                 is_expand (call_request x) = true))).
  - intros c d Hcd [Hsame|[Hpc Hmsg]].
    + destruct Hcd as [Hpc|q rest reply w item Hpc Hc Hr
                       |q rest reply w e Hpc Hc Hr
                       |reply w Hpc Hc Hv|reply w Hpc Hc Hv|reply w e Hpc Hc Hv
                       |reply w qs Hpc Hc Hx|reply w e Hpc Hc Hx|Hstop];
        try (left; exact Hsame).
      * left. cbn. rewrite (proj1 (expansion_of_messages reply) qs Hx).
        now rewrite app_nil_r.
      * destruct (proj2 (expansion_of_messages reply) e Hx)
          as [Hnil|[-> [msg Hm]]].
        -- left. cbn. now rewrite Hnil, app_nil_r.
        -- right. split; [reflexivity|].
           exists msg, (calls (mem c)),
             {| call_request := expand_request (evidence c) (goal c) None;
                call_reply := reply |}.
           cbn. rewrite Hm, Hsame. repeat split.
    + destruct Hcd; try congruence. right. now split.
  - left. reflexivity.
Qed.

End LoopLedger.

(* ================================================================== *)
(** * The pages in sequence *)

Lemma truthy_reset_value (v : pyval) :
  Truth.truthy (Fields.reset_value v) = false.
Proof. destruct v; reflexivity. Qed.

Lemma read_answers_length (ui : widgets) (questions : list string) :
  length (read_answers ui questions) = length questions.
Proof. unfold read_answers. now rewrite length_map, length_seq. Qed.

#[local] Arguments read_answers : simpl never.

Section PagesInSequence.
Variable W : Type.
Variable create : request -> W -> result response * W.
Context {python : Json.Interpreter}.

Lemma generate_plan_session (s : state W) :
  (exists e, fst (generate_plan create s) = Raise e /\
             session (snd (generate_plan create s)) = session s) \/
  (exists g q, fst (generate_plan create s) = Ok tt /\
               session (snd (generate_plan create s))
               = Session.set_plan g q (session s)).
Proof.
  unfold generate_plan, bind. rewrite get_goal_and_queries_eq. cbv zeta.
  destruct (create _ (world s)) as [reply w]. cbn [fst snd].
  destruct (plan_of reply) as [[g q]|e]; cbn; eauto.
Qed.

Lemma script_at_step_3 (fuel : nat) (ui : widgets) (s : state W) :
  Session.step (session s) = 3 ->
  snd (script create fuel ui s) = mem (run create fuel (enter s)) /\
  fst (script create fuel ui s)
  = match pc (run create fuel (enter s)) with
    | Finished => Rerun
    | Aborted e => Raised e
    | Searching _ | Evaluating | Expanding => Unfinished
    end.
Proof.
  intros Hstep. unfold script. rewrite Hstep.
  destruct (pc (run create fuel (enter s))); split; reflexivity.
Qed.

Lemma script_well_phased (fuel : nat) (ui : widgets) (s : state W) :
  well_phased (session s) ->
  well_phased (session (snd (script create fuel ui s))).
Proof.
  intros Hwp.
  destruct (Nat.eq_dec (Session.step (session s)) 3) as [H3|H3].
  { destruct (script_at_step_3 fuel ui s H3) as [-> _].
    destruct (loop_fields create s fuel)
      as [F1 [F2 [F3 [F4 [F5 [F6 [F7 [added F8]]]]]]]].
    unfold well_phased in *. rewrite F1, F2, F3, F4, F5, F6, F7, H3 in *.
    destruct Hwp as [P1 [P2 [P3 [P4 [P5 [P6 [P7 P8]]]]]]].
    destruct (stopped _ && negb (aborted _)).
    - repeat split; intros; try lia; try (apply P2; lia);
        try (apply P3; lia); try (apply P4; lia).
    - repeat split; intros; try lia; try (apply P2; lia);
        try (apply P3; lia); try (apply P4; lia); try (apply P7; lia). }
  unfold script.
  destruct s as [w cs sh ss]. destruct ss as [st tp qs an g q col rp].
  unfold well_phased in *. cbn in *.
  destruct Hwp as [P1 [P2 [P3 [P4 [P5 [P6 [P7 P8]]]]]]].
  destruct st as [|[|[|[|[|n]]]]]; try lia; try congruence.
  - (* step 0 *)
    destruct (submitted ui); cbn;
      [destruct (Str.is_empty (topic_box ui)) eqn:He; cbn|];
      repeat split; intros; try lia; auto;
      try (apply P5; lia); try (apply P8; lia).
    intros Hempty. rewrite Hempty in He. discriminate.
  - (* step 1 *)
    unfold fetch_questions. cbn.
    destruct qs as [|q0 qs].
    + unfold bind. rewrite ask_clarifying_questions_eq. cbv zeta. cbn.
      destruct (create (clarify_request tp) w) as [reply w']. cbn.
      match goal with
      | |- context [rbind reply ?k] => destruct (rbind reply k) as [qs'|e]
      end; cbn.
      * destruct (submitted ui && forallb _ _) eqn:Hsub; cbn;
          repeat split; intros; try lia; auto;
          try (apply P2; lia); try (apply P5; lia).
        -- apply read_answers_length.
        -- apply andb_true_iff in Hsub. apply Hsub.
      * repeat split; intros; try lia; auto;
          try (apply P2; lia); try (apply P5; lia).
    + destruct (submitted ui && forallb _ _) eqn:Hsub; cbn;
        repeat split; intros; try lia; auto;
        try (apply P2; lia); try (apply P5; lia).
      * apply read_answers_length.
      * apply andb_true_iff in Hsub. apply Hsub.
  - (* step 2 *)
    unfold bind, fetch_plan, list_queries. cbn.
    set (s := {| world := w; calls := cs; shown := sh;
                 session := {| Session.step := 2; Session.topic := tp;
                               Session.questions := qs; Session.answers := an;
                               Session.goal := g; Session.queries := q;
                               Session.collected := col;
                               Session.report := rp |} |}).
    destruct (negb (Truth.truthy g) || negb (Truth.truthy q)).
    + destruct (generate_plan_session s) as [[e [He Hs]]|[g' [q' [He Hs]]]];
        destruct (generate_plan create s) as [r s1]; cbn in He, Hs; subst r.
      * cbn. rewrite Hs. cbn.
        repeat split; intros; try lia; auto;
          try (apply P2; lia); try (apply P3; lia); try (apply P6; lia);
          try (apply P7; lia).
      * destruct s1 as [w1 cs1 sh1 ss1]. cbn in Hs. subst ss1. cbn.
        destruct (py_iter q') eqn:Hit; [destruct (clicked ui)|]; cbn;
          repeat split; intros; try lia; auto;
          try (apply P2; lia); try (apply P3; lia); try (apply P6; lia);
          try (apply P7; lia).
        now rewrite Hit.
    + subst s. cbn.
      destruct (py_iter q) eqn:Hit; [destruct (clicked ui)|]; cbn;
        repeat split; intros; try lia; auto;
        try (apply P2; lia); try (apply P3; lia); try (apply P6; lia);
        try (apply P7; lia).
      now rewrite Hit.
  - (* step 4 *)
    unfold fetch_report. cbn.
    destruct (Str.is_empty rp).
    + unfold bind. rewrite write_report_eq. cbv zeta. cbn.
      destruct (create (report_request g col) w) as [reply w']. cbn.
      destruct (rbind reply first_text) as [r|e]; cbn;
        [destruct (clicked ui); cbn|];
        repeat split; intros; try lia; auto;
        try (apply P2; lia); try (apply P3; lia); try (apply P4; lia);
        try apply truthy_reset_value.
    + destruct (clicked ui); cbn;
        repeat split; intros; try lia; auto;
        try (apply P2; lia); try (apply P3; lia); try (apply P4; lia);
        try apply truthy_reset_value.
Qed.

Lemma initial_well_phased : well_phased Session.initial.
Proof.
  unfold well_phased. cbn. repeat split; intros; try lia; auto.
Qed.

(** X9. The session is filled in the order of the phases. From the
    session of a first run, and after any sequence of runs of the script
    with whatever the user enters and presses, however each run ends:
    [step] is at most 4; from step 1 on there is a topic; from step 2 on
    there is one answer for each question and no answer is blank; from
    step 3 on the queries can be iterated over; before step 2 there is no
    plan, before step 3 no evidence, before step 4 no report. *)
Theorem session_is_filled_in_phase_order :
  forall fuel uis (s : state W),
    (session s = Session.initial \/ well_phased (session s)) ->
    well_phased (session (visits create fuel uis s)).
Proof.
  intros fuel uis s Hs.
  assert (Hwp : well_phased (session s))
    by (destruct Hs as [->|H]; [apply initial_well_phased | exact H]).
  clear Hs. revert s Hwp.
  induction uis as [|ui uis IH]; intros s Hwp; cbn; [exact Hwp|].
  apply IH. now apply script_well_phased.
Qed.

(** X10. A loop that was aborted starts over from the plan. When the run
    at step 3 ends with an exception, the session is still at step 3, it
    holds the evidence gathered so far added to what it held before, and
    all its other fields are as before; so the next run enters the loop
    with the queries of the plan, not with those of the last expansion,
    and its first pass searches the plan's queries once more. *)
Theorem aborted_loop_starts_over_from_the_plan :
  forall fuel ui (s : state W) e,
    Session.step (session s) = 3 ->
    fst (script create fuel ui s) = Raised e ->
    let s' := snd (script create fuel ui s) in
    Session.step (session s') = 3 /\
    Session.queries (session s') = Session.queries (session s) /\
    Session.goal (session s') = Session.goal (session s) /\
    (exists added,
       Session.collected (session s') = Session.collected (session s) ++ added) /\
    pc (enter s') = pc (enter s) /\
    queries (enter s') = Session.queries (session s) /\
    count (enter s') = 0.
Proof.
  intros fuel ui s e Hstep Hend. cbv zeta.
  destruct (script_at_step_3 fuel ui s Hstep) as [Hs Hf].
  rewrite Hf in Hend. rewrite Hs.
  destruct (loop_fields create s fuel)
    as [_ [_ [_ [_ [F5 [F6 [F7 F8]]]]]]].
  assert (Hnf : stopped (run create fuel (enter s))
                && negb (aborted (run create fuel (enter s))) = false).
  { unfold stopped, aborted.
    destruct (pc (run create fuel (enter s))); try discriminate; reflexivity. }
  rewrite Hnf in F7.
  split; [congruence|]. split; [exact F6|]. split; [exact F5|].
  split; [exact F8|].
  remember (mem (run create fuel (enter s))) as s1 eqn:Hs1.
  unfold enter, start_pass. cbn [pc queries count]. rewrite F6.
  repeat split.
Qed.

(** X11. The button of step 4 clears the session: after it [step] is 0 and
    topic, questions, answers, evidence and report are empty. The goal
    and the queries become the empty list if they were a list and the
    empty string otherwise; so the session is that of a first run exactly
    when the goal was no list and the queries were one. Either way no
    plan is left, and the next research is planned anew. *)
Theorem new_research_clears_the_session :
  forall fuel ui (s : state W),
    Session.step (session s) = 4 ->
    clicked ui = true ->
    fst (script create fuel ui s) = Rerun ->
    session (snd (script create fuel ui s)) = Fields.reset (session s) /\
    (Fields.reset (session s) = Session.initial <->
     (forall xs, Session.goal (session s) <> PList xs) /\
     (exists xs, Session.queries (session s) = PList xs)) /\
    Truth.truthy (Session.goal (Fields.reset (session s))) = false /\
    Truth.truthy (Session.queries (Fields.reset (session s))) = false.
Proof.
  intros fuel ui s Hstep Hclick Hend.
  split; [|split; [|split; apply truthy_reset_value]].
  - unfold script in *. rewrite Hstep in *. unfold fetch_report in *.
    destruct (Str.is_empty (Session.report (session s))).
    + unfold bind in *. rewrite write_report_eq in *. cbv zeta in *.
      destruct (create _ (world s)) as [reply w]. cbn [fst snd] in *.
      destruct (rbind reply first_text); cbn in *; [|discriminate].
      rewrite Hclick in *. reflexivity.
    + rewrite Hclick in *. reflexivity.
  - unfold Fields.reset, Session.initial. split.
    + intros H. injection H as Hg Hq. split.
      * intros xs Hxs. rewrite Hxs in Hg. discriminate.
      * destruct (Session.queries (session s)); try discriminate. eauto.
    + intros [Hg [xs Hq]]. rewrite Hq. cbn.
      destruct (Session.goal (session s)) eqn:Hgoal; try reflexivity.
      exfalso. now apply (Hg xs0).
Qed.

End PagesInSequence.

(* ================================================================== *)
(** * Runs that raise *)

Section PagesThatRaise.
Variable W : Type.
Variable create : request -> W -> result response * W.
Context {python : Json.Interpreter}.

Lemma script_with_unlistable_queries (fuel : nat) (ui : widgets)
  (s : state W) (e : exn) :
  Session.step (session s) = 2 ->
  Truth.truthy (Session.goal (session s)) = true ->
  Truth.truthy (Session.queries (session s)) = true ->
  py_iter (Session.queries (session s)) = Raise e ->
  script create fuel ui s = (Raised e, s).
Proof.
  intros Hstep Hg Hq Hiter.
  unfold script, bind, fetch_plan, list_queries.
  rewrite Hstep, Hg, Hq. cbn [negb orb]. now rewrite Hiter.
Qed.

(** X12. A plan whose queries are true but cannot be iterated over (a
    number, say) holds the page of step 2 for good: the plan is stored
    before its queries are listed, and a stored plan is not fetched
    again. Whatever the user enters or presses from then on, every run
    raises the same exception, makes no call to the gateway and leaves
    the session, the log and the world as they are. *)
Theorem unlistable_queries_hold_the_plan_page :
  forall fuel (s : state W) e,
    Session.step (session s) = 2 ->
    Truth.truthy (Session.goal (session s)) = true ->
    Truth.truthy (Session.queries (session s)) = true ->
    py_iter (Session.queries (session s)) = Raise e ->
    forall uis ui,
      visits create fuel uis s = s /\
      script create fuel ui (visits create fuel uis s) = (Raised e, s).
Proof.
  intros fuel s e Hstep Hg Hq Hiter uis ui.
  assert (Hv : visits create fuel uis s = s).
  { induction uis as [|u uis IH]; cbn [visits]; [reflexivity|].
    now rewrite (script_with_unlistable_queries fuel u s Hstep Hg Hq Hiter). }
  rewrite Hv. split; [reflexivity|].
  now apply script_with_unlistable_queries.
Qed.

(** X13. A run of a page other than the loop that ends with an exception
    leaves the session as it was, with one exception: at step 2 the plan
    that was just fetched stays in the session when it is its queries
    that cannot be listed. *)
Theorem raising_page_keeps_the_session :
  forall fuel ui (s : state W) e,
    Session.step (session s) <> 3 ->
    fst (script create fuel ui s) = Raised e ->
    session (snd (script create fuel ui s)) = session s \/
    (Session.step (session s) = 2 /\
     (Truth.truthy (Session.goal (session s)) = false \/
      Truth.truthy (Session.queries (session s)) = false) /\
     exists g q,
       session (snd (script create fuel ui s))
       = Session.set_plan g q (session s) /\
       py_iter q = Raise e).
Proof.
  intros fuel ui s e H3 Hend. unfold script in *.
  destruct (Session.step (session s)) as [|[|[|[|[|n]]]]] eqn:Hs;
    try congruence.
  - destruct (submitted ui && negb (Str.is_empty (topic_box ui)));
      discriminate.
  - unfold fetch_questions in *.
    destruct (Session.questions (session s)) as [|q qs] eqn:Hq.
    + unfold bind in *. rewrite ask_clarifying_questions_eq in *.
      cbv zeta in *.
      destruct (create _ (world s)) as [reply w]. cbn [fst snd] in *.
      destruct (rbind reply _) as [qs|e']; cbn in *.
      * destruct (submitted ui && _); discriminate.
      * left. reflexivity.
    + destruct (submitted ui && _); discriminate.
  - unfold bind, fetch_plan, list_queries in *.
    destruct (negb (Truth.truthy (Session.goal (session s)))
              || negb (Truth.truthy (Session.queries (session s))))
      eqn:Hneed.
    + destruct (generate_plan_session create s)
        as [[e' [He Hs']]|[g [q [Ho Hs']]]].
      * destruct (generate_plan create s) as [[[]|e''] s1];
          cbn [fst snd] in *; [discriminate|]. left. exact Hs'.
      * destruct (generate_plan create s) as [[[]|e''] s1];
          cbn [fst snd] in *; [|discriminate].
        rewrite Hs' in *. cbn [Session.queries Session.set_plan] in *.
        destruct (py_iter q) as [xs|e0] eqn:Hiter.
        -- destruct (clicked ui); discriminate.
        -- cbn [fst snd] in *. injection Hend as ->. right.
           split; [reflexivity|]. split.
           { apply orb_true_iff in Hneed.
             destruct Hneed as [H|H]; apply negb_true_iff in H; auto. }
           exists g, q. split; [exact Hs'|exact Hiter].
    + destruct (py_iter (Session.queries (session s))) as [xs|e0].
      * destruct (clicked ui); discriminate.
      * left. reflexivity.
  - unfold fetch_report in *.
    destruct (Str.is_empty (Session.report (session s))).
    + unfold bind in *. rewrite write_report_eq in *. cbv zeta in *.
      destruct (create _ (world s)) as [reply w]. cbn [fst snd] in *.
      destruct (rbind reply _) as [r|e']; cbn in *.
      * destruct (clicked ui); discriminate.
      * left. reflexivity.
    + destruct (clicked ui); discriminate.
  - discriminate.
Qed.

End PagesThatRaise.

(* ================================================================== *)
(** * The pages on the stub gateways *)

(** A whole visit: the topic, the two questions answered, the plan, the
    loop with an evaluator that is satisfied at once, the report; six
    calls to the gateway in all. A press of the last button then gives the
    session of a first run. *)
Example a_visit_from_topic_to_report :
  let s := visits Desk.gateway 20 Desk.visit Desk.fresh in
  Session.step (session s) = 4 /\
  Session.questions (session s)
  = ["1. Who reads the report?"; "2. Which years matter?"] /\
  Session.answers (session s) = ["investors"; "2020 to 2025"] /\
  Session.goal (session s) = PStr "Assess storage trends" /\
  Session.queries (session s) = PList [PStr "q1"; PStr "q2"] /\
  length (Session.collected (session s)) = 2 /\
  Session.report (session s) = "Storage is cheap [1]." /\
  length (calls s) = 6 /\
  session (snd (script Desk.gateway 20 Desk.press s)) = Session.initial.
Proof. vm_compute. repeat split. Qed.

Lemma ask_clarifying_questions_returns_the_nonblank_lines_witness :
  exists questions,
    ask_clarifying_questions Desk.gateway "solar battery storage" Desk.fresh
    = (Ok questions,
       logged Desk.fresh (clarify_request "solar battery storage")
         (Ok (Stub.text_reply Desk.questions_text)) 0) /\
    questions
    = filter (fun q => negb (Text.blank q))
        (Text.split_lines Desk.questions_text) /\
    Text.join_lines (Text.split_lines Desk.questions_text)
    = Desk.questions_text /\
    (forall q,
       In q questions <->
       In q (Text.split_lines Desk.questions_text) /\ Text.blank q = false) /\
    Forall (fun q => Text.has_newline q = false) questions /\
    length questions <= length (Text.split_lines Desk.questions_text) /\
    (questions = [] <->
     forallb Text.blank (Text.split_lines Desk.questions_text) = true).
Proof.
  apply (@ask_clarifying_questions_returns_the_nonblank_lines _ Desk.gateway
           "solar battery storage" Desk.fresh
           (Stub.text_reply Desk.questions_text) 0 Desk.questions_text);
    reflexivity.
Defined.

Lemma no_questions_let_the_form_through_witness :
  let s := Stub.start [Ok (Stub.text_reply "  
 ")] (Fields.set_topic "solar battery storage" Session.initial) in
  let ui := {| topic_box := EmptyString; answer_boxes := [];
               submitted := true; clicked := false |} in
  fst (script Stub.scripted 0 ui s) = Rerun /\
  Session.step (session (snd (script Stub.scripted 0 ui s))) = 2 /\
  Session.answers (session (snd (script Stub.scripted 0 ui s))) = [].
Proof.
  intros s ui.
  destruct (@no_questions_let_the_form_through _ Stub.scripted _ 0 ui s
              (Stub.text_reply "  
 ") [] "  
 " eq_refl eq_refl eq_refl eq_refl eq_refl) as [_ [_ [H _]]].
  apply H. reflexivity.
Defined.

Lemma settled_page_makes_no_call_witness :
  let s := visits Desk.gateway 0 [Desk.enter_topic; Desk.idle] Desk.fresh in
  calls (snd (script Desk.gateway 0 Desk.idle s)) = calls s /\
  world (snd (script Desk.gateway 0 Desk.idle s)) = world s /\
  script Desk.gateway 0 Desk.idle s = (Completed, s).
Proof.
  intros s.
  destruct (@settled_page_makes_no_call _ Desk.gateway _ 0 Desk.idle s eq_refl)
    as [H1 [H2 H3]].
  split; [exact H1|]. split; [exact H2|]. apply H3; reflexivity.
Defined.

Lemma pages_call_the_gateway_at_most_once_witness :
  shown (snd (script Desk.gateway 0 Desk.idle Desk.topic_entered))
  = shown Desk.topic_entered /\
  (calls (snd (script Desk.gateway 0 Desk.idle Desk.topic_entered))
   = calls Desk.topic_entered \/
   exists r reply,
     calls (snd (script Desk.gateway 0 Desk.idle Desk.topic_entered))
     = calls Desk.topic_entered
       ++ [{| call_request := r; call_reply := reply |}] /\
     Desk.gateway r (world Desk.topic_entered)
     = (reply,
        world (snd (script Desk.gateway 0 Desk.idle Desk.topic_entered))) /\
     r = clarify_request "solar battery storage").
Proof.
  apply (@pages_call_the_gateway_at_most_once _ Desk.gateway _ 0 Desk.idle
           Desk.topic_entered).
  discriminate.
Defined.

Lemma loop_writes_only_collected_and_step_witness :
  let c := run (Stub.by_shape 2 Stub.five_more) 15
             (enter (Stub.start 0 Stub.planned)) in
  Session.step (session (mem c)) = 4 /\
  Session.queries (session (mem c)) = Stub.five_queries.
Proof.
  intros c.
  destruct (@loop_writes_only_collected_and_step _
              (Stub.by_shape 2 Stub.five_more) _ (Stub.start 0 Stub.planned) 15)
    as [_ [_ [_ [_ [Hq [_ [Hfin _]]]]]]].
  split; [apply Hfin; reflexivity | exact Hq].
Defined.

Lemma evaluations_and_expansions_send_all_evidence_witness :
  let tr := calls (mem (run (Stub.by_shape 2 Stub.five_more) 15
                          (enter (Stub.start 0 Stub.planned)))) in
  evidence_sent (call_request Stub.expansion_call)
  = Some (Session.collected (session (Stub.start 0 Stub.planned))
          ++ gathered (firstn 6 tr)) /\
  length (gathered (firstn 6 tr)) = 5.
Proof.
  intros tr. split; [|vm_compute; reflexivity].
  destruct (@evaluations_and_expansions_send_all_evidence _
              (Stub.by_shape 2 Stub.five_more) _ (Stub.start 0 Stub.planned) 15
              (firstn 6 tr) Stub.expansion_call (skipn 7 tr)) as [H _].
  - vm_compute; reflexivity.
  - vm_compute; reflexivity.
  - exact H.
Defined.

Lemma session_is_filled_in_phase_order_witness :
  well_phased (session (visits Desk.gateway 20 Desk.visit Desk.fresh)).
Proof.
  apply (@session_is_filled_in_phase_order _ Desk.gateway _ 20 Desk.visit
           Desk.fresh).
  left. reflexivity.
Defined.

Lemma aborted_loop_starts_over_from_the_plan_witness :
  let gateway := Stub.by_shape 0 "42" in
  let s := Stub.start 0 Stub.planned in
  let s' := snd (script gateway 20 Desk.idle s) in
  Session.step (session s') = 3 /\
  Session.queries (session s') = Session.queries (session s) /\
  Session.goal (session s') = Session.goal (session s) /\
  (exists added,
     Session.collected (session s') = Session.collected (session s) ++ added) /\
  pc (enter s') = pc (enter s) /\
  queries (enter s') = Session.queries (session s) /\
  count (enter s') = 0.
Proof.
  intros gateway s.
  apply (@aborted_loop_starts_over_from_the_plan _ gateway _ 20 Desk.idle s
           TypeError); reflexivity.
Defined.

Lemma new_research_clears_the_session_witness :
  let s := visits Desk.gateway 20 Desk.visit Desk.fresh in
  session (snd (script Desk.gateway 20 Desk.press s)) = Fields.reset (session s) /\
  Fields.reset (session s) = Session.initial.
Proof.
  intros s.
  assert (Hstep : Session.step (session s) = 4) by (vm_compute; reflexivity).
  assert (Hclick : clicked Desk.press = true) by reflexivity.
  assert (Hend : fst (script Desk.gateway 20 Desk.press s) = Rerun)
    by (vm_compute; reflexivity).
  destruct (@new_research_clears_the_session _ Desk.gateway _ 20 Desk.press s
              Hstep Hclick Hend) as [H1 [H2 _]].
  split; [exact H1|]. apply H2. split.
  - intros xs H.
    assert (Hg : Session.goal (session s) = PStr "Assess storage trends")
      by (vm_compute; reflexivity).
    discriminate (eq_trans (eq_sym Hg) H).
  - exists [PStr "q1"; PStr "q2"]. vm_compute; reflexivity.
Defined.

Lemma unlistable_queries_hold_the_plan_page_witness :
  let s := snd (script Stub.scripted 0 Desk.idle
                  (Stub.start
                     [Ok (Stub.text_reply (jtext "{'goal': 'g', 'queries': 5}"))]
                     (Fields.set_answers []
                        (Fields.set_topic "tides" Session.initial)))) in
  visits Stub.scripted 0 [Desk.press; Desk.idle; Desk.answer_all] s = s /\
  script Stub.scripted 0 Desk.press
    (visits Stub.scripted 0 [Desk.press; Desk.idle; Desk.answer_all] s)
  = (Raised TypeError, s).
Proof.
  intros s.
  apply (@unlistable_queries_hold_the_plan_page _ Stub.scripted _ 0 s TypeError);
    vm_compute; reflexivity.
Defined.

Lemma raising_page_keeps_the_session_witness :
  let s := Stub.start
             [Ok (Stub.text_reply (jtext "{'goal': 'g', 'queries': 5}"))]
             (Fields.set_answers []
                (Fields.set_topic "tides" Session.initial)) in
  session (snd (script Stub.scripted 0 Desk.idle s)) = session s \/
  (Session.step (session s) = 2 /\
   (Truth.truthy (Session.goal (session s)) = false \/
    Truth.truthy (Session.queries (session s)) = false) /\
   exists g q,
     session (snd (script Stub.scripted 0 Desk.idle s))
     = Session.set_plan g q (session s) /\
     py_iter q = Raise TypeError).
Proof.
  intros s.
  apply (@raising_page_keeps_the_session _ Stub.scripted _ 0 Desk.idle s
           TypeError).
  - discriminate.
  - vm_compute; reflexivity.
Defined.
